(** * ro-manager: HTTP session utilities and remote RO metadata

    A shallow embedding of [src/MiscUtils/HttpSession.py] and of the
    manifest/annotation part of [src/rocommand/ro_remote_metadata.py],
    followed by the properties of these functions.

    Python values are modelled as follows.
    - [str] is [string]; [txt[i]] is [String.get], [txt[a:b]] is [slice].
    - a [dict] keyed by strings is a [gmap string _].
    - an exception is a constructor of [exn]; a call that can raise returns
      a [res], and the [while] loops of [splitValues] run on fuel. *)

From Stdlib Require Import String Ascii List ZArith Lia Bool.
From stdpp Require Import base option gmap strings.
Import ListNotations.

Local Open Scope string_scope.
Local Open Scope list_scope.
Local Open Scope nat_scope.

(** ** Exceptions and results *)

Inductive exn : Type :=
| IndexError
| KeyError (key : string)
| ValueError (what : string)
| AttributeError (name : string)
| TypeError (what : string)
| UnboundLocalError (name : string)
| HTTP_Error (msg : string) (value : string) (uri : string)
| TransportError (descr : string).

Inductive res (A : Type) : Type :=
| Ret (a : A)
| Raise (e : exn)
| OutOfFuel.

Arguments Ret {A} a.
Arguments Raise {A} e.
Arguments OutOfFuel {A}.

Definition rbind {A B : Type} (m : res A) (k : A -> res B) : res B :=
  match m with
  | Ret a => k a
  | Raise e => Raise e
  | OutOfFuel => OutOfFuel
  end.

Notation "x <- m ;; k" := (rbind m (fun x => k))
  (at level 100, m at next level, right associativity).

(** ** Python string primitives *)

Module Str.

(** [c in s] for a one-character [c], and [s.index(c)]. *)
Fixpoint index (c : ascii) (s : string) : option nat :=
  match s with
  | EmptyString => None
  | String d s' =>
      if Ascii.eqb c d then Some 0
      else match index c s' with
           | Some n => Some (S n)
           | None => None
           end
  end.

Definition mem (c : ascii) (s : string) : bool :=
  match index c s with Some _ => true | None => false end.

(** [s[a:b]] for [0 <= a], clamped to the string like Python's slices. *)
Definition slice (a b : nat) (s : string) : string :=
  String.substring a (b - a) s.

(** [s[i]] *)
Definition at_ (s : string) (i : nat) : res ascii :=
  match String.get i s with
  | Some c => Ret c
  | None => Raise IndexError
  end.

End Str.

Definition backslash : ascii := ascii_of_nat 92.
Definition dquote : ascii := ascii_of_nat 34.

(** ** splitValues (HttpSession.py, lines 29-59) *)

(** The inner loop
    [while cursor < len(txt) and txt[cursor] != eq:
         if txt[cursor] == '\\': cursor += 1
         cursor += 1]
    returning the cursor at which it stops. *)
Fixpoint skip_quoted (fuel : nat) (txt : string) (eq : ascii) (cursor : nat)
  : res nat :=
  match fuel with
  | O => OutOfFuel
  | S fuel' =>
      if cursor <? String.length txt then
        c <- Str.at_ txt cursor ;;
        if negb (Ascii.eqb c eq) then
          let cursor := if Ascii.eqb c backslash then cursor + 1 else cursor in
          skip_quoted fuel' txt eq (cursor + 1)
        else Ret cursor
      else Ret cursor
  end.

(** The outer loop, on the state (result, cursor, begseg), with the final
    [result.append(txt[begseg:cursor])] at its exit. *)
Fixpoint splitValues_loop (fuel : nat) (txt sep lq rq : string)
    (result : list string) (cursor begseg : nat) : res (list string) :=
  match fuel with
  | O => OutOfFuel
  | S fuel' =>
      if cursor <? String.length txt then
        c <- Str.at_ txt cursor ;;
        if Str.mem c lq then
          i <- match Str.index c lq with
               | Some i => Ret i
               | None => Raise (ValueError "substring not found")
               end ;;
          eq <- Str.at_ rq i ;;
          cursor <- skip_quoted fuel' txt eq (cursor + 1) ;;
          let cursor := if cursor <? String.length txt then cursor + 1 else cursor in
          splitValues_loop fuel' txt sep lq rq result cursor begseg
        else if Str.mem c sep then
          let result := result ++ [Str.slice begseg cursor txt] in
          let cursor := cursor + 1 in
          splitValues_loop fuel' txt sep lq rq result cursor cursor
        else
          splitValues_loop fuel' txt sep lq rq result (cursor + 1) begseg
      else
        Ret (result ++ [Str.slice begseg cursor txt])
  end.

Definition splitValues (txt sep lq rq : string) : res (list string) :=
  splitValues_loop (S (String.length txt)) txt sep lq rq [] 0 0.

(** The default arguments: the comma as separator, the double quote and
    the angle brackets as quotes. *)
Definition default_sep : string := ",".
Definition default_lq : string := String dquote "<".
Definition default_rq : string := String dquote ">".


(** *** The tokenizer as the specification describes it

    A one-pass scanner over the characters of the text: a span opens on
    a character of the opening set and closes on its paired character, a
    backslash inside a span escapes the following character, and a
    separator counts only outside spans. *)

Inductive span_state : Type :=
| Unquoted
| InSpan (eq : ascii)
| Escaped (eq : ascii).

(** The closing character paired with an opening character. *)
Definition closer (lq rq : string) (c : ascii) : option ascii :=
  match Str.index c lq with
  | Some i => String.get i rq
  | None => None
  end.

(** One character of the scan: the next state, and whether the character
    is an unquoted separator. *)
Definition tok_step (sep lq rq : string) (st : span_state) (c : ascii)
  : span_state * bool :=
  match st with
  | Unquoted =>
      match closer lq rq c with
      | Some eq => (InSpan eq, false)
      | None => (Unquoted, Str.mem c sep)
      end
  | InSpan eq =>
      if Ascii.eqb c eq then (Unquoted, false)
      else if Ascii.eqb c backslash then (Escaped eq, false)
      else (InSpan eq, false)
  | Escaped eq => (InSpan eq, false)
  end.

(** For each character of the text, whether it is an unquoted separator. *)
Fixpoint unquoted_seps (sep lq rq : string) (st : span_state)
    (txt : list ascii) : list bool :=
  match txt with
  | [] => []
  | c :: t =>
      let '(st', b) := tok_step sep lq rq st c in
      b :: unquoted_seps sep lq rq st' t
  end.

(** Cut a text at its marked characters, which are dropped; [seg] is the
    segment being collected. *)
Fixpoint cut_at (marks : list bool) (txt : list ascii) (seg : list ascii)
  : list (list ascii) :=
  match txt, marks with
  | c :: t, true :: m => seg :: cut_at m t []
  | c :: t, false :: m => cut_at m t (seg ++ [c])
  | _, _ => [seg]
  end.

Definition count_true (marks : list bool) : nat :=
  List.length (List.filter (fun b => b) marks).

Definition separator_marks (txt sep lq rq : string) : list bool :=
  unquoted_seps sep lq rq Unquoted (list_ascii_of_string txt).

Definition segments (txt sep lq rq : string) : list string :=
  List.map string_of_list_ascii
    (cut_at (separator_marks txt sep lq rq) (list_ascii_of_string txt) []).

(** The text is got back from its segments by putting the separators
    back: [rejoin] interleaves segments and dropped characters. *)
Fixpoint rejoin (segs : list (list ascii)) (seps : list ascii) : list ascii :=
  match segs, seps with
  | s :: segs', c :: seps' => s ++ c :: rejoin segs' seps'
  | s :: _, [] => s
  | [], _ => []
  end.

Fixpoint marked {A : Type} (marks : list bool) (l : list A) : list A :=
  match marks, l with
  | true :: m, x :: t => x :: marked m t
  | false :: m, _ :: t => marked m t
  | _, _ => []
  end.

(** ** Regular expressions of [re.match]

    The two patterns of [parseLinks] use single characters, character
    classes under [*], [*?] and [?], one group and [$]; [re_run] is the
    backtracking matcher for these, trying the alternatives in the order
    of Python's engine and keeping the first match. *)

Inductive cls : Type :=
| CLit (c : ascii)      (* the character itself *)
| CNot (c : ascii)      (* [^c] *)
| CSpace                (* \s *)
| CDot.                 (* . *)

Definition is_space (c : ascii) : bool :=
  let n := nat_of_ascii c in
  (n =? 32) || ((9 <=? n) && (n <=? 13)).

Arguments is_space c : simpl never.

Definition newline : ascii := ascii_of_nat 10.

Arguments newline : simpl never.
Arguments dquote : simpl never.
Arguments backslash : simpl never.

Definition cls_mem (k : cls) (c : ascii) : bool :=
  match k with
  | CLit d => Ascii.eqb c d
  | CNot d => negb (Ascii.eqb c d)
  | CSpace => is_space c
  | CDot => negb (Ascii.eqb c newline)
  end.

Inductive item : Type :=
| One (k : cls)         (* one character of the class *)
| Star (k : cls)        (* k*  *)
| StarLazy (k : cls)    (* k*? *)
| Opt (k : cls)         (* k?  *)
| GOpen                 (* ( of group 1 *)
| GClose                (* ) of group 1 *)
| Eos.                  (* $ *)

(** [$] without MULTILINE: at the end, or before a final newline. *)
Definition at_eos (s : list ascii) : bool :=
  match s with
  | [] => true
  | [c] => Ascii.eqb c newline
  | _ => false
  end.

Section Backtracking.

Context {R : Type}.
Variable k : cls.
Variable cont : list ascii -> option R.

(** Greedy: the longest repetition first. *)
Fixpoint star_greedy (s : list ascii) : option R :=
  match s with
  | c :: t =>
      if cls_mem k c then
        match star_greedy t with
        | Some r => Some r
        | None => cont s
        end
      else cont s
  | [] => cont s
  end.

(** Lazy: the shortest repetition first. *)
Fixpoint star_lazy (s : list ascii) : option R :=
  match cont s with
  | Some r => Some r
  | None =>
      match s with
      | c :: t => if cls_mem k c then star_lazy t else None
      | [] => None
      end
  end.

Definition opt_greedy (s : list ascii) : option R :=
  match s with
  | c :: t =>
      if cls_mem k c then
        match cont t with
        | Some r => Some r
        | None => cont s
        end
      else cont s
  | [] => cont s
  end.

End Backtracking.

(** A match gives the input left at the opening and at the closing of
    group 1. *)
Fixpoint re_run (re : list item) (gopen gclose s : list ascii)
  : option (list ascii * list ascii) :=
  match re with
  | [] => Some (gopen, gclose)
  | One k :: re' =>
      match s with
      | c :: t => if cls_mem k c then re_run re' gopen gclose t else None
      | [] => None
      end
  | Star k :: re' => star_greedy k (re_run re' gopen gclose) s
  | StarLazy k :: re' => star_lazy k (re_run re' gopen gclose) s
  | Opt k :: re' => opt_greedy k (re_run re' gopen gclose) s
  | GOpen :: re' => re_run re' s gclose s
  | GClose :: re' => re_run re' gopen s s
  | Eos :: re' => if at_eos s then re_run re' gopen gclose s else None
  end.

(** [re.match(re, s)] followed by [.group(1)]; [None] is no match. *)
Definition re_match_group1 (re : list item) (s : string) : option string :=
  match re_run re [] [] (list_ascii_of_string s) with
  | Some (gopen, gclose) =>
      Some (string_of_list_ascii
              (take (List.length gopen - List.length gclose) gopen))
  | None => None
  end.

(** The pattern [\s* < ( [^>]* ) > \s*] (written here with blanks between
    its items). *)
Definition link_uri_re : list item :=
  [Star CSpace; One (CLit "<"); GOpen; Star (CNot ">"); GClose;
   One (CLit ">"); Star CSpace].

(** The pattern [\s* rel \s* = \s* Q? ( .*? ) Q? \s* $], where Q is the
    double quote. *)
Definition link_rel_re : list item :=
  [Star CSpace; One (CLit "r"); One (CLit "e"); One (CLit "l");
   Star CSpace; One (CLit "="); Star CSpace; Opt (CLit dquote);
   GOpen; StarLazy CDot; GClose; Opt (CLit dquote); Star CSpace; Eos].

(** ** parseLinks (HttpSession.py, lines 70-92) *)

(** [str.lower()] *)
Definition lower_ascii (c : ascii) : ascii :=
  let n := nat_of_ascii c in
  if (65 <=? n) && (n <=? 90) then ascii_of_nat (n + 32) else c.

Fixpoint lower (s : string) : string :=
  match s with
  | EmptyString => EmptyString
  | String c s' => String (lower_ascii c) (lower s')
  end.

(** [for x in xs: state = body(state, x)] with a body that can raise. *)
Fixpoint for_each {A S : Type} (body : S -> A -> res S) (xs : list A) (st : S)
  : res S :=
  match xs with
  | [] => Ret st
  | x :: xs' => st' <- body st x ;; for_each body xs' st'
  end.

(** The body of [for linkparam in linkparts[1:]]. *)
Definition parseLinks_param (linkuri : string) (links : gmap string string)
    (linkparam : string) : res (gmap string string) :=
  match re_match_group1 link_rel_re linkparam with
  | Some linkrel => Ret (<[linkrel := linkuri]> links)
  | None => Ret links
  end.

(** The body of [for linkval in splitValues(linkheader, ",")]. *)
Definition parseLinks_linkval (links : gmap string string) (linkval : string)
  : res (gmap string string) :=
  linkparts <- splitValues linkval ";" default_lq default_rq ;;
  part0 <- match linkparts with
           | p :: _ => Ret p
           | [] => Raise IndexError
           end ;;
  match re_match_group1 link_uri_re part0 with
  | Some linkuri => for_each (parseLinks_param linkuri) (List.tl linkparts) links
  | None => Ret links
  end.

(** The body of [for linkheader in linkheaders]. *)
Definition parseLinks_linkheader (links : gmap string string)
    (linkheader : string) : res (gmap string string) :=
  linkvals <- splitValues linkheader "," default_lq default_rq ;;
  for_each parseLinks_linkval linkvals links.

Definition parseLinks (headerlist : list (string * string))
  : res (gmap string string) :=
  let linkheaders :=
    List.map snd
      (List.filter (fun hv => String.eqb (lower (fst hv)) "link") headerlist) in
  for_each parseLinks_linkheader linkheaders ∅.

(** The URI of a relation in the result of [parseLinks]; [None] also
    when the call raised. *)
Definition links_get (r : res (gmap string string)) (rel : string)
  : option string :=
  match r with
  | Ret links => links !! rel
  | _ => None
  end.

(** *** The link parser as the specification describes it *)

Fixpoint drop_while (p : ascii -> bool) (s : list ascii) : list ascii :=
  match s with
  | c :: t => if p c then drop_while p t else s
  | [] => []
  end.

Fixpoint take_while (p : ascii -> bool) (s : list ascii) : list ascii :=
  match s with
  | c :: t => if p c then c :: take_while p t else []
  | [] => []
  end.

(** The text without its trailing whitespace. *)
Fixpoint rstrip (s : list ascii) : list ascii :=
  match s with
  | [] => []
  | c :: t =>
      match rstrip t with
      | [] => if is_space c then [] else [c]
      | r => c :: r
      end
  end.

(** The text without its last character when that is a double quote. *)
Fixpoint drop_last_quote (s : list ascii) : list ascii :=
  match s with
  | [] => []
  | c :: t =>
      match t with
      | [] => if Ascii.eqb c dquote then [] else [c]
      | _ => c :: drop_last_quote t
      end
  end.

Definition drop_first_quote (s : list ascii) : list ascii :=
  match s with
  | c :: t => if Ascii.eqb c dquote then t else s
  | [] => []
  end.

Definition not_gt (c : ascii) : bool := negb (Ascii.eqb c ">").

(** A part that begins, after optional whitespace, with a bracketed URI:
    the URI is the text between the opening bracket and the first closing
    one; what follows the closing bracket is not looked at. *)
Definition leading_bracketed_uri (part : string) : option string :=
  match drop_while is_space (list_ascii_of_string part) with
  | c :: t =>
      if Ascii.eqb c "<" then
        match drop_while not_gt t with
        | _ :: _ => Some (string_of_list_ascii (take_while not_gt t))
        | [] => None
        end
      else None
  | [] => None
  end.

(** A part that is a bracketed URI and nothing else, whitespace around it
    ignored. *)
Definition bracketed_uri (part : string) : option string :=
  match drop_while is_space (list_ascii_of_string part) with
  | c :: t =>
      if Ascii.eqb c "<" then
        match drop_while not_gt t with
        | _ :: rest =>
            match drop_while is_space rest with
            | [] => Some (string_of_list_ascii (take_while not_gt t))
            | _ :: _ => None
            end
        | [] => None
        end
      else None
  | [] => None
  end.

(** The value of a [rel = value] parameter: whitespace is allowed around
    [rel], [=] and the value, one double quote before and one after the
    value are dropped, and the value holds no newline. *)
Definition rel_value (param : string) : option string :=
  match drop_while is_space (list_ascii_of_string param) with
  | c1 :: c2 :: c3 :: s1 =>
      if Ascii.eqb c1 "r" && Ascii.eqb c2 "e" && Ascii.eqb c3 "l" then
        match drop_while is_space s1 with
        | c4 :: s2 =>
            if Ascii.eqb c4 "=" then
              let v := drop_last_quote
                         (rstrip (drop_first_quote (drop_while is_space s2))) in
              if List.existsb (Ascii.eqb newline) v then None
              else Some (string_of_list_ascii v)
            else None
        | [] => None
        end
      else None
  | _ => None
  end.

Definition link_values (headerlist : list (string * string)) : list string :=
  List.map snd
    (List.filter (fun hv => String.eqb (lower (fst hv)) "link") headerlist).

(** The (relation, URI) pairs one comma-separated value contributes, in
    the order of its [rel] parameters; [uri_of] recognises the first
    part. *)
Definition value_links (uri_of : string -> option string) (linkval : string)
  : list (string * string) :=
  match segments linkval ";" default_lq default_rq with
  | part0 :: params =>
      match uri_of part0 with
      | Some uri =>
          List.flat_map
            (fun p => match rel_value p with
                      | Some r => [(r, uri)]
                      | None => []
                      end) params
      | None => []
      end
  | [] => []
  end.

Definition link_contributions (uri_of : string -> option string)
    (headerlist : list (string * string)) : list (string * string) :=
  List.flat_map
    (fun v => List.flat_map (value_links uri_of)
                (segments v "," default_lq default_rq))
    (link_values headerlist).

(** The URI a relation is mapped to: that of its last occurrence. *)
Fixpoint last_binding (rel : string) (cs : list (string * string))
  : option string :=
  match cs with
  | [] => None
  | (r, u) :: cs' =>
      match last_binding rel cs' with
      | Some u' => Some u'
      | None => if String.eqb r rel then Some u else None
      end
  end.

(** The reading of the specification: only a first part that is a
    bracketed URI, whitespace apart, contributes. *)
Definition specified_links (headerlist : list (string * string))
    (rel : string) : option string :=
  last_binding rel (link_contributions bracketed_uri headerlist).

(** ** RDF graphs

    The graph engine is outside the repository; a graph is the list of
    its triples, without repetition. What the code uses of [rdflib.Graph]:
    [add], [len] (which gives the truth value of a graph: an object
    with [__len__] and no [__nonzero__] is true when its length is not
    zero), [value] and [subject_objects]. *)

Inductive node : Type :=
| URIRef (uri : string)
| BNode (id : string)
| Literal (txt : string).

Definition node_eqb (a b : node) : bool :=
  match a, b with
  | URIRef x, URIRef y => String.eqb x y
  | BNode x, BNode y => String.eqb x y
  | Literal x, Literal y => String.eqb x y
  | _, _ => false
  end.

Definition triple : Type := node * node * node.

Definition triple_eqb (t u : triple) : bool :=
  let '(s1, p1, o1) := t in
  let '(s2, p2, o2) := u in
  node_eqb s1 s2 && node_eqb p1 p2 && node_eqb o1 o2.

Definition Graph : Type := list triple.

Module graph.

Definition add (t : triple) (g : Graph) : Graph :=
  if List.existsb (triple_eqb t) g then g else g ++ [t].

Definition len (g : Graph) : nat := List.length g.

(** [g.subject_objects(predicate=p)] *)
Definition subject_objects (p : node) (g : Graph) : list (node * node) :=
  List.flat_map
    (fun t => let '(s, p', o) := t in if node_eqb p' p then [(s, o)] else [])
    g.

(** [g.value(subject=s, predicate=p)]: an object of such a triple, [None]
    when there is none. *)
Definition value (s p : node) (g : Graph) : option node :=
  match List.filter (fun t => let '(s', p', _) := t in
                              node_eqb s' s && node_eqb p' p) g with
  | (_, _, o) :: _ => Some o
  | [] => None
  end.

End graph.

(** The truth value of an attribute that holds [None] or a graph. *)
Definition truthy_graph (g : option Graph) : bool :=
  match g with
  | None => false
  | Some g => negb (graph.len g =? 0)
  end.

Definition RDF_type : node :=
  URIRef "http://www.w3.org/1999/02/22-rdf-syntax-ns#type".
Definition RO_ResearchObject : node :=
  URIRef "http://purl.org/wf4ever/ro#ResearchObject".
Definition RO_annotatesAggregatedResource : node :=
  URIRef "http://purl.org/wf4ever/ro#annotatesAggregatedResource".
Definition AO_body : node :=
  URIRef "http://purl.org/ao/body".

(** ** ro_remote_metadata (ro_remote_metadata.py) *)

(** [s.startswith(p)] *)
Definition startswith (s p : string) : bool := String.prefix p s.

(** [isInternalResource] (lines 239-244); its docstring: returns true if
    the resource URI has the RO URI as a prefix. *)
Definition isInternalResource (rouri resuri : string) : bool :=
  startswith rouri resuri.

(** The attributes of an instance that the manifest and annotation
    methods read and write. *)
Record ro_remote_metadata : Type := {
  manifestgraph : option Graph;
  roannotations : option Graph;
  rouri : node;
  manifesturi : string;
  dummyfortest : bool
}.

Definition set_manifestgraph (self : ro_remote_metadata) (g : option Graph)
  : ro_remote_metadata :=
  {| manifestgraph := g; roannotations := roannotations self;
     rouri := rouri self; manifesturi := manifesturi self;
     dummyfortest := dummyfortest self |}.

Definition set_roannotations (self : ro_remote_metadata) (g : option Graph)
  : ro_remote_metadata :=
  {| manifestgraph := manifestgraph self; roannotations := g;
     rouri := rouri self; manifesturi := manifesturi self;
     dummyfortest := dummyfortest self |}.

(** The methods that the class statement defines: its [def]s that are
    not commented out. Looking up any other method on an instance raises
    AttributeError. *)
Definition class_methods : list string :=
  [ "__init__"; "_loadManifest"; "_loadAnnotations"; "_doRequest";
    "_doRequestRDF"; "getAggregatedResources"; "isAggregatedResource";
    "isInternalResource"; "isExternalResource"; "aggregateResourceInt";
    "updateResourceInt"; "aggregateResourceExt"; "deaggregateResource";
    "getHead"; "iterateAnnotations"; "getRoAnnotations";
    "getFileAnnotations"; "getAllAnnotations"; "getAnnotationValues";
    "queryAnnotations"; "showAnnotations"; "_getRoManifestGraph";
    "roManifestContains"; "getResourceValue"; "getResourceType";
    "getRoMetadataDict"; "getRoRef"; "getRoUri"; "getComponentUri";
    "getComponentUriRel"; "isRoMetadataRef"; "getManifestUri";
    "isLocalFileRo"; "getRoFilename"; "getManifestFilename" ].

Definition getattr_method (name : string) : res unit :=
  if List.existsb (String.eqb name) class_methods then Ret tt
  else Raise (AttributeError name).

(** The state of a run: the instance, and the URIs that were fetched and
    parsed, in order. *)
Record ro_state : Type := {
  self_ : ro_remote_metadata;
  fetched : list string
}.

Section RemoteMetadata.

(** [g.parse(uri)] on a graph [g] without triples: rdflib retrieves the
    document and adds its triples to [g] in place, so a call that raises
    can leave in [g] the triples read before the failure. The answer
    depends on the moment of the retrieval: for the URIs fetched before
    and the URI, the oracle gives the triples that [g] holds after the
    call, and the exception if the call raised. *)
Variable graph_parse : list string -> string -> Graph * option exn.

(** [_loadManifest] (lines 84-93), after its first line: a new graph is
    stored in the instance, then filled in place. The result is the
    returned graph or the exception raised, with the state at that
    point. *)
Definition _loadManifest_fill (st : ro_state) : res Graph * ro_state :=
  let self := set_manifestgraph (self_ st) (Some []) in
  if dummyfortest self then
    let g := graph.add (rouri self, RDF_type, RO_ResearchObject) [] in
    (Ret g, {| self_ := set_manifestgraph self (Some g);
               fetched := fetched st |})
  else
    let '(g, failure) := graph_parse (fetched st) (manifesturi self) in
    let st' := {| self_ := set_manifestgraph self (Some g);
                  fetched := fetched st ++ [manifesturi self] |} in
    match failure with
    | None => (Ret g, st')
    | Some e => (Raise e, st')
    end.

(** [if self.manifestgraph: return self.manifestgraph] *)
Definition _loadManifest (st : ro_state) : res Graph * ro_state :=
  match manifestgraph (self_ st) with
  | Some g =>
      if truthy_graph (Some g) then (Ret g, st) else _loadManifest_fill st
  | None => _loadManifest_fill st
  end.

(** The body of the loop of [_loadAnnotations]: the body URI is looked
    up, then the method [_readAnnotationBody] is looked up on the
    instance to be called with it. *)
Definition _loadAnnotations_body (g : Graph) (st : ro_state)
    (ann : node * node) : res ro_state :=
  let '(ann_node, subject) := ann in
  let ann_uri := graph.value ann_node AO_body g in
  _ <- getattr_method "_readAnnotationBody" ;;
  Ret st.

(** [_loadAnnotations] (lines 95-105), after its first line. *)
Definition _loadAnnotations_fill (st : ro_state) : res Graph * ro_state :=
  match _loadManifest st with
  | (Ret g, st) =>
      let st := {| self_ := set_roannotations (self_ st) (Some []);
                   fetched := fetched st |} in
      match for_each (_loadAnnotations_body g)
              (graph.subject_objects RO_annotatesAggregatedResource g) st with
      | Ret st' =>
          match roannotations (self_ st') with
          | Some a => (Ret a, st')
          | None => (Raise (AttributeError "roannotations"), st')
              (* not reached: the attribute was set before the loop *)
          end
      | Raise e => (Raise e, st)
      | OutOfFuel => (OutOfFuel, st)
      end
  | (Raise e, st) => (Raise e, st)
  | (OutOfFuel, st) => (OutOfFuel, st)
  end.

(** [if self.roannotations: return self.roannotations] *)
Definition _loadAnnotations (st : ro_state) : res Graph * ro_state :=
  match roannotations (self_ st) with
  | Some a =>
      if truthy_graph (Some a) then (Ret a, st) else _loadAnnotations_fill st
  | None => _loadAnnotations_fill st
  end.

End RemoteMetadata.

(** ** More string primitives *)

Definition nonempty (s : string) : bool := negb (String.eqb s "").

Definition truthy_str (o : option string) : bool :=
  match o with
  | Some s => nonempty s
  | None => false
  end.

(** [sub in s] *)
Fixpoint contains (sub s : string) : bool :=
  String.prefix sub s
  || match s with
     | String _ s' => contains sub s'
     | EmptyString => false
     end.

(** [s.split(sep, 1)] when [sep] occurs in [s]: the text before and the
    text after its first occurrence; [None] when it does not occur, where
    the list is [[s]]. *)
Fixpoint split_once (sep s : string) : option (string * string) :=
  if String.prefix sep s then
    Some ("", String.substring (String.length sep)
                (String.length s - String.length sep) s)
  else
    match s with
    | String c s' =>
        match split_once sep s' with
        | Some (a, b) => Some (String c a, b)
        | None => None
        end
    | EmptyString => None
    end.

(** [s.split(sep, 1)[0]] and [s.split(sep, 1)[1]] *)
Definition split_head (sep s : string) : string :=
  match split_once sep s with
  | Some (a, _) => a
  | None => s
  end.

Definition split_tail (sep s : string) : res string :=
  match split_once sep s with
  | Some (_, b) => Ret b
  | None => Raise IndexError
  end.

(** [s[-n:]], [s[-1]] and [s[:-1]] *)
Definition last_chars (n : nat) (s : string) : string :=
  String.substring (String.length s - n) n s.

Definition last_char (s : string) : res string :=
  if nonempty s then Ret (last_chars 1 s) else Raise IndexError.

Definition drop_last_char (s : string) : string :=
  String.substring 0 (String.length s - 1) s.

(** [s.strip()] *)
Definition strip (s : string) : string :=
  string_of_list_ascii
    (rstrip (drop_while is_space (list_ascii_of_string s))).

(** [dict(pairs)]: the last value of a repeated key is kept. *)
Definition py_dict {V : Type} (pairs : list (string * V)) : gmap string V :=
  List.fold_left (fun m kv => <[fst kv := snd kv]> m) pairs ∅.

(** ** HTTP_Session (HttpSession.py, lines 134-483) *)

Definition RDF_CONTENT_TYPES : gmap string string :=
  py_dict [ ("application/rdf+xml", "xml"); ("text/turtle", "n3");
            ("text/n3", "n3"); ("text/nt", "nt");
            ("application/json", "jsonld"); ("application/xhtml", "rdfa") ]%string.

Definition ACCEPT_RDF_CONTENT_TYPES : string :=
  "application/rdf+xml, text/turtle".

(** The result of [urlparse.urlsplit]. *)
Record SplitResult : Type := {
  scheme : string;
  netloc : string;
  path : string;
  query : string;
  fragment : string
}.

(** A value of the response header dictionary: a header value, or the
    list stored under the key [_headerlist]. *)
Inductive hvalue : Type :=
| HStr (s : string)
| HList (l : list (string * string)).

(** A connection: the one of the session, or the n-th one made by
    [httplib.HTTPConnection(host)] during the run. *)
Inductive conn : Type :=
| SessionCon
| NewCon (n : nat).

Inductive event : Type :=
| EvNew (n : nat) (host : string)
| EvRequest (c : conn) (method path : string) (body : option string)
    (headers : gmap string string)
| EvClose (c : conn)
| EvGet (url : string)
| EvParse (format : string).

(** What the network does with a request that is being sent. *)
Inductive exchange : Type :=
| SendFails (descr : string)
| ResponseFails (descr : string)
| ReadFails (status : Z) (reason : string) (headers : list (string * string))
    (descr : string)
| Response (status : Z) (reason : string) (headers : list (string * string))
    (data : string).

(** The result of [requests.get]. *)
Record requests_response : Type := {
  status_code : Z;
  r_reason : string;
  r_headers : gmap string string;   (* keyed by lower-cased name *)
  content : string;
  url : string
}.

#[local] Unset Elimination Schemes.

Inductive json : Type :=
| JNull
| JBool (b : bool)
| JNum (n : Z)
| JStr (s : string)
| JArr (l : list json)
| JObj (l : list (string * json)).

#[local] Set Elimination Schemes.

(** The response data: [None], a string, a graph, or a value taken from
    a decoded JSON document. *)
Inductive pydata : Type :=
| DNone
| DStr (s : string)
| DGraph (g : Graph)
| DJson (j : json).

Definition data_of_json (j : json) : pydata :=
  match j with
  | JStr s => DStr s
  | _ => DJson j
  end.

(** ['k' in j], [j['k']], [len(j)] and [j[0]] on a decoded document. *)
Definition json_contains (k : string) (j : json) : res bool :=
  match j with
  | JObj l => Ret (List.existsb (fun kv => String.eqb (fst kv) k) l)
  | JArr l => Ret (List.existsb
                     (fun x => match x with
                               | JStr s => String.eqb s k
                               | _ => false
                               end) l)
  | JStr s => Ret (contains k s)
  | _ => Raise (TypeError "argument is not iterable")
  end.

Definition json_getitem (j : json) (k : string) : res json :=
  match j with
  | JObj l =>
      match List.filter (fun kv => String.eqb (fst kv) k) (List.rev l) with
      | (_, v) :: _ => Ret v
      | [] => Raise (KeyError k)
      end
  | _ => Raise (TypeError "indices must be integers")
  end.

Definition json_len (j : json) : res nat :=
  match j with
  | JObj l => Ret (List.length l)
  | JArr l => Ret (List.length l)
  | JStr s => Ret (String.length s)
  | _ => Raise (TypeError "object has no len()")
  end.

Definition json_first (j : json) : res json :=
  match j with
  | JArr (x :: _) => Ret x
  | JArr [] => Raise IndexError
  | JStr (String c _) => Ret (JStr (String c ""))
  | JStr EmptyString => Raise IndexError
  | JObj _ => Raise (KeyError "0")
  | _ => Raise (TypeError "object has no attribute __getitem__")
  end.

(** The state of a run: the dictionaries that exist, by address; the
    events so far; the number of connections made. *)
Record world : Type := {
  store : list (gmap string string);
  trace : list event;
  conns : nat
}.

Definition M (A : Type) : Type := world -> res A * world.

Definition mret {A : Type} (a : A) : M A := fun w => (Ret a, w).

Definition mraise {A : Type} (e : exn) : M A := fun w => (Raise e, w).

Definition mbind {A B : Type} (m : M A) (k : A -> M B) : M B :=
  fun w =>
    match m w with
    | (Ret a, w') => k a w'
    | (Raise e, w') => (Raise e, w')
    | (OutOfFuel, w') => (OutOfFuel, w')
    end.

(** [try: m  except Exception, e: handler e] *)
Definition mtry {A : Type} (m : M A) (handler : exn -> M A) : M A :=
  fun w =>
    match m w with
    | (Raise e, w') => handler e w'
    | r => r
    end.

Definition lift {A : Type} (r : res A) : M A := fun w => (r, w).

Notation "x <~ m ;; k" := (mbind m (fun x => k))
  (at level 100, m at next level, right associativity).

Definition log (ev : event) : M unit :=
  fun w => (Ret tt, {| store := store w; trace := trace w ++ [ev];
                       conns := conns w |}).

(** A new empty dictionary. *)
Definition new_dict : M nat :=
  fun w => (Ret (List.length (store w)),
            {| store := store w ++ [∅]; trace := trace w; conns := conns w |}).

Definition read_dict (d : nat) : M (gmap string string) :=
  fun w => (Ret (default ∅ (store w !! d)), w).

(** [d[k] = v] *)
Definition dict_set (d : nat) (k v : string) : M unit :=
  fun w => (Ret tt,
            {| store := alter (fun m => <[k := v]> m) d (store w);
               trace := trace w; conns := conns w |}).

(** [httplib.HTTPConnection(host)]: no input or output yet. *)
Definition HTTPConnection (host : string) : M conn :=
  fun w => (Ret (NewCon (conns w)),
            {| store := store w; trace := trace w ++ [EvNew (conns w) host];
               conns := S (conns w) |}).

(** [str(e)] *)
Definition exn_str (e : exn) : string :=
  match e with
  | TransportError descr => descr
  | KeyError k => k
  | AttributeError n => n
  | ValueError s => s
  | TypeError s => s
  | UnboundLocalError n => n
  | HTTP_Error msg _ _ => msg
  | IndexError => "index out of range"
  end%string.

Record HTTP_Session : Type := {
  _baseuri : string;
  _key : option string;
  _scheme : string;
  _host : string;
  _path : string
}.

Definition status_in (status : Z) (l : list Z) : bool :=
  List.existsb (Z.eqb status) l.

Section Session.

(** The library functions and the outside world. *)
Variable urljoin : string -> string -> string.
Variable urlsplit : string -> SplitResult.
(** [str] of a list of pairs. *)
Variable repr_headerlist : list (string * string) -> string.
(** The network's answer to the request that ends the trace. *)
Variable net : list event -> exchange.
(** [requests.get(url)], after the events so far. *)
Variable requests_get : list event -> string -> res requests_response.
(** The same for the [get] of a [requests] session. *)
Variable session_get : nat -> list event -> string -> res requests_response.
Variable json_loads : string -> res json.
(** [rdfgraph.parse(data=data, format=format)]: the graph with the
    parsed triples added, or the exception. *)
Variable rdf_parse : Graph -> pydata -> string -> res Graph.

Definition HTTP_Session_init (baseuri : string) (accesskey : option string)
  : HTTP_Session :=
  let parseduri := urlsplit baseuri in
  {| _baseuri := baseuri; _key := accesskey; _scheme := scheme parseduri;
     _host := netloc parseduri; _path := path parseduri |}.

Definition getpathuri (self : HTTP_Session) (uripath : string) : string :=
  urljoin (_baseuri self) uripath.

(** [usehttpcon.request(method, path, body, reqheaders)]: the request is
    put on the wire; the call raises when sending fails, and otherwise the
    answer is pending. *)
Definition con_request (c : conn) (method path : string)
    (body : option string) (headers : gmap string string) : M exchange :=
  fun w =>
    let w' := {| store := store w;
                 trace := trace w ++ [EvRequest c method path body headers];
                 conns := conns w |} in
    match net (trace w') with
    | SendFails descr => (Raise (TransportError descr), w')
    | x => (Ret x, w')
    end.

(** [usehttpcon.getresponse()] *)
Definition getresponse (x : exchange)
  : M (Z * string * list (string * string) * res string) :=
  match x with
  | SendFails descr => mraise (TransportError descr)
  | ResponseFails descr => mraise (TransportError descr)
  | ReadFails status reason headers descr =>
      mret (status, reason, headers, Raise (TransportError descr))
  | Response status reason headers data =>
      mret (status, reason, headers, Ret data)
  end.

(** [doRequest], lines 215-237: the connection, scheme and key to use. *)
Definition doRequest_connection (self : HTTP_Session)
    (uriparts : SplitResult) (exthost : bool)
  : M (option conn * conn * string * option string) :=
  let scheme_differs :=
    nonempty (scheme uriparts)
    && negb (String.eqb (scheme uriparts) (_scheme self)) in
  let host_differs :=
    nonempty (netloc uriparts)
    && negb (String.eqb (netloc uriparts) (_host self)) in
  if scheme_differs || host_differs then
    if exthost then
      newhttpcon <~ HTTPConnection (netloc uriparts) ;;
      mret (Some newhttpcon, newhttpcon, scheme uriparts, None)
    else if scheme_differs then
      mraise (HTTP_Error "URI scheme mismatch" (scheme uriparts)
                (_baseuri self))
    else if host_differs then
      mraise (HTTP_Error "URI host:port mismatch" (netloc uriparts)
                (_baseuri self))
    else mraise (UnboundLocalError "usekey")
  else mret (None, SessionCon, _scheme self, _key self).

(** [doRequest], lines 239-246: the request headers. [reqheaders] is [None]
    or the address of the caller's dictionary; the result is the address
    of the dictionary that is sent. *)
Definition doRequest_headers (reqheaders : option nat)
    (usekey ctype accept : option string) : M nat :=
  reqheaders <~
    match reqheaders with
    | None => new_dict
    | Some d =>
        h <~ read_dict d ;;
        if decide (h = ∅) then new_dict else mret d
    end ;;
  _ <~ (if truthy_str usekey
        then dict_set reqheaders "authorization"
               ("Bearer " +:+ default "" usekey)
        else mret tt) ;;
  _ <~ (if truthy_str ctype
        then dict_set reqheaders "content-type" (default "" ctype)
        else mret tt) ;;
  _ <~ (if truthy_str accept
        then dict_set reqheaders "accept" (default "" accept)
        else mret tt) ;;
  mret reqheaders.

(** [doRequest], lines 254-270: the elements of the response, or the
    status 900 when an exception arises. *)
Definition doRequest_response (pending : exchange)
  : M (Z * string * gmap string hvalue * option string) :=
  mtry
    (response <~ getresponse pending ;;
     let '(status, reason, rspheaders, body_) := response in
     let headerlist :=
       List.map (fun hv => (lower (fst hv), snd hv)) rspheaders in
     let headers := HStr <$> py_dict headerlist in
     let headers := <["_headerlist" := HList headerlist]> headers in
     data <~ lift body_ ;;
     let data := if (status <? 200)%Z || (300 <=? status)%Z
                 then None else Some data in
     mret (status, reason, headers, data))
    (fun e =>
       mret (900%Z, exn_str e, {["_headerlist" := HList []]}, None)).

(** [doRequest] (lines 191-274) *)
Definition doRequest (self : HTTP_Session) (uripath : string)
    (method : string) (body ctype accept : option string)
    (reqheaders : option nat) (exthost : bool)
  : M (Z * string * gmap string hvalue * option string) :=
  (* Construct request path *)
  let uriparts := urlsplit (getpathuri self uripath) in
  let path_ := path uriparts in
  let path_ := if nonempty (query uriparts)
               then path_ +:+ "?" +:+ query uriparts else path_ in
  (* Sort out HTTP connection to use: session or new *)
  con <~ doRequest_connection self uriparts exthost ;;
  let '(newhttpcon, usehttpcon, usescheme, usekey) := con in
  (* Assemble request headers *)
  reqheaders <~ doRequest_headers reqheaders usekey ctype accept ;;
  (* Execute request *)
  sent <~ read_dict reqheaders ;;
  pending <~ con_request usehttpcon method path_ body sent ;;
  (* Pick out elements of response *)
  rsp <~ doRequest_response pending ;;
  let '(status, reason, headers, data) := rsp in
  _ <~ match newhttpcon with
       | Some c => log (EvClose c)
       | None => mret tt
       end ;;
  mret (status, reason, headers, data).

(** [headers[k]] *)
Definition headers_get (headers : gmap string hvalue) (k : string)
  : M hvalue :=
  match headers !! k with
  | Some v => mret v
  | None => mraise (KeyError k)
  end.

(** [str(v)] *)
Definition py_str (v : hvalue) : string :=
  match v with
  | HStr s => s
  | HList l => repr_headerlist l
  end.


(** [doRequestFollowRedirect] (lines 276-313) *)
Definition doRequestFollowRedirect (self : HTTP_Session) (uripath : string)
    (method : string) (body ctype accept : option string)
    (reqheaders : option nat) (exthost : bool)
  : M (Z * string * gmap string hvalue * string * option string) :=
  rsp <~ doRequest self uripath method body ctype accept reqheaders exthost ;;
  let '(status, reason, headers, data) := rsp in
  hop <~
    (if status_in status [302; 303; 307]%Z then
       location <~ headers_get headers "location" ;;
       let uripath := py_str location in
       rsp <~ doRequest self uripath method body ctype accept reqheaders
                exthost ;;
       mret (rsp, uripath)
     else mret (rsp, uripath)) ;;
  let '(status, reason, headers, data, uripath) := hop in
  hop <~
    (if status_in status [302; 307]%Z then
       (* Allow second temporary redirect *)
       location <~ headers_get headers "location" ;;
       let uripath := py_str location in
       rsp <~ doRequest self uripath method body ctype None reqheaders
                exthost ;;
       mret (rsp, uripath)
     else mret (status, reason, headers, data, uripath)) ;;
  let '(status, reason, headers, data, uripath) := hop in
  mret (status, reason, headers, uripath, data).

Definition w3id_prefix : string := "w3id.org/ro-id".
Definition w3id_dev_prefix : string := "w3id.org/ro-id-dev".
Definition index_endpoint : string :=
  "https://api.rohub.org/api/search/manifests/?identifier=".
Definition index_dev_endpoint : string :=
  "https://rohub2020-rohub.apps.paas-dev.psnc.pl/api/search/manifests/?identifier=".

(** [requests.get(url)] when [session] is [None], [session.get(url)]
    otherwise. *)
Definition http_get (session : option nat) (url_ : string)
  : M requests_response :=
  fun w =>
    let w' := {| store := store w; trace := trace w ++ [EvGet url_];
                 conns := conns w |} in
    match session with
    | None => (requests_get (trace w') url_, w')
    | Some s => (session_get s (trace w') url_, w')
    end.

(** The URI of the index entry for a w3id URI (lines 346-386). *)
Definition w3id_index_uri (session : option nat) (uripath : string)
  : M string :=
  if String.eqb (last_chars 4 uripath) ".ttl" then
    if contains "evo_info" uripath || contains "enrichment" uripath
       || contains "folders" uripath then
      r <~ http_get session uripath ;;
      annotation <~
        lift (if contains "folders" uripath
              then split_tail "folders/" (url r)
              else split_tail "annotations/" (url r)) ;;
      let annotation_id := split_head "/download/" annotation in
      if contains w3id_dev_prefix uripath
      then mret (index_dev_endpoint +:+ annotation_id)
      else mret (index_endpoint +:+ annotation_id)
    else if contains "manifest" uripath then
      if contains w3id_dev_prefix uripath then
        annotation <~ lift (split_tail (w3id_dev_prefix +:+ "/") uripath) ;;
        let annotation_id := split_head "/.ro/manifest.ttl" annotation in
        mret (index_dev_endpoint +:+ annotation_id)
      else
        annotation <~ lift (split_tail (w3id_prefix +:+ "/") uripath) ;;
        let annotation_id := split_head "/.ro/manifest.ttl" annotation in
        mret (index_endpoint +:+ annotation_id)
    else
      annotation <~ lift (split_tail "annotations/" uripath) ;;
      let annotation_id := split_head ".ttl" annotation in
      if contains w3id_dev_prefix uripath
      then mret (index_dev_endpoint +:+ annotation_id)
      else mret (index_endpoint +:+ annotation_id)
  else
    c <~ lift (last_char uripath) ;;
    let uripath := if String.eqb c "/" then drop_last_char uripath
                   else uripath in
    if contains w3id_dev_prefix uripath then
      ro_id <~ lift (split_tail "ro-id-dev/" uripath) ;;
      mret (index_dev_endpoint +:+ ro_id)
    else
      ro_id <~ lift (split_tail "ro-id/" uripath) ;;
      mret (index_endpoint +:+ ro_id).

(** The text of the first result of the index (lines 399-404). *)
Definition index_result_text (content_ : string) : res pydata :=
  output <- json_loads content_ ;;
  has <- json_contains "results" output ;;
  if negb has then Ret (DStr "")
  else
    results <- json_getitem output "results" ;;
    n <- json_len results ;;
    if (n =? 0)%nat then Ret (DStr "")
    else
      first <- json_first results ;;
      text <- json_getitem first "text" ;;
      Ret (data_of_json text).

(** The treatment of the response (lines 411-436). *)
Definition rdf_response (uripath : string) (graph_ : option Graph)
    (status : Z) (reason : string) (headers : gmap string hvalue)
    (data : pydata) : M (Z * string * gmap string hvalue * pydata) :=
  if (200 <=? status)%Z && (status <? 300)%Z then
    ct <~ headers_get headers "content-type" ;;
    ct <~ match ct with
          | HStr s => mret s
          | HList _ => mraise (AttributeError "split")
          end ;;
    let content_type := lower (strip (split_head ";" ct)) in
    match RDF_CONTENT_TYPES !! content_type with
    | Some format =>
        let rdfgraph := default [] graph_ in
        let bodyformat :=
          if contains index_endpoint uripath
             || contains index_dev_endpoint uripath
          then "turtle" else format in
        _ <~ log (EvParse bodyformat) ;;
        match rdf_parse rdfgraph data bodyformat with
        | Ret g => mret (status, reason, headers, DGraph g)
        | Raise e =>
            mret (902%Z, "RDF (" +:+ bodyformat +:+ ") parse failure",
                  headers, data)
        | OutOfFuel => lift OutOfFuel
        end
    | None => mret (901%Z, "Non-RDF content-type returned", headers, data)
    end
  else mret (status, reason, headers, data).

(** [doRequestRDF] (lines 315-436) *)
Definition doRequestRDF (self : HTTP_Session) (uripath : string)
    (method : string) (body ctype : option string) (reqheaders : option nat)
    (exthost : bool) (graph_ : option Graph) (session : option nat)
  : M (Z * string * gmap string hvalue * pydata) :=
  if contains w3id_prefix uripath then
    uripath <~ w3id_index_uri session uripath ;;
    response <~ http_get session uripath ;;
    data <~ lift (index_result_text (content response)) ;;
    rdf_response uripath graph_ (status_code response) (r_reason response)
      (HStr <$> r_headers response) data
  else
    rsp <~ doRequest self uripath method body ctype
             (Some ACCEPT_RDF_CONTENT_TYPES) reqheaders exthost ;;
    let '(status, reason, headers, data) := rsp in
    let data := match data with
                | Some s => DStr s
                | None => DNone
                end in
    rdf_response uripath graph_ status reason headers data.

End Session.

(** ** The URIs and the worlds of the examples *)

(** [urlsplit] on URIs of the form scheme://host/path?query, and
    [urljoin] of a base with an absolute URI or an absolute path. *)
Definition ex_urlsplit (uri : string) : SplitResult :=
  match split_once "://" uri with
  | Some (sch, rest) =>
      let '(host, p) := match split_once "/" rest with
                        | Some (h, p) => (h, "/" +:+ p)
                        | None => (rest, "")
                        end in
      let '(p, q) := match split_once "?" p with
                     | Some (a, b) => (a, b)
                     | None => (p, "")
                     end in
      {| scheme := sch; netloc := host; path := p; query := q;
         fragment := "" |}
  | None =>
      {| scheme := ""; netloc := ""; path := uri; query := "";
         fragment := "" |}
  end.

Definition ex_urljoin (base ref : string) : string :=
  if contains "://" ref then ref
  else
    let b := ex_urlsplit base in
    scheme b +:+ "://" +:+ netloc b +:+ ref.

Definition ex_repr (l : list (string * string)) : string := "[]".

Definition ex_session : HTTP_Session :=
  HTTP_Session_init ex_urlsplit "http://example.org/ro/" (Some "KEY").

Definition world0 : world := {| store := []; trace := []; conns := 0 |}.

(** The headers of the requests of a trace, in order. *)
Definition sent_headers (tr : list event)
  : list (conn * gmap string string) :=
  List.flat_map
    (fun ev => match ev with
               | EvRequest c _ _ _ h => [(c, h)]
               | _ => []
               end) tr.

(** The status and the final URI that [doRequestFollowRedirect]
    returned. *)
Definition status_and_uri
    (r : res (Z * string * gmap string hvalue * string * option string))
  : option (Z * string) :=
  match r with
  | Ret (status, _, _, uripath, _) => Some (status, uripath)
  | _ => None
  end.

(** The path of the request that ends a trace. *)
Definition last_path (tr : list event) : string :=
  match List.rev tr with
  | EvRequest _ _ p _ _ :: _ => p
  | _ => ""
  end.

(** A network that refuses the connection. *)
Definition net_refused (tr : list event) : exchange :=
  SendFails "[Errno 111] Connection refused".

(** A server that redirects /ro/data to another host. *)
Definition net_foreign_redirect (tr : list event) : exchange :=
  if String.eqb (last_path tr) "/ro/data" then
    Response 302 "Found" [("Location", "http://other.example.net/y")] ""
  else Response 200 "OK" [("Content-Type", "text/plain")] "hello".

(** A server that redirects /ro/a to /ro/b and /ro/b to /ro/c. *)
Definition net_two_redirects (tr : list event) : exchange :=
  if String.eqb (last_path tr) "/ro/a" then
    Response 302 "Found" [("Location", "http://example.org/ro/b")] ""
  else if String.eqb (last_path tr) "/ro/b" then
    Response 307 "Temporary Redirect"
      [("Location", "http://example.org/ro/c")] ""
  else Response 200 "OK" [("Content-Type", "text/turtle")] "<a> <b> <c> .".

(** A caller's header dictionary with one entry, at address 0. *)
Definition world_slug : world :=
  {| store := [{["slug" := "f.txt"]}]; trace := []; conns := 0 |}.

(** What [doRequest] returns for an answer of the network. *)
Definition lower_names (headers : list (string * string))
  : list (string * string) :=
  List.map (fun hv => (lower (fst hv), snd hv)) headers.

Definition response_of (x : exchange)
  : Z * string * gmap string hvalue * option string :=
  match x with
  | Response status reason headers data =>
      (status, reason,
       <["_headerlist" := HList (lower_names headers)]>
         (HStr <$> py_dict (lower_names headers)),
       if (status <? 200)%Z || (300 <=? status)%Z then None else Some data)
  | ReadFails _ _ _ descr | ResponseFails descr | SendFails descr =>
      (900%Z, descr, {["_headerlist" := HList []]}, None)
  end.

Definition send_fails (x : exchange) : bool :=
  match x with
  | SendFails _ => true
  | _ => false
  end.

(** A server that answers /ro/ann.ttl with a Turtle document. *)
Definition net_turtle (tr : list event) : exchange :=
  Response 200 "OK" [("Content-Type", "text/turtle; charset=utf-8");
                     ("Link", "<http://example.org/ro/>; rel=up")]
    "<a> <b> <c> .".

(** A parser that accepts any document and adds one triple. *)
Definition ex_rdf_parse (g : Graph) (data : pydata) (format : string)
  : res Graph :=
  Ret (graph.add (URIRef "a", URIRef "b", URIRef "c") g).

(** An index that knows nothing of the RO: it answers 404 with an empty
    JSON object. *)
Definition ex_requests_get (tr : list event) (url_ : string)
  : res requests_response :=
  Ret {| status_code := 404; r_reason := "Not Found";
         r_headers := {["content-type" := "application/json"]};
         content := "{}"; url := url_ |}.

Definition ex_session_get (s : nat) (tr : list event) (url_ : string)
  : res requests_response :=
  ex_requests_get tr url_.

Definition ex_json_loads (s : string) : res json :=
  if String.eqb s "{}" then Ret (JObj [])
  else Raise (ValueError "No JSON object could be decoded").

(** The status, reason and data that [doRequestRDF] returned. *)
Definition status_and_data
    (r : res (Z * string * gmap string hvalue * pydata))
  : option (Z * string * pydata) :=
  match r with
  | Ret (status, reason, _, data) => Some (status, reason, data)
  | _ => None
  end.

Definition log_parse (w : world) (format : string) : world :=
  {| store := store w; trace := trace w ++ [EvParse format];
     conns := conns w |}.

(** ** Component URIs (ro_remote_metadata.py, lines 690-700) *)

(** [s.replace(old, new, 1)] *)
Fixpoint replace_first (old new s : string) : string :=
  if String.prefix old s then
    new +:+ String.substring (String.length old)
              (String.length s - String.length old) s
  else
    match s with
    | String c s' => String c (replace_first old new s')
    | EmptyString => EmptyString
    end.

Section ComponentUri.

Variable urljoin : string -> string -> string.
Variable urlsplit : string -> SplitResult.
Variable urlunsplit : SplitResult -> string.

(** [getComponentUri]; [rouri] is [str(self.getRoUri())]. *)
Definition getComponentUri (rouri path_ : string) : string :=
  urljoin rouri path_.

(** [getComponentUriRel] *)
Definition getComponentUriRel (rouri path_ : string) : string :=
  let file_uri := urlunsplit (urlsplit (getComponentUri rouri path_)) in
  let ro_uri := urlunsplit (urlsplit rouri) in
  if startswith file_uri ro_uri
  then replace_first ro_uri "" file_uri
  else path_.

End ComponentUri.

(** [urlunsplit] on the results of [ex_urlsplit]. *)
Definition ex_urlunsplit (parts : SplitResult) : string :=
  (if nonempty (scheme parts) then scheme parts +:+ "://" else "")
  +:+ netloc parts +:+ path parts
  +:+ (if nonempty (query parts) then "?" +:+ query parts else "").

(** A manifest that cannot be fetched. *)
Definition failing_parse (fetched_ : list string) (uri : string)
  : Graph * option exn :=
  ([], Some (TransportError "HTTP Error 404: Not Found")).

(** A manifest with one triple. *)
Definition typed_manifest_parse (fetched_ : list string) (uri : string)
  : Graph * option exn :=
  ([(URIRef "http://example.org/ro/", RDF_type, RO_ResearchObject)], None).

(** A server that answers 302 without a location header. *)
Definition net_redirect_nowhere (tr : list event) : exchange :=
  Response 302 "Found" [("Content-Length", "0")] "".

(** A server that redirects /ro/a to /ro/b and /ro/b to /ro/c with the
    status 303. *)
Definition net_two_303 (tr : list event) : exchange :=
  if String.eqb (last_path tr) "/ro/a" then
    Response 303 "See Other" [("Location", "http://example.org/ro/b")] ""
  else if String.eqb (last_path tr) "/ro/b" then
    Response 303 "See Other" [("Location", "http://example.org/ro/c")] ""
  else Response 200 "OK" [("Content-Type", "text/turtle")] "<a> <b> <c> .".

(** A server that answers 200 without a content type. *)
Definition net_no_content_type (tr : list event) : exchange :=
  Response 200 "OK" [("Content-Length", "5")] "hello".

(** The headers and the world that a run returned. *)
Definition run_headers {D : Type}
    (run : res (Z * string * gmap string hvalue * D) * world)
  : gmap string hvalue :=
  match fst run with
  | Ret (_, _, headers, _) => headers
  | _ => ∅
  end.

Definition run_result {D : Type}
    (run : res (Z * string * gmap string hvalue * D) * world) (d : D)
  : Z * string * gmap string hvalue * D :=
  match fst run with
  | Ret r => r
  | _ => (0%Z, "", ∅, d)
  end.
(** * Properties *)

(** The assertions of [testSplitValues]. *)
Example testSplitValues_1 :
  splitValues "a,b,c" default_sep default_lq default_rq = Ret ["a"; "b"; "c"].
Proof. reflexivity. Qed.

Example testSplitValues_2 :
  splitValues ("a," +:+ String dquote ("b,c" +:+ String dquote ",d"))
              default_sep default_lq default_rq
  = Ret ["a"; String dquote ("b,c" +:+ String dquote ""); "d"].
Proof. reflexivity. Qed.

Example testSplitValues_6 :
  splitValues "a;<b;c>;d" ";" default_lq default_rq = Ret ["a"; "<b;c>"; "d"].
Proof. reflexivity. Qed.

Example testSplitValues_7 :
  splitValues (String dquote ("a;b" +:+ String dquote ";(c;d);e")) ";"
              (String dquote "(") (String dquote ")")
  = Ret [String dquote ("a;b" +:+ String dquote ""); "(c;d)"; "e"].
Proof. reflexivity. Qed.

Example testSplitValues_3 :
  splitValues
    ("a, " +:+ String dquote ("b, c" +:+ String backslash (String dquote
       (", c1" +:+ String dquote ", d"))))
    default_sep default_lq default_rq
  = Ret ["a";
         " " +:+ String dquote ("b, c" +:+ String backslash (String dquote
           (", c1" +:+ String dquote "")));
         " d"].
Proof. reflexivity. Qed.

(** ** Strings as lists of characters *)

Section StringLists.

Implicit Types (s : string) (l : list ascii).

Lemma get_lookup s n : String.get n s = list_ascii_of_string s !! n.
Proof.
  revert n. induction s as [|c s IH]; intros [|n]; simpl; auto.
Qed.

Lemma length_list_ascii s :
  List.length (list_ascii_of_string s) = String.length s.
Proof. induction s; simpl; auto. Qed.

Lemma substring_take_drop s a m :
  String.substring a m s
  = string_of_list_ascii (take m (drop a (list_ascii_of_string s))).
Proof.
  revert a m. induction s as [|c s IH]; intros [|a] [|m]; simpl; auto.
  rewrite IH. now rewrite drop_0.
Qed.

Lemma slice_take_drop s a b :
  Str.slice a b s
  = string_of_list_ascii (take (b - a) (drop a (list_ascii_of_string s))).
Proof. apply substring_take_drop. Qed.

Lemma at_lookup s n c :
  list_ascii_of_string s !! n = Some c -> Str.at_ s n = Ret c.
Proof. unfold Str.at_. rewrite get_lookup. now intros ->. Qed.

Lemma index_lt c s i : Str.index c s = Some i -> i < String.length s.
Proof.
  revert i. induction s as [|d s IH]; simpl; intros i; [discriminate|].
  destruct (Ascii.eqb c d).
  - intros [= <-]. lia.
  - destruct (Str.index c s) as [n|]; [|discriminate].
    intros [= <-]. specialize (IH n eq_refl). lia.
Qed.

Lemma get_is_Some s i : i < String.length s -> is_Some (String.get i s).
Proof.
  rewrite get_lookup, <- length_list_ascii. apply lookup_lt_is_Some_2.
Qed.

End StringLists.

(** ** splitValues computes the segments of the specification *)

Section SplitValues.

Variables txt sep lq rq : string.

Let l : list ascii := list_ascii_of_string txt.

(** The scan and the cut in one pass. *)
Definition scan_cut (st : span_state) (seg rest : list ascii)
  : list (list ascii) :=
  cut_at (unquoted_seps sep lq rq st rest) rest seg.

Lemma scan_cut_nil st seg : scan_cut st seg [] = [seg].
Proof. reflexivity. Qed.

Lemma scan_cut_cons st seg c rest :
  scan_cut st seg (c :: rest)
  = let '(st', b) := tok_step sep lq rq st c in
    if b then seg :: scan_cut st' [] rest
    else scan_cut st' (seg ++ [c]) rest.
Proof.
  unfold scan_cut. simpl. destruct (tok_step sep lq rq st c) as [st' []]; reflexivity.
Qed.

Lemma take_drop_glue (b c d : nat) (k : list ascii) :
  b <= c -> c <= d ->
  take (c - b) (drop b k) ++ take (d - c) (drop c k) = take (d - b) (drop b k).
Proof.
  intros Hbc Hcd.
  replace (d - b) with ((c - b) + (d - c)) by lia.
  rewrite <- take_take_drop, drop_drop.
  now replace (b + (c - b)) with c by lia.
Qed.

Lemma take_drop_snoc (b c : nat) (x : ascii) (k : list ascii) :
  b <= c -> k !! c = Some x ->
  take (c - b) (drop b k) ++ [x] = take (S c - b) (drop b k).
Proof.
  intros Hbc Hx.
  rewrite <- (take_drop_glue b c (S c)) by lia.
  f_equal. replace (S c - c) with 1 by lia.
  now rewrite (drop_S _ _ _ Hx).
Qed.

Lemma take_drop_rest (b c : nat) (k : list ascii) :
  b <= c ->
  take (c - b) (drop b k) ++ drop c k = drop b k.
Proof.
  intros Hbc.
  rewrite <- (take_drop (c - b) (drop b k)) at 2.
  rewrite drop_drop. now replace (b + (c - b)) with c by lia.
Qed.

(** The inner loop stops at the closing character of the span, or beyond
    the end of the text when the span is not closed. *)
Lemma skip_quoted_scan (eq : ascii) (fuel cursor : nat) :
  List.length l - cursor < fuel ->
  exists stop,
    skip_quoted fuel txt eq cursor = Ret stop
    /\ cursor <= stop
    /\ forall seg,
         scan_cut (InSpan eq) seg (drop cursor l)
         = if stop <? List.length l
           then scan_cut Unquoted
                  (seg ++ take (S stop - cursor) (drop cursor l))
                  (drop (S stop) l)
           else [seg ++ drop cursor l].
Proof.
  revert cursor. induction fuel as [|fuel IH]; intros cursor Hfuel; [lia|].
  simpl. rewrite <- length_list_ascii. fold l.
  destruct (Nat.ltb_spec cursor (List.length l)) as [Hlt|Hge].
  - destruct (lookup_lt_is_Some_2 l cursor Hlt) as [c Hc].
    rewrite (at_lookup _ _ _ Hc). simpl.
    destruct (Ascii.eqb_spec c eq) as [->|Hne]; simpl.
    + exists cursor. split; [reflexivity|]. split; [lia|]. intros seg.
      apply Nat.ltb_lt in Hlt. rewrite Hlt.
      rewrite (drop_S _ _ _ Hc), scan_cut_cons. simpl.
      rewrite Ascii.eqb_refl. replace (S cursor - cursor) with 1 by lia.
      reflexivity.
    + apply Ascii.eqb_neq in Hne.
      destruct (Ascii.eqb c backslash) eqn:Hb.
      * destruct (IH (cursor + 1 + 1)) as (stop & Hrun & Hle & Hscan); [lia|].
        exists stop. split; [exact Hrun|]. split; [lia|]. intros seg.
        rewrite (drop_S _ _ _ Hc), scan_cut_cons. unfold tok_step.
        rewrite Hne, Hb.
        destruct (l !! S cursor) as [d|] eqn:Hd.
        -- rewrite (drop_S _ _ _ Hd), scan_cut_cons. unfold tok_step.
           replace (S (S cursor)) with (cursor + 1 + 1) by lia.
           rewrite Hscan. destruct (stop <? List.length l).
           ++ f_equal. rewrite <- !app_assoc. f_equal. simpl.
              replace (S stop - cursor) with (S (S (S stop - (cursor + 1 + 1)))) by lia.
              reflexivity.
           ++ rewrite <- !app_assoc. reflexivity.
        -- apply lookup_ge_None in Hd.
           rewrite (drop_ge l (S cursor)) by lia. rewrite scan_cut_nil.
           destruct (Nat.ltb_spec stop (List.length l)); [lia|reflexivity].
      * destruct (IH (cursor + 1)) as (stop & Hrun & Hle & Hscan); [lia|].
        exists stop. split; [exact Hrun|]. split; [lia|]. intros seg.
        rewrite (drop_S _ _ _ Hc), scan_cut_cons. unfold tok_step.
        rewrite Hne, Hb.
        replace (S cursor) with (cursor + 1) by lia.
        rewrite Hscan. destruct (stop <? List.length l).
        -- f_equal. rewrite <- app_assoc. f_equal. simpl.
           replace (S stop - cursor) with (S (S stop - (cursor + 1))) by lia.
           reflexivity.
        -- rewrite <- app_assoc. reflexivity.
  - exists cursor. split; [reflexivity|]. split; [lia|]. intros seg.
    apply Nat.ltb_ge in Hge. rewrite Hge.
    apply Nat.ltb_ge in Hge. rewrite drop_ge by lia.
    now rewrite app_nil_r.
Qed.

(** An opening character has a closing one when the sets are paired. *)
Lemma closer_paired (c : ascii) (i : nat) :
  String.length lq <= String.length rq ->
  Str.index c lq = Some i ->
  exists eq, String.get i rq = Some eq /\ closer lq rq c = Some eq.
Proof.
  intros Hlen Hi. pose proof (index_lt _ _ _ Hi) as Hlt.
  destruct (get_is_Some rq i) as [eq Heq]; [lia|].
  exists eq. split; [exact Heq|]. unfold closer. now rewrite Hi.
Qed.

(** The loop invariant: the segments still to come are those of the scan
    of the rest of the text, the segment under way being
    [txt[begseg:cursor]]. *)
Lemma splitValues_loop_scan (fuel : nat) :
  String.length lq <= String.length rq ->
  forall (result : list string) (cursor begseg : nat),
    begseg <= cursor ->
    List.length l - cursor < fuel ->
    splitValues_loop fuel txt sep lq rq result cursor begseg
    = Ret (result ++
           List.map string_of_list_ascii
             (scan_cut Unquoted (take (cursor - begseg) (drop begseg l))
                       (drop cursor l))).
Proof.
  intros Hpair. induction fuel as [|fuel IH];
    intros result cursor begseg Hbeg Hfuel; [lia|].
  simpl. rewrite <- length_list_ascii. fold l.
  destruct (Nat.ltb_spec cursor (List.length l)) as [Hlt|Hge].
  - destruct (lookup_lt_is_Some_2 l cursor Hlt) as [c Hc].
    rewrite (at_lookup _ _ _ Hc). simpl.
    rewrite (drop_S _ _ _ Hc), scan_cut_cons. unfold tok_step, Str.mem.
    destruct (Str.index c lq) as [i|] eqn:Hi.
    + destruct (closer_paired c i Hpair Hi) as (eq & Hget & Hcl).
      rewrite Hcl. simpl. unfold Str.at_ at 1. rewrite Hget. simpl.
      destruct (skip_quoted_scan eq fuel (cursor + 1))
        as (stop & Hrun & Hle & Hscan); [lia|].
      rewrite Hrun. simpl.
      replace (S cursor) with (cursor + 1) by lia. rewrite Hscan.
      rewrite (take_drop_snoc begseg cursor c l Hbeg Hc).
      destruct (Nat.ltb_spec stop (List.length l)) as [Hs|Hs].
      * rewrite IH by lia.
        replace (stop + 1) with (S stop) by lia.
        rewrite <- (take_drop_glue begseg (S cursor) (S stop)) by lia.
        replace (cursor + 1) with (S cursor) by lia. reflexivity.
      * rewrite IH by lia. rewrite (drop_ge l stop) by lia.
        rewrite scan_cut_nil.
        rewrite (take_ge (drop begseg l) (stop - begseg))
          by (rewrite length_drop; lia).
        replace (cursor + 1) with (S cursor) by lia.
        rewrite take_drop_rest by lia. reflexivity.
    + unfold closer. rewrite Hi.
      destruct (Str.index c sep) as [j|] eqn:Hj.
      * rewrite IH by lia. rewrite <- app_assoc. simpl.
        rewrite slice_take_drop. fold l.
        replace (cursor + 1 - (cursor + 1)) with 0 by lia.
        replace (cursor + 1) with (S cursor) by lia. reflexivity.
      * rewrite IH by lia.
        rewrite (take_drop_snoc begseg cursor c l Hbeg Hc).
        replace (cursor + 1) with (S cursor) by lia. reflexivity.
  - rewrite (drop_ge l cursor) by lia. rewrite scan_cut_nil. simpl.
    now rewrite slice_take_drop.
Qed.

Lemma splitValues_scan :
  String.length lq <= String.length rq ->
  splitValues txt sep lq rq = Ret (segments txt sep lq rq).
Proof.
  intros Hpair. unfold splitValues.
  rewrite splitValues_loop_scan; [reflexivity|exact Hpair|lia|].
  unfold l. rewrite length_list_ascii. lia.
Qed.

End SplitValues.

(** ** Counting and rejoining the segments *)

Lemma unquoted_seps_length sep lq rq st (k : list ascii) :
  List.length (unquoted_seps sep lq rq st k) = List.length k.
Proof.
  revert st. induction k as [|c k IH]; intros st; simpl; [reflexivity|].
  destruct (tok_step sep lq rq st c) as [st' b]. simpl. now rewrite IH.
Qed.

Lemma cut_at_length (marks : list bool) (k seg : list ascii) :
  List.length marks = List.length k ->
  List.length (cut_at marks k seg) = S (count_true marks).
Proof.
  revert marks seg. induction k as [|c k IH]; intros [|[] marks] seg Hlen;
    simpl in *; try discriminate; try reflexivity.
  - unfold count_true in *. simpl. f_equal. apply IH. lia.
  - unfold count_true in *. simpl. apply IH. lia.
Qed.

Lemma cut_at_rejoin (marks : list bool) (k seg : list ascii) :
  List.length marks = List.length k ->
  rejoin (cut_at marks k seg) (marked marks k) = seg ++ k.
Proof.
  revert marks seg. induction k as [|c k IH]; intros [|[] marks] seg Hlen;
    simpl in *; try discriminate.
  - now rewrite app_nil_r.
  - rewrite IH by lia. reflexivity.
  - rewrite IH by lia. now rewrite <- app_assoc.
Qed.

Lemma segments_length (txt sep lq rq : string) :
  List.length (segments txt sep lq rq)
  = S (count_true (separator_marks txt sep lq rq)).
Proof.
  unfold segments. rewrite length_map. apply cut_at_length.
  apply unquoted_seps_length.
Qed.

(** C7. For every text and separator set, and every paired opening and
    closing sets, [splitValues] returns, without error, the segments of
    the text cut at its unquoted separators, in order: characters inside
    a span are never separators, a backslash inside a span escapes the
    next character, an unclosed span runs to the end of the text, the last
    segment is always there, and the number of segments is the number of
    unquoted separators plus one; putting the separators back between the
    segments gives the text again. All pairs of the sets are handled in
    the same pass. *)
Theorem splitValues_segments (txt sep lq rq : string) :
  String.length lq = String.length rq ->
  splitValues txt sep lq rq = Ret (segments txt sep lq rq)
  /\ List.length (segments txt sep lq rq)
     = S (count_true (separator_marks txt sep lq rq))
  /\ rejoin (List.map list_ascii_of_string (segments txt sep lq rq))
            (marked (separator_marks txt sep lq rq) (list_ascii_of_string txt))
     = list_ascii_of_string txt.
Proof.
  intros Hpair. split; [|split].
  - apply splitValues_scan. lia.
  - apply segments_length.
  - unfold segments. rewrite map_map.
    erewrite map_ext; [|intros; apply list_ascii_of_string_of_list_ascii].
    rewrite map_id. apply cut_at_rejoin. apply unquoted_seps_length.
Qed.

Lemma splitValues_segments_witness :
  String.length default_lq = String.length default_rq
  /\ splitValues "a,<b,c>,d" default_sep default_lq default_rq
     = Ret (segments "a,<b,c>,d" default_sep default_lq default_rq).
Proof.
  split; [reflexivity|].
  apply (splitValues_segments "a,<b,c>,d" default_sep default_lq default_rq).
  reflexivity.
Defined.

(** ** parseLinks *)

(** The headers of [testParseLinks]. *)
Definition test_links : list (string * string) :=
  [ ("Link", "<http://example.org/foo>; rel=foo");
    ("Link", " <http://example.org/bar> ; rel = bar ");
    ("Link", "<http://example.org/bas>; rel=bas; par = zzz , <http://example.org/bat>; rel = bat");
    ("Link", " <http://example.org/fie> ; par = fie ");
    ("Link", " <http://example.org/fum> ; rel = " +:+ String dquote
               ("http://example.org/rel/fum" +:+ String dquote " "));
    ("Link", " <http://example.org/fas;far> ; rel = " +:+ String dquote
               ("http://example.org/rel/fas" +:+ String dquote " ")) ].

Example testParseLinks :
  links_get (parseLinks test_links) "foo" = Some "http://example.org/foo"
  /\ links_get (parseLinks test_links) "bar" = Some "http://example.org/bar"
  /\ links_get (parseLinks test_links) "bas" = Some "http://example.org/bas"
  /\ links_get (parseLinks test_links) "bat" = Some "http://example.org/bat"
  /\ links_get (parseLinks test_links) "http://example.org/rel/fum"
     = Some "http://example.org/fum"
  /\ links_get (parseLinks test_links) "http://example.org/rel/fas"
     = Some "http://example.org/fas;far".
Proof. repeat split; vm_compute; reflexivity. Qed.

(** ** The backtracking matcher on the two patterns *)

Section Backtrack.

Context {R : Type}.
Variable k : cls.
Variable cont : list ascii -> option R.

Lemma cont_drop_while_None (s : list ascii) :
  (forall x c, cls_mem k c = true -> cont x = None -> cont (c :: x) = None) ->
  cont (drop_while (cls_mem k) s) = None -> cont s = None.
Proof.
  intros Hup. induction s as [|c t IH]; simpl; [auto|].
  destruct (cls_mem k c) eqn:Hc; [|auto].
  intros Hnone. apply Hup; auto.
Qed.

(** When a failure of the continuation is not repaired by giving it one
    more character of the class, the greedy star takes all of them. *)
Lemma star_greedy_drop_while (s : list ascii) :
  (forall x c, cls_mem k c = true -> cont x = None -> cont (c :: x) = None) ->
  star_greedy k cont s = cont (drop_while (cls_mem k) s).
Proof.
  intros Hup. induction s as [|c t IH]; simpl; [reflexivity|].
  destruct (cls_mem k c) eqn:Hc; [|reflexivity].
  rewrite IH. destruct (cont (drop_while (cls_mem k) t)) eqn:Hd; [reflexivity|].
  apply Hup; [exact Hc|]. now apply cont_drop_while_None.
Qed.

Lemma star_greedy_const (r : R) (s : list ascii) :
  (forall x, cont x = Some r) -> star_greedy k cont s = Some r.
Proof.
  intros Hc. induction s as [|c t IH]; simpl; [apply Hc|].
  destruct (cls_mem k c); [now rewrite IH|apply Hc].
Qed.

End Backtrack.

Lemma drop_while_head (p : ascii -> bool) (s : list ascii) c t :
  drop_while p s = c :: t -> p c = false.
Proof.
  induction s as [|d s IH]; simpl; [discriminate|].
  destruct (p d) eqn:Hd; [exact IH|]. now intros [= <- <-].
Qed.

Lemma take_drop_while (p : ascii -> bool) (s : list ascii) :
  take_while p s ++ drop_while p s = s.
Proof.
  induction s as [|c t IH]; simpl; [reflexivity|].
  destruct (p c); simpl; [now rewrite IH|reflexivity].
Qed.

(** The text of group 1, from the input left at its two ends. *)
Lemma group_text (v z : list ascii) :
  take (List.length (v ++ z) - List.length z) (v ++ z) = v.
Proof.
  rewrite length_app. replace (List.length v + List.length z - List.length z)
    with (List.length v) by lia.
  now rewrite take_app_length.
Qed.

Lemma group_text_drop (v y : list ascii) :
  v ++ drop (List.length v) y = y ->
  take (List.length y - List.length (drop (List.length v) y)) y = v.
Proof.
  remember (drop (List.length v) y) as z eqn:Hz. clear Hz.
  intros <-. apply group_text.
Qed.

Lemma link_uri_re_body (go gc s : list ascii) :
  re_run [GOpen; Star (CNot ">"); GClose; One (CLit ">"); Star CSpace] go gc s
  = match drop_while not_gt s with
    | _ :: _ => Some (s, drop_while not_gt s)
    | [] => None
    end.
Proof.
  simpl. rewrite star_greedy_drop_while.
  - change (cls_mem (CNot ">")) with not_gt.
    destruct (drop_while not_gt s) as [|c t] eqn:Hd; [reflexivity|].
    apply drop_while_head in Hd. unfold not_gt in Hd.
    apply negb_false_iff in Hd. rewrite Hd.
    now apply star_greedy_const.
  - intros x c Hc _. simpl in Hc. apply negb_true_iff in Hc. now rewrite Hc.
Qed.

Lemma link_uri_re_leading (part : string) :
  re_match_group1 link_uri_re part = leading_bracketed_uri part.
Proof.
  unfold re_match_group1, leading_bracketed_uri, link_uri_re.
  cbn [re_run]. rewrite star_greedy_drop_while.
  - change (cls_mem CSpace) with is_space.
    destruct (drop_while is_space (list_ascii_of_string part)) as [|c t];
      [reflexivity|].
    change (cls_mem (CLit "<") c) with (Ascii.eqb c "<").
    destruct (Ascii.eqb c "<"); [|reflexivity].
    pose proof (link_uri_re_body [] [] t) as Hb. cbn [re_run] in Hb.
    rewrite Hb. destruct (drop_while not_gt t) as [|d r] eqn:Hd; [reflexivity|].
    rewrite <- Hd. rewrite <- (take_drop_while not_gt t) at 1 3.
    now rewrite group_text.
  - intros x c Hc _. change (cls_mem (CLit "<") c) with (Ascii.eqb c "<").
    destruct (Ascii.eqb_spec c "<") as [->|]; [discriminate Hc|reflexivity].
Qed.

(** *** The value of a rel parameter *)

Definition has_newline (v : list ascii) : bool :=
  List.existsb (Ascii.eqb newline) v.

Definition unquoted_value (y : list ascii) : list ascii :=
  drop_last_quote (rstrip y).

(** What may follow the value: one double quote at most, then whitespace
    to the end. *)
Definition value_end (z : list ascii) : bool :=
  match drop_while is_space (drop_first_quote z) with
  | [] => true
  | _ :: _ => false
  end.

Lemma space_not_dquote (c : ascii) : is_space c = true -> Ascii.eqb c dquote = false.
Proof.
  intros Hc. destruct (Ascii.eqb_spec c dquote) as [->|]; [|reflexivity].
  discriminate Hc.
Qed.

Lemma space_newline : is_space newline = true.
Proof. reflexivity. Qed.

Lemma rstrip_spaces (s : list ascii) :
  drop_while is_space s = [] -> rstrip s = [].
Proof.
  induction s as [|c t IH]; simpl; [reflexivity|].
  destruct (is_space c) eqn:Hc; [|discriminate].
  intros Ht. now rewrite (IH Ht).
Qed.

Lemma rstrip_nil_spaces (s : list ascii) :
  rstrip s = [] -> drop_while is_space s = [].
Proof.
  induction s as [|c t IH]; simpl; [reflexivity|].
  destruct (rstrip t) as [|d r]; [|discriminate].
  destruct (is_space c); [intros _; now apply IH|discriminate].
Qed.

Lemma unquoted_value_cons (c : ascii) (t : list ascii) :
  rstrip t <> [] -> unquoted_value (c :: t) = c :: unquoted_value t.
Proof.
  unfold unquoted_value. simpl. destruct (rstrip t) as [|d r]; [congruence|].
  reflexivity.
Qed.

Lemma value_end_unquoted_nil (y : list ascii) :
  value_end y = true -> unquoted_value y = [].
Proof.
  unfold value_end, unquoted_value. destruct y as [|c t]; [reflexivity|].
  simpl. destruct (Ascii.eqb c dquote) eqn:Hq.
  - destruct (drop_while is_space t) eqn:Ht; [|discriminate]. intros _.
    rewrite (rstrip_spaces _ Ht).
    apply Ascii.eqb_eq in Hq. subst c. reflexivity.
  - simpl. destruct (is_space c) eqn:Hc; [|discriminate].
    destruct (drop_while is_space t) eqn:Ht; [|discriminate]. intros _.
    now rewrite (rstrip_spaces _ Ht).
Qed.

Lemma not_value_end_unquoted_cons (c : ascii) (t : list ascii) :
  value_end (c :: t) = false ->
  unquoted_value (c :: t) = c :: unquoted_value t.
Proof.
  intros Hend. destruct (rstrip t) as [|d r] eqn:Hr.
  - unfold unquoted_value. simpl. rewrite Hr.
    apply rstrip_nil_spaces in Hr. unfold value_end in Hend. simpl in Hend.
    destruct (Ascii.eqb c dquote) eqn:Hq.
    + now rewrite Hr in Hend.
    + simpl in Hend. destruct (is_space c); [now rewrite Hr in Hend|].
      simpl. now rewrite Hq.
  - apply unquoted_value_cons. congruence.
Qed.

Lemma has_newline_cons (c : ascii) (t : list ascii) :
  has_newline (unquoted_value t) = true ->
  has_newline (unquoted_value (c :: t)) = true.
Proof.
  intros Hnl. rewrite unquoted_value_cons.
  - simpl. rewrite Hnl. apply orb_true_r.
  - intros Hr. unfold unquoted_value in Hnl. now rewrite Hr in Hnl.
Qed.

Lemma rstrip_prefix (s : list ascii) : rstrip s `prefix_of` s.
Proof.
  induction s as [|c t IH]; simpl; [reflexivity|].
  destruct (rstrip t) as [|d r].
  - destruct (is_space c); [apply prefix_nil|].
    apply prefix_cons, prefix_nil.
  - now apply prefix_cons.
Qed.

Lemma drop_last_quote_prefix (s : list ascii) : drop_last_quote s `prefix_of` s.
Proof.
  induction s as [|c t IH]; simpl; [reflexivity|].
  destruct t as [|d r].
  - destruct (Ascii.eqb c dquote); [apply prefix_nil|reflexivity].
  - now apply prefix_cons.
Qed.

Lemma unquoted_value_split (y : list ascii) :
  unquoted_value y ++ drop (List.length (unquoted_value y)) y = y.
Proof.
  assert (unquoted_value y `prefix_of` y) as [z Hz].
  { unfold unquoted_value. etransitivity;
      [apply drop_last_quote_prefix|apply rstrip_prefix]. }
  remember (unquoted_value y) as v eqn:Hv. clear Hv. subst y.
  now rewrite drop_app_length.
Qed.

Lemma link_rel_re_eos (go gc z : list ascii) :
  re_run [Star CSpace; Eos] go gc z
  = match drop_while is_space z with
    | [] => Some (go, gc)
    | _ :: _ => None
    end.
Proof.
  cbn [re_run]. rewrite star_greedy_drop_while.
  - change (cls_mem CSpace) with is_space.
    destruct (drop_while is_space z) as [|c t] eqn:Hd; [reflexivity|].
    apply drop_while_head in Hd. destruct t; [|reflexivity]. simpl.
    destruct (Ascii.eqb_spec c newline) as [->|]; [discriminate Hd|reflexivity].
  - intros x c _. destruct x; [discriminate|reflexivity].
Qed.

Lemma link_rel_re_end (go gc z : list ascii) :
  re_run [Opt (CLit dquote); Star CSpace; Eos] go gc z
  = if value_end z then Some (go, gc) else None.
Proof.
  pose proof (link_rel_re_eos go gc) as He. cbn [re_run] in *.
  unfold opt_greedy, value_end. destruct z as [|c t]; [apply He|].
  change (cls_mem (CLit dquote) c) with (Ascii.eqb c dquote).
  cbn [drop_first_quote].
  destruct (Ascii.eqb c dquote) eqn:Hq.
  - rewrite !He. destruct (drop_while is_space t); [reflexivity|].
    cbn [drop_while]. destruct (is_space c) eqn:Hc; [|reflexivity].
    rewrite (space_not_dquote _ Hc) in Hq. discriminate.
  - rewrite He. now destruct (drop_while is_space (c :: t)).
Qed.

(** The lazy star stops at the first end of value, which is the end of
    the unquoted value. *)
Lemma star_lazy_value (go : list ascii)
    (cont : list ascii -> option (list ascii * list ascii)) (y : list ascii) :
  (forall z, cont z = if value_end z then Some (go, z) else None) ->
  star_lazy CDot cont y
  = if has_newline (unquoted_value y) then None
    else Some (go, drop (List.length (unquoted_value y)) y).
Proof.
  intros Hcont. induction y as [|c t IH].
  - cbn [star_lazy]. now rewrite Hcont.
  - cbn [star_lazy]. rewrite Hcont. destruct (value_end (c :: t)) eqn:Hend.
    + now rewrite (value_end_unquoted_nil _ Hend).
    + rewrite (not_value_end_unquoted_cons _ _ Hend).
      unfold has_newline in *. cbn [List.existsb List.length skipn cls_mem].
      rewrite IH. rewrite (Ascii.eqb_sym c newline).
      destruct (Ascii.eqb newline c); reflexivity.
Qed.

Lemma link_rel_re_value (go gc y : list ascii) :
  re_run [GOpen; StarLazy CDot; GClose; Opt (CLit dquote); Star CSpace; Eos]
         go gc y
  = if has_newline (unquoted_value y) then None
    else Some (y, drop (List.length (unquoted_value y)) y).
Proof.
  cbn [re_run]. apply star_lazy_value. intros z.
  apply (link_rel_re_end y z z).
Qed.

Lemma link_rel_re_quoted (go gc x : list ascii) :
  re_run [Opt (CLit dquote); GOpen; StarLazy CDot; GClose;
          Opt (CLit dquote); Star CSpace; Eos] go gc x
  = let y := drop_first_quote x in
    if has_newline (unquoted_value y) then None
    else Some (y, drop (List.length (unquoted_value y)) y).
Proof.
  cbv zeta.
  change (re_run (Opt (CLit dquote) :: ?re) go gc x)
    with (opt_greedy (CLit dquote) (re_run re go gc) x).
  unfold opt_greedy. destruct x as [|c t]; [apply link_rel_re_value|].
  change (cls_mem (CLit dquote) c) with (Ascii.eqb c dquote).
  cbn [drop_first_quote].
  destruct (Ascii.eqb c dquote) eqn:Hq; [|apply link_rel_re_value].
  rewrite !link_rel_re_value.
  destruct (has_newline (unquoted_value t)) eqn:Hnl; [|reflexivity].
  now rewrite (has_newline_cons c t Hnl).
Qed.

Lemma link_rel_re_rel_value (param : string) :
  re_match_group1 link_rel_re param = rel_value param.
Proof.
  unfold re_match_group1, rel_value, link_rel_re.
  cbn [re_run]. rewrite star_greedy_drop_while.
  2:{ intros x c Hc _. change (cls_mem (CLit "r") c) with (Ascii.eqb c "r").
      destruct (Ascii.eqb_spec c "r") as [->|]; [discriminate Hc|reflexivity]. }
  change (cls_mem CSpace) with is_space.
  destruct (drop_while is_space (list_ascii_of_string param))
    as [|c1 [|c2 [|c3 s1]]].
  - reflexivity.
  - now destruct (cls_mem (CLit "r") c1).
  - destruct (cls_mem (CLit "r") c1); [|reflexivity].
    now destruct (cls_mem (CLit "e") c2).
  - change (cls_mem (CLit "r") c1) with (Ascii.eqb c1 "r").
    change (cls_mem (CLit "e") c2) with (Ascii.eqb c2 "e").
    change (cls_mem (CLit "l") c3) with (Ascii.eqb c3 "l").
    destruct (Ascii.eqb c1 "r"); [|reflexivity].
    destruct (Ascii.eqb c2 "e"); [|reflexivity].
    destruct (Ascii.eqb c3 "l"); [|reflexivity]. simpl andb. cbv iota.
    rewrite star_greedy_drop_while.
    2:{ intros x c Hc _. change (cls_mem (CLit "=") c) with (Ascii.eqb c "=").
        destruct (Ascii.eqb_spec c "=") as [->|]; [discriminate Hc|reflexivity]. }
    change (cls_mem CSpace) with is_space.
    destruct (drop_while is_space s1) as [|c4 s2]; [reflexivity|].
    change (cls_mem (CLit "=") c4) with (Ascii.eqb c4 "=").
    destruct (Ascii.eqb c4 "="); [|reflexivity].
    pose proof (link_rel_re_quoted [] []) as Hq. cbn [re_run] in Hq.
    rewrite star_greedy_drop_while.
    + rewrite Hq. cbv zeta. change (cls_mem CSpace) with is_space.
      fold (unquoted_value (drop_first_quote (drop_while is_space s2))).
      fold (has_newline (unquoted_value (drop_first_quote (drop_while is_space s2)))).
      destruct (has_newline _); [reflexivity|].
      rewrite group_text_drop; [reflexivity|apply unquoted_value_split].
    + intros x c Hc. rewrite !Hq. cbv zeta.
      destruct (has_newline (unquoted_value (drop_first_quote x))) eqn:Hnl;
        [intros _|discriminate].
      assert (has_newline (unquoted_value x) = true) as Hx.
      { destruct x as [|d t]; [exact Hnl|]. simpl in Hnl.
        destruct (Ascii.eqb d dquote); [now apply has_newline_cons|exact Hnl]. }
      simpl. change (cls_mem CSpace c) with (is_space c) in Hc.
      rewrite (space_not_dquote _ Hc).
      now rewrite (has_newline_cons c x Hx).
Qed.

(** *** The loops of parseLinks *)

(** [updates m m' cs]: the map [m'] is [m] after the bindings [cs] were
    stored in order. *)
Definition updates (m m' : gmap string string) (cs : list (string * string))
  : Prop :=
  forall rel, m' !! rel = match last_binding rel cs with
                          | Some u => Some u
                          | None => m !! rel
                          end.

Lemma last_binding_app (rel : string) (cs1 cs2 : list (string * string)) :
  last_binding rel (cs1 ++ cs2)
  = match last_binding rel cs2 with
    | Some u => Some u
    | None => last_binding rel cs1
    end.
Proof.
  induction cs1 as [|[r u] cs1 IH]; simpl.
  - now destruct (last_binding rel cs2).
  - rewrite IH. destruct (last_binding rel cs2); [reflexivity|].
    reflexivity.
Qed.

Lemma updates_nil (m : gmap string string) : updates m m [].
Proof. intros rel. reflexivity. Qed.

Lemma updates_app (m m1 m2 : gmap string string) cs1 cs2 :
  updates m m1 cs1 -> updates m1 m2 cs2 -> updates m m2 (cs1 ++ cs2).
Proof.
  intros H1 H2 rel. rewrite H2, last_binding_app, H1.
  now destruct (last_binding rel cs2).
Qed.

Lemma updates_insert (m : gmap string string) (r u : string) :
  updates m (<[r := u]> m) [(r, u)].
Proof.
  intros rel. simpl. destruct (String.eqb_spec r rel) as [->|Hne].
  - apply lookup_insert_eq.
  - now apply lookup_insert_ne.
Qed.

(** [for_each] composes the updates of its body. *)
Lemma for_each_updates {A : Type}
    (body : gmap string string -> A -> res (gmap string string))
    (contrib : A -> list (string * string)) (xs : list A) :
  (forall m x, exists m', body m x = Ret m' /\ updates m m' (contrib x)) ->
  forall m, exists m',
    for_each body xs m = Ret m' /\ updates m m' (List.flat_map contrib xs).
Proof.
  intros Hbody. induction xs as [|x xs IH]; intros m; simpl.
  - exists m. split; [reflexivity|apply updates_nil].
  - destruct (Hbody m x) as (m1 & -> & Hu1). simpl.
    destruct (IH m1) as (m2 & -> & Hu2).
    exists m2. split; [reflexivity|]. eapply updates_app; eauto.
Qed.

Lemma parseLinks_param_updates (linkuri : string) (m : gmap string string)
    (linkparam : string) :
  exists m',
    parseLinks_param linkuri m linkparam = Ret m'
    /\ updates m m' match rel_value linkparam with
                    | Some r => [(r, linkuri)]
                    | None => []
                    end.
Proof.
  unfold parseLinks_param. rewrite link_rel_re_rel_value.
  destruct (rel_value linkparam) as [r|]; eexists; (split; [reflexivity|]).
  - apply updates_insert.
  - apply updates_nil.
Qed.

Lemma default_quotes_paired :
  String.length default_lq <= String.length default_rq.
Proof. simpl. lia. Qed.

Lemma parseLinks_linkval_updates (m : gmap string string) (linkval : string) :
  exists m',
    parseLinks_linkval m linkval = Ret m'
    /\ updates m m' (value_links leading_bracketed_uri linkval).
Proof.
  unfold parseLinks_linkval, value_links.
  rewrite (splitValues_scan _ _ _ _ default_quotes_paired). simpl rbind.
  destruct (segments linkval ";" default_lq default_rq) as [|part0 params] eqn:Hs.
  - exfalso. pose proof (segments_length linkval ";" default_lq default_rq)
      as Hlen.
    rewrite Hs in Hlen. discriminate Hlen.
  - simpl. rewrite link_uri_re_leading.
    destruct (leading_bracketed_uri part0) as [uri|].
    + apply for_each_updates. intros m0 x. apply parseLinks_param_updates.
    + exists m. split; [reflexivity|apply updates_nil].
Qed.

Lemma parseLinks_linkheader_updates (m : gmap string string)
    (linkheader : string) :
  exists m',
    parseLinks_linkheader m linkheader = Ret m'
    /\ updates m m'
         (List.flat_map (value_links leading_bracketed_uri)
            (segments linkheader "," default_lq default_rq)).
Proof.
  unfold parseLinks_linkheader.
  rewrite (splitValues_scan _ _ _ _ default_quotes_paired). simpl rbind.
  apply for_each_updates. intros m0 x. apply parseLinks_linkval_updates.
Qed.

Lemma parseLinks_updates (headerlist : list (string * string)) :
  exists links,
    parseLinks headerlist = Ret links
    /\ updates ∅ links (link_contributions leading_bracketed_uri headerlist).
Proof.
  unfold parseLinks, link_contributions, link_values.
  apply for_each_updates. intros m x. apply parseLinks_linkheader_updates.
Qed.


(** C8, amended. For every list of (name, value) headers, [parseLinks]
    returns, without error, a map from relations to URIs built from
    exactly the headers whose name is [link] in any letter case: each
    comma-separated value (brackets and double quotes protecting the
    separators) whose first semicolon-separated part begins, after optional
    whitespace, with a bracketed URI contributes that URI under the value of
    each [rel = value] parameter among its other parts (one double quote on
    each side of the value and the whitespace around it dropped); whatever
    follows the closing bracket in the first part is not looked at; other
    values and other parameters contribute nothing; the last occurrence of a
    relation wins. *)
Theorem parseLinks_contributions (headerlist : list (string * string)) :
  exists links,
    parseLinks headerlist = Ret links
    /\ forall rel,
         links !! rel
         = last_binding rel
             (link_contributions leading_bracketed_uri headerlist).
Proof.
  destruct (parseLinks_updates headerlist) as (links & Hrun & Hup).
  exists links. split; [exact Hrun|]. intros rel. rewrite Hup.
  destruct (last_binding rel _); [reflexivity|apply lookup_empty].
Qed.

Definition trailing_text_links : list (string * string) :=
  [("Link", "<http://example.org/a>b; rel=x")].

(** C8 as stated fails: the first part [<http://example.org/a>b] is not
    a bracketed URI, yet the value contributes a link. *)
Lemma parseLinks_trailing_text :
  bracketed_uri "<http://example.org/a>b" = None
  /\ specified_links trailing_text_links "x" = None
  /\ links_get (parseLinks trailing_text_links) "x"
     = Some "http://example.org/a".
Proof. repeat split; vm_compute; reflexivity. Qed.

(** ** ro_remote_metadata *)

(** What [isInternalResource] computes: whether the RO URI begins with
    the resource URI. *)
Lemma isInternalResource_prefix (rouri resuri : string) :
  isInternalResource rouri resuri = String.prefix resuri rouri.
Proof. reflexivity. Qed.

(** C5, at a resource inside the RO. The resource URI has the RO URI as
    a prefix, and [isInternalResource] answers false; it answers true for
    a proper prefix of the RO URI, which does not have the RO URI as a
    prefix. *)
Theorem isInternalResource_reversed :
  String.prefix "http://example.org/ro/" "http://example.org/ro/data/f.txt"
    = true
  /\ isInternalResource "http://example.org/ro/"
       "http://example.org/ro/data/f.txt" = false
  /\ String.prefix "http://example.org/ro/" "http://example.org/" = false
  /\ isInternalResource "http://example.org/ro/" "http://example.org/" = true.
Proof. repeat split. Qed.

Section ManifestCache.

Variable graph_parse : list string -> string -> Graph * option exn.

(** X23. A manifest that was loaded with at least one triple is kept:
    the next call returns it without a fetch and without a change of
    state. *)
Lemma _loadManifest_cached (st st1 : ro_state) (g : Graph) :
  _loadManifest graph_parse st = (Ret g, st1) ->
  g <> [] ->
  _loadManifest graph_parse st1 = (Ret g, st1).
Proof.
  intros Hload Hne.
  assert (manifestgraph (self_ st1) = Some g) as Hg.
  { unfold _loadManifest, _loadManifest_fill in Hload.
    destruct (manifestgraph (self_ st)) as [g0|] eqn:Hm.
    - destruct (truthy_graph (Some g0)).
      + injection Hload as <- <-. exact Hm.
      + destruct (dummyfortest _).
        * now injection Hload as <- <-.
        * destruct (graph_parse _ _) as [g1 [e|]]; [discriminate|].
          now injection Hload as <- <-.
    - destruct (dummyfortest _).
      + now injection Hload as <- <-.
      + destruct (graph_parse _ _) as [g1 [e|]]; [discriminate|].
        now injection Hload as <- <-. }
  unfold _loadManifest. rewrite Hg. simpl.
  destruct g; [congruence|reflexivity].
Qed.

(** A manifest that was loaded without any triple is fetched again by
    the next call. *)
Lemma _loadManifest_empty_again (st : ro_state) :
  manifestgraph (self_ st) = Some [] ->
  dummyfortest (self_ st) = false ->
  fetched (snd (_loadManifest graph_parse st))
  = fetched st ++ [manifesturi (self_ st)].
Proof.
  intros Hm Hd. unfold _loadManifest, _loadManifest_fill. rewrite Hm. simpl.
  rewrite Hd. now destruct (graph_parse _ _) as [g [e|]].
Qed.

End ManifestCache.

Definition empty_manifest_uri : string := "http://example.org/ro/.ro/manifest.rdf".

(** An RO whose manifest document holds no triple. *)
Definition empty_manifest_ro : ro_state :=
  {| self_ := {| manifestgraph := None; roannotations := None;
                 rouri := URIRef "http://example.org/ro/";
                 manifesturi := empty_manifest_uri;
                 dummyfortest := false |};
     fetched := [] |}.

Definition empty_manifest_parse (fetched_ : list string) (uri : string)
  : Graph * option exn :=
  ([], None).

(** C9, at a manifest without triples. The first [_loadManifest]
    completes after one fetch; the second call fetches the manifest
    again. *)
Theorem _loadManifest_empty_refetch :
  let '(r1, st1) := _loadManifest empty_manifest_parse empty_manifest_ro in
  let '(r2, st2) := _loadManifest empty_manifest_parse st1 in
  r1 = Ret []
  /\ fetched st1 = [empty_manifest_uri]
  /\ r2 = Ret []
  /\ fetched st2 = [empty_manifest_uri; empty_manifest_uri].
Proof. repeat split. Qed.

Section Annotations.

Variable graph_parse : list string -> string -> Graph * option exn.

Lemma getattr__readAnnotationBody :
  getattr_method "_readAnnotationBody"
  = Raise (AttributeError "_readAnnotationBody").
Proof. reflexivity. Qed.

(** With no annotation in the manifest the loop does not run. *)
Lemma _loadAnnotations_none (st st1 : ro_state) (g : Graph) :
  truthy_graph (roannotations (self_ st)) = false ->
  _loadManifest graph_parse st = (Ret g, st1) ->
  graph.subject_objects RO_annotatesAggregatedResource g = [] ->
  fst (_loadAnnotations graph_parse st) = Ret [].
Proof.
  intros Hann Hload Hnone.
  assert (fst (_loadAnnotations_fill graph_parse st) = Ret []) as Hfill.
  { unfold _loadAnnotations_fill. rewrite Hload, Hnone. reflexivity. }
  unfold _loadAnnotations. destruct (roannotations (self_ st)); [|exact Hfill].
  now rewrite Hann.
Qed.

(** With an annotation in the manifest the first run of the loop body
    raises: the class has no method [_readAnnotationBody]. *)
Lemma _loadAnnotations_raises (st st1 : ro_state) (g : Graph) :
  truthy_graph (roannotations (self_ st)) = false ->
  _loadManifest graph_parse st = (Ret g, st1) ->
  graph.subject_objects RO_annotatesAggregatedResource g <> [] ->
  fst (_loadAnnotations graph_parse st)
  = Raise (AttributeError "_readAnnotationBody").
Proof.
  intros Hann Hload Hsome.
  assert (fst (_loadAnnotations_fill graph_parse st)
          = Raise (AttributeError "_readAnnotationBody")) as Hfill.
  { unfold _loadAnnotations_fill. rewrite Hload.
    destruct (graph.subject_objects _ g) as [|[a s] l]; [congruence|].
    reflexivity. }
  unfold _loadAnnotations. destruct (roannotations (self_ st)); [|exact Hfill].
  now rewrite Hann.
Qed.

End Annotations.

(** A manifest with two annotations. *)
Definition two_annotations_manifest : Graph :=
  [ (URIRef "http://example.org/ro/", RDF_type, RO_ResearchObject);
    (BNode "ann1", RO_annotatesAggregatedResource,
       URIRef "http://example.org/ro/data/a.txt");
    (BNode "ann1", AO_body, URIRef "http://example.org/ro/.ro/ann1.rdf");
    (BNode "ann2", RO_annotatesAggregatedResource,
       URIRef "http://example.org/ro/data/b.txt");
    (BNode "ann2", AO_body, URIRef "http://example.org/ro/.ro/ann2.rdf") ].

Definition two_annotations_ro : ro_state :=
  {| self_ := {| manifestgraph := Some two_annotations_manifest;
                 roannotations := None;
                 rouri := URIRef "http://example.org/ro/";
                 manifesturi := "http://example.org/ro/.ro/manifest.rdf";
                 dummyfortest := false |};
     fetched := [] |}.

(** Every body can be dereferenced: each has one triple about a named
    subject. *)
Definition two_annotations_parse (fetched_ : list string) (uri : string)
  : Graph * option exn :=
  if String.eqb uri "http://example.org/ro/.ro/ann1.rdf" then
    ([(URIRef "http://example.org/ro/data/a.txt",
       URIRef "http://purl.org/dc/terms/title", Literal "a")], None)
  else if String.eqb uri "http://example.org/ro/.ro/ann2.rdf" then
    ([(URIRef "http://example.org/ro/data/b.txt",
       URIRef "http://purl.org/dc/terms/title", Literal "b")], None)
  else (two_annotations_manifest, None).

(** C6, at a manifest with two annotations whose bodies can both be
    dereferenced. [_loadAnnotations] raises AttributeError to its caller
    at the first annotation, nothing was fetched, and the annotation graph
    is left without triples. *)
Theorem _loadAnnotations_attribute_error :
  let '(r, st) := _loadAnnotations two_annotations_parse two_annotations_ro in
  r = Raise (AttributeError "_readAnnotationBody")
  /\ fetched st = []
  /\ roannotations (self_ st) = Some [].
Proof. repeat split. Qed.

(** ** HTTP_Session.doRequest *)

Example ex_urlsplit_base :
  ex_urlsplit "http://example.org/ro/data?x=1"
  = {| scheme := "http"; netloc := "example.org"; path := "/ro/data";
       query := "x=1"; fragment := "" |}.
Proof. reflexivity. Qed.

(** C1, at a refused connection. The failure arises in
    [usehttpcon.request], before the [try], and leaves [doRequest] as an
    exception: no response value is returned. *)
Theorem doRequest_refused_escapes :
  fst (doRequest ex_urljoin ex_urlsplit net_refused ex_session
         "http://example.org/ro/data" "GET" None None None None false world0)
  = Raise (TransportError "[Errno 111] Connection refused").
Proof. vm_compute. reflexivity. Qed.

(** C2, at a redirect to another host followed with [exthost] and a
    header dictionary of the caller. The first request stores the
    authorization header in the caller's dictionary; the request to the
    other host, on its own connection, is sent with that dictionary and
    carries the session's key. *)
Theorem doRequest_foreign_key_sent :
  let run :=
    doRequestFollowRedirect ex_urljoin ex_urlsplit ex_repr
      net_foreign_redirect ex_session "http://example.org/ro/data" "GET"
      None None None (Some 0%nat) true world_slug in
  status_and_uri (fst run) = Some (200%Z, "http://other.example.net/y")
  /\ List.map fst (sent_headers (trace (snd run))) = [SessionCon; NewCon 0]
  /\ List.map (fun ch => snd ch !! "authorization")
       (sent_headers (trace (snd run)))
     = [Some "Bearer KEY"; Some "Bearer KEY"].
Proof. cbv zeta. repeat split; vm_compute; reflexivity. Qed.

(** C3, at two redirects of a request with an accept header. The third
    request is sent without the accept header of the first two. *)
Theorem doRequestFollowRedirect_drops_accept :
  let run :=
    doRequestFollowRedirect ex_urljoin ex_urlsplit ex_repr
      net_two_redirects ex_session "http://example.org/ro/a" "GET"
      None None (Some "text/turtle") None false world0 in
  status_and_uri (fst run) = Some (200%Z, "http://example.org/ro/c")
  /\ List.map (fun ch => snd ch !! "accept") (sent_headers (trace (snd run)))
     = [Some "text/turtle"; Some "text/turtle"; None].
Proof. cbv zeta. repeat split; vm_compute; reflexivity. Qed.

Section DoRequest.

Variable urljoin : string -> string -> string.
Variable urlsplit : string -> SplitResult.
Variable net : list event -> exchange.

Lemma doRequest_response_of (x : exchange) (w : world) :
  doRequest_response x w = (Ret (response_of x), w).
Proof. destruct x; reflexivity. Qed.

(** The choice of the connection: an error without any event, the
    connection of the session, or a new connection without the key. *)
Lemma doRequest_connection_cases (self : HTTP_Session) (parts : SplitResult)
    (exthost : bool) (w : world) :
  (exthost = false
   /\ exists msg value,
        doRequest_connection self parts exthost w
        = (Raise (HTTP_Error msg value (_baseuri self)), w))
  \/ doRequest_connection self parts exthost w
     = (Ret (None, SessionCon, _scheme self, _key self), w)
  \/ (exthost = true
      /\ doRequest_connection self parts exthost w
         = (Ret (Some (NewCon (conns w)), NewCon (conns w), scheme parts, None),
            {| store := store w;
               trace := trace w ++ [EvNew (conns w) (netloc parts)];
               conns := S (conns w) |})).
Proof.
  unfold doRequest_connection.
  destruct (nonempty (scheme parts)
            && negb (String.eqb (scheme parts) (_scheme self))) eqn:Hs;
  destruct (nonempty (netloc parts)
            && negb (String.eqb (netloc parts) (_host self))) eqn:Hh;
  cbn [orb]; destruct exthost.
  all: try (right; right; split; [reflexivity|reflexivity]).
  all: try (right; left; reflexivity).
  all: left; split; [reflexivity|]; eexists _, _; reflexivity.
Qed.

(** The assembly of the headers does not raise and makes no event. *)
Lemma doRequest_headers_runs (reqheaders : option nat)
    (usekey ctype accept : option string) (w : world) :
  exists d w',
    doRequest_headers reqheaders usekey ctype accept w = (Ret d, w')
    /\ trace w' = trace w /\ conns w' = conns w.
Proof.
  unfold doRequest_headers, mbind, mret, new_dict, read_dict, dict_set.
  destruct reqheaders as [d|]; simpl.
  - destruct (decide (default ∅ (store w !! d) = ∅));
      destruct (truthy_str usekey), (truthy_str ctype), (truthy_str accept);
      simpl; eauto.
  - destruct (truthy_str usekey), (truthy_str ctype), (truthy_str accept);
      simpl; eauto.
Qed.

Lemma con_request_cases (c : conn) (method path_ : string)
    (body : option string) (sent : gmap string string) (w : world) :
  let w' := {| store := store w;
               trace := trace w ++ [EvRequest c method path_ body sent];
               conns := conns w |} in
  (exists descr,
     net (trace w') = SendFails descr
     /\ con_request net c method path_ body sent w
        = (Raise (TransportError descr), w'))
  \/ (send_fails (net (trace w')) = false
      /\ con_request net c method path_ body sent w = (Ret (net (trace w')), w')).
Proof.
  unfold con_request. simpl.
  destruct (net (trace w ++ [EvRequest c method path_ body sent])) eqn:Hx;
    simpl; eauto.
Qed.

(** What a call of [doRequest] comes to: a mismatch error before any
    event, the exception of a failed send, or the response made from the
    answer of the network to the request. *)
Lemma doRequest_outcome (self : HTTP_Session) (uripath method : string)
    (body ctype accept : option string) (reqheaders : option nat)
    (exthost : bool) (w : world) :
  let run := doRequest urljoin urlsplit net self uripath method body ctype
               accept reqheaders exthost w in
  (exthost = false
   /\ exists msg value,
        run = (Raise (HTTP_Error msg value (_baseuri self)), w))
  \/ (exists descr,
        net (trace (snd run)) = SendFails descr
        /\ fst run = Raise (TransportError descr))
  \/ (exists tr,
        tr `prefix_of` trace (snd run)
        /\ send_fails (net tr) = false
        /\ fst run = Ret (response_of (net tr))).
Proof.
  cbv zeta.
  remember (doRequest urljoin urlsplit net self uripath method body ctype
              accept reqheaders exthost w) as run eqn:Hrun.
  unfold doRequest in Hrun.
  set (parts := urlsplit (getpathuri urljoin self uripath)) in Hrun.
  set (path_ := if nonempty (query parts) then _ else _) in Hrun.
  unfold mbind at 1 in Hrun.
  destruct (doRequest_connection_cases self parts exthost w)
    as [(Hext & msg & value & Hc)|[Hc|(Hext & Hc)]]; rewrite Hc in Hrun.
  - left. subst run. eauto.
  - right. cbv beta iota in Hrun. unfold mbind at 1 in Hrun.
    destruct (doRequest_headers_runs reqheaders (_key self) ctype accept w)
      as (d & w1 & Hh & Htr & Hcn). rewrite Hh in Hrun.
    unfold mbind at 1 in Hrun. unfold read_dict at 1 in Hrun.
    unfold mbind at 1 in Hrun.
    destruct (con_request_cases SessionCon method path_ body
                (default ∅ (store w1 !! d)) w1)
      as [(descr & Hnet & Hr)|(Hnet & Hr)]; rewrite Hr in Hrun.
    + left. exists descr. subst run. simpl. auto.
    + right. unfold mbind at 1 in Hrun.
      rewrite doRequest_response_of in Hrun.
      match type of Hrun with
      | context [response_of ?x] =>
          destruct (response_of x) as [[[status reason] headers] data]
            eqn:Hrsp
      end.
      subst run. simpl. eexists. split; [reflexivity|]. split; [exact Hnet|].
      rewrite <- Hrsp. reflexivity.
  - right. cbv beta iota in Hrun. unfold mbind at 1 in Hrun.
    match type of Hrun with
    | context [doRequest_headers reqheaders None ctype accept ?w0] =>
        destruct (doRequest_headers_runs reqheaders None ctype accept w0)
          as (d & w1 & Hh & Htr & Hcn); rewrite Hh in Hrun
    end.
    unfold mbind at 1 in Hrun. unfold read_dict at 1 in Hrun.
    unfold mbind at 1 in Hrun.
    destruct (con_request_cases (NewCon (conns w)) method path_ body
                (default ∅ (store w1 !! d)) w1)
      as [(descr & Hnet & Hr)|(Hnet & Hr)]; rewrite Hr in Hrun.
    + left. exists descr. subst run. simpl. auto.
    + right. unfold mbind at 1 in Hrun.
      rewrite doRequest_response_of in Hrun.
      match type of Hrun with
      | context [response_of ?x] =>
          destruct (response_of x) as [[[status reason] headers] data]
            eqn:Hrsp
      end.
      subst run. simpl. eexists.
      split; [|split; [exact Hnet|rewrite <- Hrsp; reflexivity]].
      now apply prefix_app_r.
Qed.


(** X9. Without [exthost], a URI of another scheme or host is refused
    with an HTTP_Error before any event: nothing is sent and no
    connection is made. *)
Lemma doRequest_mismatch_refused (self : HTTP_Session)
    (uripath method : string) (body ctype accept : option string)
    (reqheaders : option nat) (w : world) :
  let parts := urlsplit (getpathuri urljoin self uripath) in
  nonempty (scheme parts) && negb (String.eqb (scheme parts) (_scheme self))
  || nonempty (netloc parts) && negb (String.eqb (netloc parts) (_host self))
  = true ->
  exists msg value,
    (msg = "URI scheme mismatch" \/ msg = "URI host:port mismatch")
    /\ doRequest urljoin urlsplit net self uripath method body ctype accept
         reqheaders false w
       = (Raise (HTTP_Error msg value (_baseuri self)), w).
Proof.
  cbv zeta. intros Hdiff. unfold doRequest, doRequest_connection.
  unfold mbind at 1. rewrite Hdiff.
  destruct (nonempty (scheme _) && negb (String.eqb (scheme _) (_scheme self)))
    eqn:Hs.
  - eauto.
  - simpl in Hdiff. rewrite Hdiff. eauto.
Qed.

(** Without a dictionary of the caller and without a key, the headers
    assembled have no authorization entry. *)
Lemma doRequest_headers_fresh (ctype accept : option string) (w : world) :
  exists d w',
    doRequest_headers None None ctype accept w = (Ret d, w')
    /\ trace w' = trace w /\ conns w' = conns w
    /\ default ∅ (store w' !! d) !! "authorization" = None.
Proof.
  unfold doRequest_headers, mbind, mret, new_dict, dict_set.
  cbn [truthy_str store trace conns].
  destruct (truthy_str ctype), (truthy_str accept);
    cbn [store trace conns]; eexists _, _;
    (split; [reflexivity|]); (split; [reflexivity|]);
    (split; [reflexivity|]); cbn [store];
    rewrite ?list_lookup_alter, lookup_app_r, Nat.sub_diag by lia;
    rewrite ?decide_True by reflexivity;
    cbn [lookup list_lookup fmap option_fmap option_map default];
    unfold id; rewrite ?lookup_insert_ne by discriminate; apply lookup_empty.
Qed.

(** X10. With [exthost] and no header dictionary of the caller, the
    request to another host goes over a new connection, which is closed
    after it, and has no authorization header. *)
Lemma doRequest_foreign_fresh (self : HTTP_Session)
    (uripath method : string) (body ctype accept : option string)
    (w : world) :
  let parts := urlsplit (getpathuri urljoin self uripath) in
  let run := doRequest urljoin urlsplit net self uripath method body ctype
               accept None true w in
  nonempty (scheme parts) && negb (String.eqb (scheme parts) (_scheme self))
  || nonempty (netloc parts) && negb (String.eqb (netloc parts) (_host self))
  = true ->
  (exists r, fst run = Ret r) ->
  exists path_ sent,
    trace (snd run)
    = trace w ++ [EvNew (conns w) (netloc parts);
                  EvRequest (NewCon (conns w)) method path_ body sent;
                  EvClose (NewCon (conns w))]
    /\ sent !! "authorization" = None.
Proof.
  cbv zeta. intros Hdiff [r Hr].
  remember (doRequest urljoin urlsplit net self uripath method body ctype
              accept None true w) as run eqn:Hrun.
  unfold doRequest in Hrun.
  set (parts := urlsplit (getpathuri urljoin self uripath)) in *.
  set (path_ := if nonempty (query parts) then _ else _) in Hrun.
  unfold mbind at 1 in Hrun.
  unfold doRequest_connection in Hrun. rewrite Hdiff in Hrun.
  unfold mbind at 1 in Hrun. unfold HTTPConnection at 1 in Hrun.
  unfold mret at 1 in Hrun. cbv beta iota in Hrun.
  unfold mbind at 1 in Hrun.
  match type of Hrun with
  | context [doRequest_headers None None ctype accept ?w0] =>
      destruct (doRequest_headers_fresh ctype accept w0)
        as (d & w1 & Hh & Htr & Hcn & Hauth); rewrite Hh in Hrun
  end.
  unfold mbind at 1 in Hrun. unfold read_dict at 1 in Hrun.
  unfold mbind at 1 in Hrun.
  destruct (con_request_cases (NewCon (conns w)) method path_ body
              (default ∅ (store w1 !! d)) w1)
    as [(descr & Hnet & Hc)|(Hnet & Hc)]; rewrite Hc in Hrun.
  - subst run. discriminate Hr.
  - unfold mbind at 1 in Hrun. rewrite doRequest_response_of in Hrun.
    match type of Hrun with
    | context [response_of ?x] =>
        destruct (response_of x) as [[[status reason] headers] data]
    end.
    subst run. cbn [snd fst mbind log mret trace store conns].
    exists path_, (default ∅ (store w1 !! d)). split; [|exact Hauth].
    rewrite Htr. cbn [trace]. rewrite <- !app_assoc. reflexivity.
Qed.

End DoRequest.


(** A run for which C10 applies. *)
Definition ex_turtle_run
  : res (Z * string * gmap string hvalue * option string) * world :=
  doRequest ex_urljoin ex_urlsplit net_turtle ex_session
    "http://example.org/ro/ann.ttl" "GET" None None None None false world0.

Definition ex_turtle_headers : gmap string hvalue :=
  match fst ex_turtle_run with
  | Ret (_, _, headers, _) => headers
  | _ => ∅
  end.


(** ** HTTP_Session.doRequestRDF *)

Section DoRequestRDF.

Variable urljoin : string -> string -> string.
Variable urlsplit : string -> SplitResult.
Variable net : list event -> exchange.
Variable requests_get : list event -> string -> res requests_response.
Variable session_get : nat -> list event -> string -> res requests_response.
Variable json_loads : string -> res json.
Variable rdf_parse : Graph -> pydata -> string -> res Graph.

(** A response that is not a success passes through, and nothing is
    parsed. *)
Lemma rdf_response_not_2xx (uripath : string) (graph_ : option Graph)
    (status : Z) (reason : string) (headers : gmap string hvalue)
    (data : pydata) (w : world) :
  (200 <=? status)%Z && (status <? 300)%Z = false ->
  rdf_response rdf_parse uripath graph_ status reason headers data w
  = (Ret (status, reason, headers, data), w).
Proof. intros H. unfold rdf_response. now rewrite H. Qed.

(** A success with a content type that is not an RDF one. *)
Lemma rdf_response_901 (uripath : string) (graph_ : option Graph)
    (status : Z) (reason ct : string) (headers : gmap string hvalue)
    (data : pydata) (w : world) :
  (200 <=? status)%Z && (status <? 300)%Z = true ->
  headers !! "content-type" = Some (HStr ct) ->
  RDF_CONTENT_TYPES !! lower (strip (split_head ";" ct)) = None ->
  rdf_response rdf_parse uripath graph_ status reason headers data w
  = (Ret (901%Z, "Non-RDF content-type returned", headers, data), w).
Proof.
  intros H Hct Hnone. unfold rdf_response, headers_get, mbind.
  rewrite H, Hct. simpl. now rewrite Hnone.
Qed.

(** A success with an RDF content type: the data are parsed into the
    caller's graph, or into a new one. *)
Lemma rdf_response_parse (uripath : string) (graph_ : option Graph)
    (status : Z) (reason ct format : string)
    (headers : gmap string hvalue) (data : pydata) (w : world) :
  (200 <=? status)%Z && (status <? 300)%Z = true ->
  headers !! "content-type" = Some (HStr ct) ->
  RDF_CONTENT_TYPES !! lower (strip (split_head ";" ct)) = Some format ->
  let bodyformat :=
    if contains index_endpoint uripath || contains index_dev_endpoint uripath
    then "turtle" else format in
  rdf_response rdf_parse uripath graph_ status reason headers data w
  = match rdf_parse (default [] graph_) data bodyformat with
    | Ret g => (Ret (status, reason, headers, DGraph g), log_parse w bodyformat)
    | Raise e =>
        (Ret (902%Z, "RDF (" +:+ bodyformat +:+ ") parse failure", headers,
              data), log_parse w bodyformat)
    | OutOfFuel => (OutOfFuel, log_parse w bodyformat)
    end.
Proof.
  intros H Hct Hfmt. unfold rdf_response, headers_get, mbind.
  rewrite H, Hct. simpl. rewrite Hfmt. simpl.
  now destruct (rdf_parse _ _ _).
Qed.

Definition raw_data (data : option string) : pydata :=
  match data with
  | Some s => DStr s
  | None => DNone
  end.

(** C4, amended. For every [doRequestRDF] call whose URI does not
    contain [w3id.org/ro-id], with [doRequest] returning the response
    (status, reason, headers, data): when the status is not 2xx the
    response passes through unchanged and nothing is parsed; when it is 2xx
    and the headers hold a content type, which is cut at its first
    semicolon, stripped and put in lower case: if this is not an RDF type
    the status is 901 and the raw body is returned; if it is one, the body
    is parsed into the caller's graph if there is one and into a new graph
    otherwise, the graph is returned on success, and status 902 with the
    raw body on a parse failure. *)
Theorem doRequestRDF_negotiation (self : HTTP_Session)
    (uripath method : string) (body ctype : option string)
    (reqheaders : option nat) (exthost : bool) (graph_ : option Graph)
    (session : option nat) (w w1 : world) (status : Z) (reason : string)
    (headers : gmap string hvalue) (data : option string) :
  contains w3id_prefix uripath = false ->
  doRequest urljoin urlsplit net self uripath method body ctype
    (Some ACCEPT_RDF_CONTENT_TYPES) reqheaders exthost w
  = (Ret (status, reason, headers, data), w1) ->
  let run := doRequestRDF urljoin urlsplit net requests_get session_get
               json_loads rdf_parse self uripath method body ctype reqheaders
               exthost graph_ session w in
  ((200 <=? status)%Z && (status <? 300)%Z = false ->
   run = (Ret (status, reason, headers, raw_data data), w1))
  /\ forall ct,
       (200 <=? status)%Z && (status <? 300)%Z = true ->
       headers !! "content-type" = Some (HStr ct) ->
       match RDF_CONTENT_TYPES !! lower (strip (split_head ";" ct)) with
       | None =>
           run = (Ret (901%Z, "Non-RDF content-type returned", headers,
                       raw_data data), w1)
       | Some format =>
           let bodyformat :=
             if contains index_endpoint uripath
                || contains index_dev_endpoint uripath
             then "turtle" else format in
           match rdf_parse (default [] graph_) (raw_data data) bodyformat with
           | Ret g =>
               run = (Ret (status, reason, headers, DGraph g),
                      log_parse w1 bodyformat)
           | Raise e =>
               run = (Ret (902%Z,
                           "RDF (" +:+ bodyformat +:+ ") parse failure",
                           headers, raw_data data),
                      log_parse w1 bodyformat)
           | OutOfFuel => fst run = OutOfFuel
           end
       end.
Proof.
  intros Hw3 Hrun run.
  assert (run = rdf_response rdf_parse uripath graph_ status reason headers
                  (raw_data data) w1) as ->.
  { unfold run, doRequestRDF. rewrite Hw3. unfold mbind at 1.
    rewrite Hrun. reflexivity. }
  split.
  - apply rdf_response_not_2xx.
  - intros ct H2xx Hct.
    destruct (RDF_CONTENT_TYPES !! lower (strip (split_head ";" ct)))
      as [format|] eqn:Hfmt.
    + cbv zeta. rewrite (rdf_response_parse _ _ _ _ ct format) by assumption.
      cbv zeta. now destruct (rdf_parse _ _ _).
    + now apply (rdf_response_901 _ _ _ _ ct).
Qed.

End DoRequestRDF.

Definition ex_rdf_run
  : res (Z * string * gmap string hvalue * pydata) * world :=
  doRequestRDF ex_urljoin ex_urlsplit net_turtle ex_requests_get
    ex_session_get ex_json_loads ex_rdf_parse ex_session
    "http://example.org/ro/ann.ttl" "GET" None None None false None None
    world0.

Lemma doRequestRDF_negotiation_witness :
  fst ex_rdf_run
  = Ret (200%Z, "OK", ex_turtle_headers,
         DGraph [(URIRef "a", URIRef "b", URIRef "c")]).
Proof.
  destruct (doRequestRDF_negotiation ex_urljoin ex_urlsplit net_turtle
              ex_requests_get ex_session_get ex_json_loads ex_rdf_parse
              ex_session "http://example.org/ro/ann.ttl" "GET" None None
              None false None None world0
              (snd (doRequest ex_urljoin ex_urlsplit net_turtle ex_session
                      "http://example.org/ro/ann.ttl" "GET" None None
                      (Some ACCEPT_RDF_CONTENT_TYPES) None false world0))
              200%Z "OK" ex_turtle_headers (Some "<a> <b> <c> .")
              ltac:(vm_compute; reflexivity) ltac:(vm_compute; reflexivity))
    as [_ H].
  specialize (H "text/turtle; charset=utf-8" eq_refl
                ltac:(vm_compute; reflexivity)).
  assert (RDF_CONTENT_TYPES
            !! lower (strip (split_head ";" "text/turtle; charset=utf-8"))
          = Some "n3") as Hfmt by (vm_compute; reflexivity).
  rewrite Hfmt in H.
  assert (contains index_endpoint "http://example.org/ro/ann.ttl"
          || contains index_dev_endpoint "http://example.org/ro/ann.ttl"
          = false) as Hidx by (vm_compute; reflexivity).
  cbv zeta in H. rewrite Hidx in H.
  unfold ex_rdf_run. unfold ex_rdf_parse in *. rewrite H. reflexivity.
Defined.

(** A w3id URI whose index entry is not found. *)
Definition ex_w3id_run
  : res (Z * string * gmap string hvalue * pydata) * world :=
  doRequestRDF ex_urljoin ex_urlsplit net_turtle ex_requests_get
    ex_session_get ex_json_loads ex_rdf_parse ex_session
    "http://w3id.org/ro-id/abc" "GET" None None None false None None world0.

(** C4 as stated fails for a w3id URI: the response of the index has
    status 404 and the body [{}], and the call returns the status 404 with
    an empty string as body; the response does not pass through
    unchanged. *)
Lemma doRequestRDF_w3id_body_replaced :
  match ex_requests_get
          [EvGet "https://api.rohub.org/api/search/manifests/?identifier=abc"]
          "https://api.rohub.org/api/search/manifests/?identifier=abc" with
  | Ret r => Some (status_code r, content r)
  | _ => None
  end = Some (404%Z, "{}")
  /\ status_and_data (fst ex_w3id_run) = Some (404%Z, "Not Found", DStr "")
  /\ trace (snd ex_w3id_run)
     = [EvGet "https://api.rohub.org/api/search/manifests/?identifier=abc"].
Proof. repeat split; vm_compute; reflexivity. Qed.

(** * Further properties of the tokenizer *)

Lemma string_of_list_ascii_app (a b : list ascii) :
  string_of_list_ascii (a ++ b)
  = string_of_list_ascii a +:+ string_of_list_ascii b.
Proof. induction a as [|c a IH]; simpl; [reflexivity|now rewrite IH]. Qed.

Lemma list_ascii_of_string_app (a b : string) :
  list_ascii_of_string (a +:+ b)
  = list_ascii_of_string a ++ list_ascii_of_string b.
Proof. induction a as [|c a IH]; simpl; [reflexivity|now rewrite IH]. Qed.

(** The scan marks nothing in a text without separator characters. *)
Lemma unquoted_seps_no_sep sep lq rq (st : span_state) (k : list ascii) :
  List.forallb (fun c => negb (Str.mem c sep)) k = true ->
  unquoted_seps sep lq rq st k = List.repeat false (List.length k).
Proof.
  revert st. induction k as [|c k IH]; intros st Hk; simpl; [reflexivity|].
  simpl in Hk. apply andb_true_iff in Hk as [Hc Hk].
  apply negb_true_iff in Hc.
  destruct (tok_step sep lq rq st c) as [st' b] eqn:Hstep.
  rewrite (IH st' Hk). f_equal.
  unfold tok_step in Hstep. destruct st as [|eq|eq].
  - destruct (closer lq rq c); injection Hstep as <- <-; auto.
  - destruct (Ascii.eqb c eq); [now injection Hstep as <- <-|].
    destruct (Ascii.eqb c backslash); now injection Hstep as <- <-.
  - now injection Hstep as <- <-.
Qed.

(** The scan marks nothing inside a span whose closing character does
    not come. *)
Lemma unquoted_seps_unclosed sep lq rq (eq : ascii) (st : span_state)
    (k : list ascii) :
  st = InSpan eq \/ st = Escaped eq ->
  List.forallb (fun c => negb (Ascii.eqb c eq)) k = true ->
  unquoted_seps sep lq rq st k = List.repeat false (List.length k).
Proof.
  revert st. induction k as [|c k IH]; intros st Hst Hk; simpl; [reflexivity|].
  simpl in Hk. apply andb_true_iff in Hk as [Hc Hk].
  apply negb_true_iff in Hc.
  destruct Hst as [-> | ->]; simpl.
  - rewrite Hc. destruct (Ascii.eqb c backslash); simpl;
      (rewrite IH; [reflexivity|auto|exact Hk]).
  - rewrite IH; [reflexivity|auto|exact Hk].
Qed.

Lemma cut_at_unmarked (k seg : list ascii) :
  cut_at (List.repeat false (List.length k)) k seg = [seg ++ k].
Proof.
  revert seg. induction k as [|c k IH]; intros seg; simpl.
  - now rewrite app_nil_r.
  - rewrite IH. now rewrite <- app_assoc.
Qed.

(** X1. A text without any character of the separator set is one
    segment, whatever quotes it holds: [splitValues] returns the text
    itself as the only element (the empty text gives one empty segment). *)
Theorem splitValues_no_separator (txt sep lq rq : string) :
  String.length lq <= String.length rq ->
  List.forallb (fun c => negb (Str.mem c sep)) (list_ascii_of_string txt)
  = true ->
  splitValues txt sep lq rq = Ret [txt].
Proof.
  intros Hpair Hsep. rewrite splitValues_scan by exact Hpair.
  unfold segments, separator_marks.
  rewrite (unquoted_seps_no_sep _ _ _ _ _ Hsep), cut_at_unmarked. simpl.
  now rewrite string_of_list_ascii_of_string.
Qed.

Lemma splitValues_no_separator_witness :
  splitValues "a;<b;c>" "," default_lq default_rq = Ret ["a;<b;c>"].
Proof.
  apply (splitValues_no_separator "a;<b;c>" "," default_lq default_rq).
  - simpl. lia.
  - reflexivity.
Defined.

(** X2. A text that begins with an opening character whose closing
    character does not occur after it is one segment: the unclosed span
    protects every separator up to the end of the text. *)
Theorem splitValues_unclosed_span (q : ascii) (rest sep lq rq : string)
    (eq : ascii) :
  String.length lq <= String.length rq ->
  closer lq rq q = Some eq ->
  Str.mem eq rest = false ->
  splitValues (String q rest) sep lq rq = Ret [String q rest].
Proof.
  intros Hpair Hq Hrest. rewrite splitValues_scan by exact Hpair.
  unfold segments, separator_marks. simpl. rewrite Hq.
  rewrite (unquoted_seps_unclosed sep lq rq eq (InSpan eq)); [|auto|].
  - simpl. rewrite cut_at_unmarked. simpl.
    now rewrite string_of_list_ascii_of_string.
  - clear -Hrest. induction rest as [|c rest IH]; [reflexivity|].
    unfold Str.mem in Hrest. simpl in Hrest. simpl.
    rewrite (Ascii.eqb_sym c eq).
    destruct (Ascii.eqb eq c); [discriminate|]. simpl. apply IH.
    unfold Str.mem. now destruct (Str.index eq rest).
Qed.

Lemma splitValues_unclosed_span_witness :
  splitValues "<a,b,c" "," default_lq default_rq = Ret ["<a,b,c"].
Proof.
  apply (splitValues_unclosed_span "<" "a,b,c" "," default_lq default_rq ">").
  - simpl. lia.
  - reflexivity.
  - reflexivity.
Defined.

Lemma cut_at_nonempty (marks : list bool) (k seg : list ascii) :
  cut_at marks k seg <> [].
Proof.
  revert marks seg. induction k as [|c k IH]; intros [|[] marks] seg; simpl;
    try discriminate. apply IH.
Qed.

Lemma tok_step_single_sep (c : ascii) lq rq (st st' : span_state) (ch : ascii) :
  tok_step (String c "") lq rq st ch = (st', true) -> ch = c.
Proof.
  unfold tok_step. destruct st as [|eq|eq].
  - destruct (closer lq rq ch); [discriminate|].
    unfold Str.mem. simpl. destruct (Ascii.eqb_spec ch c); [auto|discriminate].
  - destruct (Ascii.eqb ch eq); [discriminate|].
    destruct (Ascii.eqb ch backslash); discriminate.
  - discriminate.
Qed.

Lemma concat_cons (sep x : string) (xs : list string) :
  xs <> [] ->
  String.concat sep (x :: xs) = x +:+ sep +:+ String.concat sep xs.
Proof. destruct xs; [congruence|reflexivity]. Qed.

Lemma concat_cut_at (c : ascii) lq rq (st : span_state) (k seg : list ascii) :
  String.concat (String c "")
    (List.map string_of_list_ascii
       (cut_at (unquoted_seps (String c "") lq rq st k) k seg))
  = string_of_list_ascii (seg ++ k).
Proof.
  revert st seg. induction k as [|ch k IH]; intros st seg.
  - simpl. now rewrite app_nil_r.
  - cbn [unquoted_seps].
    destruct (tok_step (String c "") lq rq st ch) as [st' b] eqn:Hstep.
    destruct b; cbn [cut_at].
    + apply tok_step_single_sep in Hstep. subst ch.
      cbn [List.map]. rewrite concat_cons.
      * rewrite IH. rewrite (string_of_list_ascii_app seg (c :: k)).
        reflexivity.
      * intros Hnil. apply map_eq_nil in Hnil.
        now apply cut_at_nonempty in Hnil.
    + rewrite IH. now rewrite <- app_assoc.
Qed.

(** X3. For a separator set of one character and paired quote sets,
    joining the segments that [splitValues] returns with that character
    gives the text back. *)
Theorem splitValues_join (txt lq rq : string) (c : ascii) :
  String.length lq <= String.length rq ->
  exists segs,
    splitValues txt (String c "") lq rq = Ret segs
    /\ String.concat (String c "") segs = txt.
Proof.
  intros Hpair. exists (segments txt (String c "") lq rq).
  split; [now apply splitValues_scan|].
  unfold segments, separator_marks. rewrite concat_cut_at. simpl.
  apply string_of_list_ascii_of_string.
Qed.

Lemma splitValues_join_witness :
  exists segs,
    splitValues "a;<b;c>;d" ";" default_lq default_rq = Ret segs
    /\ String.concat ";" segs = "a;<b;c>;d".
Proof.
  apply (splitValues_join "a;<b;c>;d" default_lq default_rq ";").
  simpl. lia.
Defined.

(** One round of the outer loop on a character that opens no span. *)
Lemma splitValues_loop_plain (fuel : nat) (txt sep lq rq : string)
    (result : list string) (cursor begseg : nat) (ch : ascii) :
  list_ascii_of_string txt !! cursor = Some ch ->
  Str.mem ch lq = false ->
  exists result' begseg',
    splitValues_loop (S fuel) txt sep lq rq result cursor begseg
    = splitValues_loop fuel txt sep lq rq result' (cursor + 1) begseg'.
Proof.
  intros Hch Hlq. simpl.
  assert (cursor < String.length txt) as Hlt.
  { rewrite <- length_list_ascii. now apply lookup_lt_Some in Hch. }
  apply Nat.ltb_lt in Hlt. rewrite Hlt, (at_lookup _ _ _ Hch). simpl.
  rewrite Hlq. destruct (Str.mem ch sep); eauto.
Qed.

Lemma splitValues_loop_unpaired (txt sep lq rq : string) (c : ascii)
    (i : nat) (rest pre : list ascii) :
  Str.index c lq = Some i ->
  String.get i rq = None ->
  List.forallb (fun ch => negb (Str.mem ch lq)) pre = true ->
  forall (l0 : list ascii) (fuel : nat) (result : list string) (begseg : nat),
    list_ascii_of_string txt = l0 ++ pre ++ c :: rest ->
    List.length pre < fuel ->
    splitValues_loop fuel txt sep lq rq result (List.length l0) begseg
    = Raise IndexError.
Proof.
  intros Hi Hrq. induction pre as [|ch pre IH];
    intros Hpre l0 fuel result begseg Htxt Hfuel.
  - destruct fuel as [|fuel]; [simpl in Hfuel; lia|]. simpl.
    assert (list_ascii_of_string txt !! List.length l0 = Some c) as Hc.
    { rewrite Htxt. now rewrite lookup_app_r, Nat.sub_diag by lia. }
    assert (List.length l0 < String.length txt) as Hlt.
    { rewrite <- length_list_ascii. now apply lookup_lt_Some in Hc. }
    apply Nat.ltb_lt in Hlt. rewrite Hlt, (at_lookup _ _ _ Hc). simpl.
    unfold Str.mem. rewrite Hi. simpl. unfold Str.at_. now rewrite Hrq.
  - destruct fuel as [|fuel]; [simpl in Hfuel; lia|].
    simpl in Hpre. apply andb_true_iff in Hpre as [Hch Hpre].
    apply negb_true_iff in Hch.
    assert (list_ascii_of_string txt !! List.length l0 = Some ch) as Hc.
    { rewrite Htxt. now rewrite lookup_app_r, Nat.sub_diag by lia. }
    destruct (splitValues_loop_plain fuel txt sep lq rq result
                (List.length l0) begseg ch Hc Hch) as (r' & b' & ->).
    replace (List.length l0 + 1) with (List.length (l0 ++ [ch]))
      by (rewrite length_app; reflexivity).
    apply IH; [exact Hpre| |simpl in Hfuel; lia].
    rewrite Htxt, <- app_assoc. reflexivity.
Qed.

(** X4. When the set of opening characters is longer than the set of
    closing ones, [splitValues] raises IndexError at the first opening
    character without a partner, if no span was opened before it. *)
Theorem splitValues_unpaired_IndexError (pre rest sep lq rq : string)
    (c : ascii) (i : nat) :
  Str.index c lq = Some i ->
  String.length rq <= i ->
  List.forallb (fun ch => negb (Str.mem ch lq)) (list_ascii_of_string pre)
  = true ->
  splitValues (pre +:+ String c rest) sep lq rq = Raise IndexError.
Proof.
  intros Hi Hlen Hpre. unfold splitValues.
  apply (splitValues_loop_unpaired _ sep lq rq c i
           (list_ascii_of_string rest) (list_ascii_of_string pre) Hi)
    with (l0 := []).
  - rewrite get_lookup. apply lookup_ge_None. now rewrite length_list_ascii.
  - exact Hpre.
  - now rewrite list_ascii_of_string_app.
  - rewrite <- (length_list_ascii (pre +:+ String c rest)).
    rewrite list_ascii_of_string_app, length_app. simpl. lia.
Qed.

Lemma splitValues_unpaired_IndexError_witness :
  splitValues "a,(b" "," "<(" ">" = Raise IndexError.
Proof.
  apply (splitValues_unpaired_IndexError "a," "b" "," "<(" ">" "(" 1).
  - reflexivity.
  - simpl. lia.
  - reflexivity.
Defined.

(** * Further properties of the link parser *)

(** X5. Headers none of which is named [link], in any letter case, give
    the empty map. *)
Theorem parseLinks_no_link_header (headerlist : list (string * string)) :
  List.forallb (fun hv => negb (String.eqb (lower (fst hv)) "link"))
    headerlist = true ->
  parseLinks headerlist = Ret ∅.
Proof.
  intros Hno. unfold parseLinks.
  replace (List.filter (fun hv => String.eqb (lower (fst hv)) "link")
             headerlist) with (@nil (string * string)); [reflexivity|].
  induction headerlist as [|hv hl IH]; [reflexivity|].
  simpl in Hno. apply andb_true_iff in Hno as [Hhv Hhl].
  apply negb_true_iff in Hhv. simpl. rewrite Hhv. now apply IH.
Qed.

Lemma parseLinks_no_link_header_witness :
  parseLinks [("Content-Type", "text/turtle"); ("Location", "<a>; rel=b")]
  = Ret ∅.
Proof.
  apply (parseLinks_no_link_header
           [("Content-Type", "text/turtle"); ("Location", "<a>; rel=b")]).
  reflexivity.
Defined.

Lemma lower_ascii_idem (c : ascii) : lower_ascii (lower_ascii c) = lower_ascii c.
Proof. destruct c as [[] [] [] [] [] [] [] []]; reflexivity. Qed.

Lemma lower_idem (s : string) : lower (lower s) = lower s.
Proof.
  induction s as [|c s IH]; simpl; [reflexivity|].
  now rewrite lower_ascii_idem, IH.
Qed.

Lemma link_values_lower_names (headerlist : list (string * string)) :
  link_values (lower_names headerlist) = link_values headerlist.
Proof.
  unfold link_values, lower_names.
  induction headerlist as [|[h v] hl IH]; [reflexivity|].
  simpl. rewrite lower_idem.
  destruct (String.eqb (lower h) "link"); simpl; now rewrite IH.
Qed.

(** X6. Putting the header names in lower case, as [doRequest] does for
    the list it stores under [_headerlist], does not change what
    [parseLinks] returns. *)
Theorem parseLinks_lower_names (headerlist : list (string * string)) :
  parseLinks (lower_names headerlist) = parseLinks headerlist.
Proof.
  unfold parseLinks.
  change (List.map snd
            (List.filter (fun hv => String.eqb (lower (fst hv)) "link") ?l))
    with (link_values l).
  now rewrite link_values_lower_names.
Qed.

Lemma link_contributions_app uri_of (h1 h2 : list (string * string)) :
  link_contributions uri_of (h1 ++ h2)
  = link_contributions uri_of h1 ++ link_contributions uri_of h2.
Proof.
  unfold link_contributions, link_values.
  now rewrite List.filter_app, List.map_app, List.flat_map_app.
Qed.

Lemma links_get_contributions (headerlist : list (string * string))
    (rel : string) :
  links_get (parseLinks headerlist) rel
  = last_binding rel (link_contributions leading_bracketed_uri headerlist).
Proof.
  destruct (parseLinks_updates headerlist) as (links & -> & Hup).
  simpl. rewrite Hup.
  destruct (last_binding rel _); [reflexivity|apply lookup_empty].
Qed.

(** X7. The links of two header lists put one after the other are those
    of the second list, and for the relations it does not give, those of
    the first: later headers win. *)
Theorem parseLinks_app (h1 h2 : list (string * string)) (rel : string) :
  links_get (parseLinks (h1 ++ h2)) rel
  = match links_get (parseLinks h2) rel with
    | Some uri => Some uri
    | None => links_get (parseLinks h1) rel
    end.
Proof.
  rewrite !links_get_contributions, link_contributions_app.
  apply last_binding_app.
Qed.

(** *** A bracketed URI protects its separators *)

(** The characters a bracketed URI can hold, and those of an unquoted
    relation. *)
Definition uri_char (c : ascii) : bool :=
  negb (Ascii.eqb c ">") && negb (Ascii.eqb c backslash).

Definition rel_char (c : ascii) : bool :=
  negb (is_space c) && negb (Str.mem c (",;<" +:+ String dquote "")).

Section DefaultQuotes.

Variable sep : string.

Let scan := scan_cut sep default_lq default_rq.

Lemma scan_span (U t : list ascii) :
  List.forallb uri_char U = true ->
  forall seg,
    scan (InSpan ">") seg (U ++ ">"%char :: t) = scan Unquoted (seg ++ U ++ [">"%char]) t.
Proof.
  intros HU. induction U as [|c U IH]; intros seg.
  - unfold scan. cbn [app]. rewrite scan_cut_cons. unfold tok_step.
    now rewrite Ascii.eqb_refl.
  - simpl in HU. apply andb_true_iff in HU as [Hc HU].
    unfold uri_char in Hc. apply andb_true_iff in Hc as [Hgt Hbs].
    apply negb_true_iff in Hgt, Hbs.
    unfold scan in *. cbn [app]. rewrite scan_cut_cons. unfold tok_step.
    rewrite Hgt, Hbs. rewrite (IH HU). now rewrite <- app_assoc.
Qed.

Lemma closer_default_None (c : ascii) :
  Str.mem c default_lq = false -> closer default_lq default_rq c = None.
Proof.
  unfold closer, Str.mem. now destruct (Str.index c default_lq).
Qed.

Lemma scan_plain (P t : list ascii) :
  List.forallb (fun c => negb (Str.mem c default_lq) && negb (Str.mem c sep)) P
  = true ->
  forall seg, scan Unquoted seg (P ++ t) = scan Unquoted (seg ++ P) t.
Proof.
  intros HP. induction P as [|c P IH]; intros seg.
  - now rewrite app_nil_r.
  - simpl in HP. apply andb_true_iff in HP as [Hc HP].
    apply andb_true_iff in Hc as [Hlq Hsep].
    apply negb_true_iff in Hlq, Hsep.
    unfold scan in *. cbn [app]. rewrite scan_cut_cons. unfold tok_step.
    rewrite (closer_default_None _ Hlq), Hsep.
    rewrite (IH HP). now rewrite <- app_assoc.
Qed.

Lemma scan_open (t seg : list ascii) :
  scan Unquoted seg ("<"%char :: t) = scan (InSpan ">") (seg ++ ["<"%char]) t.
Proof. unfold scan. rewrite scan_cut_cons. reflexivity. Qed.

Lemma scan_separator (c : ascii) (t seg : list ascii) :
  Str.mem c default_lq = false ->
  Str.mem c sep = true ->
  scan Unquoted seg (c :: t) = seg :: scan Unquoted [] t.
Proof.
  intros Hlq Hsep. unfold scan. rewrite scan_cut_cons. unfold tok_step.
  now rewrite (closer_default_None _ Hlq), Hsep.
Qed.

End DefaultQuotes.

Lemma segments_scan_cut (txt sep lq rq : string) :
  segments txt sep lq rq
  = List.map string_of_list_ascii
      (scan_cut sep lq rq Unquoted [] (list_ascii_of_string txt)).
Proof. reflexivity. Qed.

Lemma rel_char_plain (c : ascii) (sep : string) :
  sep = "," \/ sep = ";" ->
  rel_char c = true ->
  negb (Str.mem c default_lq) && negb (Str.mem c sep) = true.
Proof.
  intros Hsep Hc. unfold rel_char in Hc. apply andb_true_iff in Hc as [_ Hc].
  apply negb_true_iff in Hc. unfold Str.mem in *.
  change (",;<" +:+ String dquote "")
    with (String "," (String ";" (String "<" (String dquote "")))) in Hc.
  cbn [Str.index] in Hc. unfold default_lq. destruct Hsep as [-> | ->]; cbn [Str.index];
    destruct (Ascii.eqb c ","); try discriminate;
    destruct (Ascii.eqb c ";"); try discriminate;
    destruct (Ascii.eqb c "<"); try discriminate;
    destruct (Ascii.eqb c dquote); try discriminate; reflexivity.
Qed.

(** The characters of [ rel=] followed by an unquoted relation. *)
Definition rel_param (R : list ascii) : list ascii :=
  " "%char :: "r"%char :: "e"%char :: "l"%char :: "="%char :: R.

Definition bracketed (U : list ascii) : list ascii :=
  "<"%char :: U ++ [">"%char].

Lemma link_value_comma (U R : list ascii) :
  List.forallb uri_char U = true ->
  List.forallb rel_char R = true ->
  scan_cut "," default_lq default_rq Unquoted []
    (bracketed U ++ ";"%char :: rel_param R)
  = [bracketed U ++ ";"%char :: rel_param R].
Proof.
  intros HU HR. unfold bracketed. cbn [app]. rewrite <- app_assoc. cbn [app].
  rewrite scan_open, scan_span by exact HU.
  rewrite <- (app_nil_r (";"%char :: rel_param R)) at 1.
  rewrite scan_plain.
  - rewrite scan_cut_nil. cbn [app]. now rewrite <- !app_assoc.
  - unfold rel_param. cbn [List.forallb]. 
    repeat (rewrite andb_true_iff; split; [reflexivity|]).
    clear -HR. induction R as [|c R IH]; [reflexivity|].
    simpl in HR. apply andb_true_iff in HR as [Hc HR]. cbn [List.forallb].
    rewrite (rel_char_plain c "," (or_introl eq_refl) Hc). now apply IH.
Qed.

Lemma link_value_semicolon (U R : list ascii) :
  List.forallb uri_char U = true ->
  List.forallb rel_char R = true ->
  scan_cut ";" default_lq default_rq Unquoted []
    (bracketed U ++ ";"%char :: rel_param R)
  = [bracketed U; rel_param R].
Proof.
  intros HU HR. unfold bracketed. cbn [app]. rewrite <- app_assoc. cbn [app].
  rewrite scan_open, scan_span by exact HU.
  rewrite scan_separator by reflexivity. f_equal.
  rewrite <- (app_nil_r (rel_param R)) at 1.
  rewrite scan_plain.
  - now rewrite scan_cut_nil.
  - unfold rel_param. cbn [List.forallb].
    repeat (rewrite andb_true_iff; split; [reflexivity|]).
    clear -HR. induction R as [|c R IH]; [reflexivity|].
    simpl in HR. apply andb_true_iff in HR as [Hc HR]. cbn [List.forallb].
    rewrite (rel_char_plain c ";" (or_intror eq_refl) Hc). now apply IH.
Qed.

Lemma drop_take_while_bracket (U : list ascii) :
  List.forallb uri_char U = true ->
  drop_while not_gt (U ++ [">"%char]) = [">"%char]
  /\ take_while not_gt (U ++ [">"%char]) = U.
Proof.
  intros HU. induction U as [|c U IH]; [split; reflexivity|].
  simpl in HU. apply andb_true_iff in HU as [Hc HU].
  unfold uri_char in Hc. apply andb_true_iff in Hc as [Hgt _].
  destruct (IH HU) as [Hd Ht]. cbn [app drop_while take_while].
  unfold not_gt at 1 3. rewrite Hgt. now rewrite Hd, Ht.
Qed.

Lemma leading_bracketed_uri_bracketed (U : list ascii) :
  List.forallb uri_char U = true ->
  leading_bracketed_uri (string_of_list_ascii (bracketed U))
  = Some (string_of_list_ascii U).
Proof.
  intros HU. unfold leading_bracketed_uri.
  rewrite list_ascii_of_string_of_list_ascii. unfold bracketed.
  cbn [drop_while]. change (is_space "<") with false. cbv iota.
  change (Ascii.eqb "<" "<") with true. cbv iota.
  destruct (drop_take_while_bracket U HU) as [-> ->]. reflexivity.
Qed.

Lemma rel_chars_unchanged (R : list ascii) :
  List.forallb rel_char R = true ->
  drop_while is_space R = R
  /\ drop_first_quote R = R
  /\ rstrip R = R
  /\ drop_last_quote R = R
  /\ List.existsb (Ascii.eqb newline) R = false.
Proof.
  intros HR.
  assert (forall c, rel_char c = true ->
                    is_space c = false /\ Ascii.eqb c dquote = false
                    /\ Ascii.eqb newline c = false) as Hchar.
  { intros c Hc. unfold rel_char in Hc. apply andb_true_iff in Hc as [Hs Hm].
    apply negb_true_iff in Hs, Hm. split; [exact Hs|]. split.
    - unfold Str.mem in Hm.
      change (",;<" +:+ String dquote "")
        with (String "," (String ";" (String "<" (String dquote "")))) in Hm.
      cbn [Str.index] in Hm.
      destruct (Ascii.eqb c ","); [discriminate|].
      destruct (Ascii.eqb c ";"); [discriminate|].
      destruct (Ascii.eqb c "<"); [discriminate|].
      now destruct (Ascii.eqb c dquote).
    - destruct (Ascii.eqb_spec newline c) as [<-|]; [discriminate Hs|auto]. }
  split; [|split].
  - destruct R as [|c R]; [reflexivity|]. simpl in HR.
    apply andb_true_iff in HR as [Hc _]. simpl.
    now destruct (Hchar c Hc) as (-> & _).
  - destruct R as [|c R]; [reflexivity|]. simpl in HR.
    apply andb_true_iff in HR as [Hc _]. simpl.
    now destruct (Hchar c Hc) as (_ & -> & _).
  - induction R as [|c R IH]; [repeat split|].
    simpl in HR. apply andb_true_iff in HR as [Hc HR].
    destruct (IH HR) as (Hr & Hq & Hn).
    destruct (Hchar c Hc) as (Hs & Hdq & Hnl). split; [|split].
    + cbn [rstrip]. rewrite Hr, Hs. now destruct R.
    + destruct R as [|d R'].
      * cbn [drop_last_quote]. now rewrite Hdq.
      * change (drop_last_quote (c :: d :: R'))
          with (c :: drop_last_quote (d :: R')). now rewrite Hq.
    + cbn [List.existsb]. now rewrite Hnl, Hn.
Qed.

Lemma rel_value_rel_param (R : list ascii) :
  List.forallb rel_char R = true ->
  rel_value (string_of_list_ascii (rel_param R))
  = Some (string_of_list_ascii R).
Proof.
  intros HR. unfold rel_value.
  rewrite list_ascii_of_string_of_list_ascii. unfold rel_param.
  cbn [drop_while]. change (is_space " ") with true. cbv iota.
  change (is_space "r") with false. cbv iota.
  change (Ascii.eqb "r" "r" && Ascii.eqb "e" "e" && Ascii.eqb "l" "l")
    with true. cbv iota.
  cbn [drop_while]. change (is_space "=") with false. cbv iota.
  change (Ascii.eqb "=" "=") with true. cbv iota zeta.
  destruct (rel_chars_unchanged R HR) as (-> & -> & -> & -> & ->).
  reflexivity.
Qed.

(** X8. A link header whose value is a bracketed URI followed by an
    unquoted rel parameter gives the map of that relation to the whole
    URI: commas, semicolons, double quotes and opening brackets inside the
    brackets do not cut the URI. *)
Theorem parseLinks_bracketed_uri (name uri rel : string) :
  lower name = "link" ->
  List.forallb uri_char (list_ascii_of_string uri) = true ->
  List.forallb rel_char (list_ascii_of_string rel) = true ->
  parseLinks [(name, "<" +:+ uri +:+ ">; rel=" +:+ rel)]
  = Ret {[ rel := uri ]}.
Proof.
  intros Hname HU HR.
  destruct (parseLinks_updates [(name, "<" +:+ uri +:+ ">; rel=" +:+ rel)])
    as (links & -> & Hup).
  f_equal. apply map_eq. intros k. rewrite Hup. clear Hup.
  set (U := list_ascii_of_string uri) in *.
  set (R := list_ascii_of_string rel) in *.
  assert (list_ascii_of_string ("<" +:+ uri +:+ ">; rel=" +:+ rel)
          = bracketed U ++ ";"%char :: rel_param R) as Hval.
  { rewrite !list_ascii_of_string_app. unfold bracketed, rel_param, U, R.
    cbn [list_ascii_of_string app]. now rewrite <- app_assoc. }
  unfold link_contributions, link_values. cbn [List.filter fst].
  rewrite Hname. change (String.eqb "link" "link") with true. cbv iota.
  cbn [List.map snd List.flat_map].
  rewrite segments_scan_cut, Hval, link_value_comma by assumption.
  cbn [List.map List.flat_map]. rewrite app_nil_r.
  unfold value_links at 1.
  rewrite segments_scan_cut, list_ascii_of_string_of_list_ascii.
  rewrite link_value_semicolon by assumption. cbn [List.map].
  rewrite leading_bracketed_uri_bracketed by assumption.
  cbn [List.flat_map]. rewrite rel_value_rel_param by assumption.
  unfold U, R. rewrite !string_of_list_ascii_of_string.
  cbn [app last_binding].
  destruct (String.eqb_spec rel k) as [->|Hne].
  - now rewrite lookup_singleton_eq.
  - rewrite lookup_empty. now rewrite lookup_singleton_ne.
Qed.

Lemma parseLinks_bracketed_uri_witness :
  parseLinks [("Link", "<http://example.org/fas;far,x>; rel=fas")]
  = Ret {[ "fas" := "http://example.org/fas;far,x" ]}.
Proof.
  apply (parseLinks_bracketed_uri "Link" "http://example.org/fas;far,x" "fas");
    reflexivity.
Defined.

(** * Further properties of doRequest *)

Section DoRequestMore.

Variable urljoin : string -> string -> string.
Variable urlsplit : string -> SplitResult.
Variable net : list event -> exchange.

(** [differs self parts]: the test of line 216. *)
Definition differs (self : HTTP_Session) (parts : SplitResult) : bool :=
  nonempty (scheme parts) && negb (String.eqb (scheme parts) (_scheme self))
  || nonempty (netloc parts) && negb (String.eqb (netloc parts) (_host self)).

(** A request to the endpoint of the session: one request on the
    connection of the session, with the dictionary that the assembly of
    the headers left. *)
Lemma doRequest_same_host_run (self : HTTP_Session) (uripath method : string)
    (body ctype accept : option string) (reqheaders : option nat)
    (exthost : bool) (w : world) :
  differs self (urlsplit (getpathuri urljoin self uripath)) = false ->
  exists d w1 path_,
    doRequest_headers reqheaders (_key self) ctype accept w = (Ret d, w1)
    /\ let run := doRequest urljoin urlsplit net self uripath method body
                    ctype accept reqheaders exthost w in
       store (snd run) = store w1
       /\ trace (snd run)
          = trace w ++ [EvRequest SessionCon method path_ body
                          (default ∅ (store w1 !! d))].
Proof.
  intros Hsame.
  destruct (doRequest_headers_runs reqheaders (_key self) ctype accept w)
    as (d & w1 & Hh & Htr & Hcn).
  exists d, w1. eexists. split; [exact Hh|]. cbv zeta.
  remember (doRequest urljoin urlsplit net self uripath method body ctype
              accept reqheaders exthost w) as run eqn:Hrun.
  unfold doRequest in Hrun.
  set (parts := urlsplit (getpathuri urljoin self uripath)) in *.
  set (path_ := if nonempty (query parts) then _ else _) in Hrun.
  unfold mbind at 1 in Hrun. unfold doRequest_connection in Hrun.
  unfold differs in Hsame. rewrite Hsame in Hrun.
  unfold mret at 1 in Hrun. cbv beta iota in Hrun.
  unfold mbind at 1 in Hrun. rewrite Hh in Hrun.
  unfold mbind at 1 in Hrun. unfold read_dict at 1 in Hrun.
  unfold mbind at 1 in Hrun.
  destruct (con_request_cases net SessionCon method path_ body
              (default ∅ (store w1 !! d)) w1)
    as [(descr & Hnet & Hc)|(Hnet & Hc)]; rewrite Hc in Hrun.
  - subst run. cbn [snd store trace]. rewrite Htr. split; reflexivity.
  - unfold mbind at 1 in Hrun. rewrite doRequest_response_of in Hrun.
    match type of Hrun with
    | context [response_of ?x] =>
        destruct (response_of x) as [[[status reason] headers] data]
    end.
    subst run. cbn [snd fst mbind mret store trace]. rewrite Htr.
    split; reflexivity.
Qed.

(** The dictionary that is sent when the session has a key. *)
Lemma doRequest_headers_key (reqheaders : option nat) (k : string)
    (ctype accept : option string) (w : world) :
  nonempty k = true ->
  match reqheaders with
  | Some d => d < List.length (store w)
  | None => True
  end ->
  exists d w1 m,
    doRequest_headers reqheaders (Some k) ctype accept w = (Ret d, w1)
    /\ store w1 !! d = Some m
    /\ m !! "authorization" = Some ("Bearer " +:+ k)
    /\ (forall d0 h, reqheaders = Some d0 -> store w !! d0 = Some h ->
                     h <> ∅ -> d = d0).
Proof.
  intros Hk Hvalid.
  assert (forall (d : nat) (w0 : world),
             d < List.length (store w0) ->
             exists w1 m,
               (_ <~ dict_set d "authorization" ("Bearer " +:+ k) ;;
                _ <~ (if truthy_str ctype
                      then dict_set d "content-type" (default "" ctype)
                      else mret tt) ;;
                _ <~ (if truthy_str accept
                      then dict_set d "accept" (default "" accept)
                      else mret tt) ;;
                mret d) w0 = (Ret d, w1)
               /\ store w1 !! d = Some m
               /\ m !! "authorization" = Some ("Bearer " +:+ k)) as Hset.
  { intros d w0 Hd. apply lookup_lt_is_Some_2 in Hd as [m0 Hm0].
    unfold mbind, mret, dict_set.
    destruct (truthy_str ctype), (truthy_str accept);
      cbn [store trace conns]; eexists _, _;
      (split; [reflexivity|]); cbn [store];
      rewrite ?list_lookup_alter, ?decide_True by reflexivity;
      rewrite Hm0; cbn [fmap option_fmap option_map];
      (split; [reflexivity|]);
      rewrite ?lookup_insert_ne by discriminate; apply lookup_insert_eq. }
  unfold doRequest_headers. cbn [truthy_str]. rewrite Hk.
  cbn [default].
  destruct reqheaders as [d|].
  - unfold mbind at 1. unfold mbind at 1. unfold read_dict at 1.
    destruct (decide (default ∅ (store w !! d) = ∅)) as [He|Hne].
    + unfold new_dict at 1.
      destruct (Hset (List.length (store w))
                  {| store := store w ++ [∅]; trace := trace w;
                     conns := conns w |})
        as (w1 & m & Hrun & Hm & Ha).
      { cbn [store]. rewrite length_app. simpl. lia. }
      exists (List.length (store w)), w1, m. repeat split; auto.
      intros d0 h [= <-] Hh Hne. rewrite Hh in He. simpl in He. congruence.
    + unfold mret at 1.
      destruct (Hset d w Hvalid) as (w1 & m & Hrun & Hm & Ha).
      exists d, w1, m. repeat split; auto. now intros d0 h [= <-].
  - unfold mbind at 1. unfold new_dict at 1.
    destruct (Hset (List.length (store w))
                {| store := store w ++ [∅]; trace := trace w;
                   conns := conns w |})
      as (w1 & m & Hrun & Hm & Ha).
    { cbn [store]. rewrite length_app. simpl. lia. }
    exists (List.length (store w)), w1, m. repeat split; auto.
    intros d0 h [=].
Qed.

End DoRequestMore.

Lemma alter_last {A : Type} (f : A -> A) (l : list A) (x : A) :
  alter f (List.length l) (l ++ [x]) = l ++ [f x].
Proof. induction l as [|y l IH]; simpl; [reflexivity|]. now f_equal. Qed.

Section DoRequestStore.

Variable urljoin : string -> string -> string.
Variable urlsplit : string -> SplitResult.
Variable net : list event -> exchange.

(** Without a dictionary of the caller, or with an empty one, the headers
    are assembled in a new dictionary. *)
Lemma doRequest_headers_new (reqheaders : option nat)
    (usekey ctype accept : option string) (w : world) :
  match reqheaders with
  | Some d => default ∅ (store w !! d) = ∅
  | None => True
  end ->
  exists w1 m,
    doRequest_headers reqheaders usekey ctype accept w
    = (Ret (List.length (store w)), w1)
    /\ store w1 = store w ++ [m].
Proof.
  intros Hnew.
  assert (exists w1 m,
             (reqheaders0 <~ new_dict ;;
              _ <~ (if truthy_str usekey
                    then dict_set reqheaders0 "authorization"
                           ("Bearer " +:+ default "" usekey)
                    else mret tt) ;;
              _ <~ (if truthy_str ctype
                    then dict_set reqheaders0 "content-type" (default "" ctype)
                    else mret tt) ;;
              _ <~ (if truthy_str accept
                    then dict_set reqheaders0 "accept" (default "" accept)
                    else mret tt) ;;
              mret reqheaders0) w
             = (Ret (List.length (store w)), w1)
             /\ store w1 = store w ++ [m]) as Hrun.
  { unfold mbind, mret, new_dict, dict_set.
    destruct (truthy_str usekey), (truthy_str ctype), (truthy_str accept);
      cbn [store trace conns]; eexists _, _;
      (split; [reflexivity|]); cbn [store];
      rewrite ?alter_last; reflexivity. }
  unfold doRequest_headers. destruct reqheaders as [d|]; [|exact Hrun].
  unfold mbind at 1. unfold mbind at 1. unfold read_dict at 1.
  destruct (decide (default ∅ (store w !! d) = ∅)); [|contradiction].
  exact Hrun.
Qed.

(** The dictionaries after a call are those that the assembly of the
    headers left, or those before the call when it was refused. *)
Lemma doRequest_store (self : HTTP_Session) (uripath method : string)
    (body ctype accept : option string) (reqheaders : option nat)
    (exthost : bool) (w : world) :
  let run := doRequest urljoin urlsplit net self uripath method body ctype
               accept reqheaders exthost w in
  store (snd run) = store w
  \/ exists usekey w0 d w1,
       store w0 = store w
       /\ doRequest_headers reqheaders usekey ctype accept w0 = (Ret d, w1)
       /\ store (snd run) = store w1.
Proof.
  cbv zeta.
  remember (doRequest urljoin urlsplit net self uripath method body ctype
              accept reqheaders exthost w) as run eqn:Hrun.
  unfold doRequest in Hrun.
  set (parts := urlsplit (getpathuri urljoin self uripath)) in Hrun.
  set (path_ := if nonempty (query parts) then _ else _) in Hrun.
  unfold mbind at 1 in Hrun.
  destruct (doRequest_connection_cases self parts exthost w)
    as [(Hext & msg & value & Hc)|[Hc|(Hext & Hc)]]; rewrite Hc in Hrun.
  - left. now subst run.
  - right. cbv beta iota in Hrun. unfold mbind at 1 in Hrun.
    destruct (doRequest_headers_runs reqheaders (_key self) ctype accept w)
      as (d & w1 & Hh & Htr & Hcn). rewrite Hh in Hrun.
    exists (_key self), w, d, w1. split; [reflexivity|]. split; [exact Hh|].
    unfold mbind at 1 in Hrun. unfold read_dict at 1 in Hrun.
    unfold mbind at 1 in Hrun.
    destruct (con_request_cases net SessionCon method path_ body
                (default ∅ (store w1 !! d)) w1)
      as [(descr & Hnet & Hr)|(Hnet & Hr)]; rewrite Hr in Hrun.
    + now subst run.
    + unfold mbind at 1 in Hrun. rewrite doRequest_response_of in Hrun.
      match type of Hrun with
      | context [response_of ?x] =>
          destruct (response_of x) as [[[status reason] headers] data]
      end.
      now subst run.
  - right. cbv beta iota in Hrun. unfold mbind at 1 in Hrun.
    match type of Hrun with
    | context [doRequest_headers reqheaders None ctype accept ?w0] =>
        destruct (doRequest_headers_runs reqheaders None ctype accept w0)
          as (d & w1 & Hh & Htr & Hcn); rewrite Hh in Hrun;
        exists None, w0, d, w1
    end.
    split; [reflexivity|]. split; [exact Hh|].
    unfold mbind at 1 in Hrun. unfold read_dict at 1 in Hrun.
    unfold mbind at 1 in Hrun.
    destruct (con_request_cases net (NewCon (conns w)) method path_ body
                (default ∅ (store w1 !! d)) w1)
      as [(descr & Hnet & Hr)|(Hnet & Hr)]; rewrite Hr in Hrun.
    + now subst run.
    + unfold mbind at 1 in Hrun. rewrite doRequest_response_of in Hrun.
      match type of Hrun with
      | context [response_of ?x] =>
          destruct (response_of x) as [[[status reason] headers] data]
      end.
      now subst run.
Qed.

(** X11. The data [doRequest] returns are [None] exactly when the
    status it returns is outside 200..299; this covers the status 900 of
    a failed response. *)
Theorem doRequest_data_only_2xx (self : HTTP_Session)
    (uripath method : string) (body ctype accept : option string)
    (reqheaders : option nat) (exthost : bool) (w w' : world)
    (status : Z) (reason : string) (headers : gmap string hvalue)
    (data : option string) :
  doRequest urljoin urlsplit net self uripath method body ctype accept
    reqheaders exthost w
  = (Ret (status, reason, headers, data), w') ->
  data = None <-> (status <? 200)%Z || (300 <=? status)%Z = true.
Proof.
  intros Hrun.
  pose proof (doRequest_outcome urljoin urlsplit net self uripath method body
                ctype accept reqheaders exthost w) as Hout.
  cbv zeta in Hout. rewrite Hrun in Hout. simpl in Hout.
  destruct Hout as [(_ & msg & value & Hbad)|[(descr & _ & Hbad)|Hok]];
    [discriminate Hbad|discriminate Hbad|].
  destruct Hok as (tr & _ & _ & Hrsp).
  destruct (net tr) as [d|d|s0 r0 h0 d|s0 r0 h0 d0]; simpl in Hrsp;
    injection Hrsp as -> -> -> ->; try (split; reflexivity).
  destruct ((s0 <? 200)%Z || (300 <=? s0)%Z); split; congruence.
Qed.

(** X12. A request to the endpoint of a session that has a key is sent,
    on the connection of the session and as the only request of the call,
    with the header authorization: Bearer key, whatever the caller's
    dictionary held under that name. *)
Theorem doRequest_sends_key (self : HTTP_Session) (uripath method : string)
    (body ctype accept : option string) (reqheaders : option nat)
    (exthost : bool) (w : world) (k : string) :
  differs self (urlsplit (getpathuri urljoin self uripath)) = false ->
  _key self = Some k ->
  nonempty k = true ->
  match reqheaders with
  | Some d => d < List.length (store w)
  | None => True
  end ->
  let run := doRequest urljoin urlsplit net self uripath method body ctype
               accept reqheaders exthost w in
  exists path_ sent,
    trace (snd run) = trace w ++ [EvRequest SessionCon method path_ body sent]
    /\ sent !! "authorization" = Some ("Bearer " +:+ k).
Proof.
  intros Hsame Hkey Hk Hvalid. cbv zeta.
  destruct (doRequest_same_host_run urljoin urlsplit net self uripath method
              body ctype accept reqheaders exthost w Hsame)
    as (d & w1 & path_ & Hh & _ & Htr).
  destruct (doRequest_headers_key reqheaders k ctype accept w Hk Hvalid)
    as (d' & w1' & m & Hh' & Hm & Ha & _).
  rewrite Hkey in Hh. rewrite Hh in Hh'. injection Hh' as <- <-.
  exists path_, m. split; [|exact Ha]. rewrite Htr. now rewrite Hm.
Qed.

(** X13. A request to the endpoint of a session that has a key writes
    the authorization header into the caller's dictionary when that is
    not empty: the entry is there after the call, whether the call
    returned or raised. *)
Theorem doRequest_writes_caller_dict (self : HTTP_Session)
    (uripath method : string) (body ctype accept : option string)
    (d : nat) (h : gmap string string) (exthost : bool) (w : world)
    (k : string) :
  differs self (urlsplit (getpathuri urljoin self uripath)) = false ->
  _key self = Some k ->
  nonempty k = true ->
  store w !! d = Some h ->
  h <> ∅ ->
  let run := doRequest urljoin urlsplit net self uripath method body ctype
               accept (Some d) exthost w in
  exists m,
    store (snd run) !! d = Some m
    /\ m !! "authorization" = Some ("Bearer " +:+ k).
Proof.
  intros Hsame Hkey Hk Hd Hne. cbv zeta.
  destruct (doRequest_same_host_run urljoin urlsplit net self uripath method
              body ctype accept (Some d) exthost w Hsame)
    as (d1 & w1 & path_ & Hh & Hst & _).
  destruct (doRequest_headers_key (Some d) k ctype accept w Hk)
    as (d' & w1' & m & Hh' & Hm & Ha & Hsame_d).
  { now apply lookup_lt_Some in Hd. }
  rewrite Hkey in Hh. rewrite Hh in Hh'. injection Hh' as <- <-.
  rewrite (Hsame_d d h eq_refl Hd Hne) in Hm.
  exists m. split; [|exact Ha]. now rewrite Hst.
Qed.

(** X14. A call without a dictionary of the caller, or with an empty
    one, changes none of the dictionaries that exist: it adds at most one
    new dictionary after them. *)
Theorem doRequest_keeps_dicts (self : HTTP_Session) (uripath method : string)
    (body ctype accept : option string) (reqheaders : option nat)
    (exthost : bool) (w : world) :
  match reqheaders with
  | Some d => default ∅ (store w !! d) = ∅
  | None => True
  end ->
  let run := doRequest urljoin urlsplit net self uripath method body ctype
               accept reqheaders exthost w in
  store w `prefix_of` store (snd run).
Proof.
  intros Hnew. cbv zeta.
  destruct (doRequest_store self uripath method body ctype accept reqheaders
              exthost w) as [->|(usekey & w0 & d & w1 & Hw0 & Hh & ->)];
    [reflexivity|].
  destruct (doRequest_headers_new reqheaders usekey ctype accept w0)
    as (w1' & m & Hh' & Hst).
  { now rewrite Hw0. }
  rewrite Hh in Hh'. injection Hh' as _ <-. rewrite Hst, Hw0.
  now apply prefix_app_r.
Qed.

End DoRequestStore.

(** * Further properties of the redirect follower *)

(** The number of requests in a trace. *)
Definition requests (tr : list event) : nat :=
  List.length (sent_headers tr).

(** [adds_at_most n m]: the computation [m] sends at most [n] requests. *)
Definition adds_at_most {A : Type} (n : nat) (m : M A) : Prop :=
  forall w, requests (trace (snd (m w))) <= requests (trace w) + n.

Lemma adds_mret {A : Type} (a : A) : adds_at_most 0 (mret a).
Proof. intros w. simpl. lia. Qed.

Lemma adds_mraise {A : Type} (e : exn) : adds_at_most 0 (@mraise A e).
Proof. intros w. simpl. lia. Qed.

Lemma adds_mbind {A B : Type} (a b : nat) (m : M A) (k : A -> M B) :
  adds_at_most a m ->
  (forall x, adds_at_most b (k x)) ->
  adds_at_most (a + b) (mbind m k).
Proof.
  intros Hm Hk w. unfold mbind. specialize (Hm w).
  destruct (m w) as [[x| |] w1]; simpl in *; [|lia|lia].
  specialize (Hk x w1). lia.
Qed.

Lemma adds_weaken {A : Type} (a b : nat) (m : M A) :
  a <= b -> adds_at_most a m -> adds_at_most b m.
Proof. intros Hab Hm w. specialize (Hm w). lia. Qed.

Lemma requests_app (t1 t2 : list event) :
  requests (t1 ++ t2) = requests t1 + requests t2.
Proof.
  unfold requests, sent_headers. now rewrite List.flat_map_app, length_app.
Qed.

Section FollowRedirect.

Variable urljoin : string -> string -> string.
Variable urlsplit : string -> SplitResult.
Variable repr_headerlist : list (string * string) -> string.
Variable net : list event -> exchange.

Lemma adds_headers_get (headers : gmap string hvalue) (k : string) :
  adds_at_most 0 (headers_get headers k).
Proof.
  unfold headers_get. destruct (headers !! k); [apply adds_mret|apply adds_mraise].
Qed.

(** A call of [doRequest] sends at most one request. *)
Lemma adds_doRequest (self : HTTP_Session) (uripath method : string)
    (body ctype accept : option string) (reqheaders : option nat)
    (exthost : bool) :
  adds_at_most 1 (doRequest urljoin urlsplit net self uripath method body
                    ctype accept reqheaders exthost).
Proof.
  intros w.
  remember (doRequest urljoin urlsplit net self uripath method body ctype
              accept reqheaders exthost w) as run eqn:Hrun.
  unfold doRequest in Hrun.
  set (parts := urlsplit (getpathuri urljoin self uripath)) in Hrun.
  set (path_ := if nonempty (query parts) then _ else _) in Hrun.
  unfold mbind at 1 in Hrun.
  destruct (doRequest_connection_cases self parts exthost w)
    as [(Hext & msg & value & Hc)|[Hc|(Hext & Hc)]]; rewrite Hc in Hrun.
  - subst run. simpl. lia.
  - cbv beta iota in Hrun. unfold mbind at 1 in Hrun.
    destruct (doRequest_headers_runs reqheaders (_key self) ctype accept w)
      as (d & w1 & Hh & Htr & Hcn). rewrite Hh in Hrun.
    unfold mbind at 1 in Hrun. unfold read_dict at 1 in Hrun.
    unfold mbind at 1 in Hrun.
    destruct (con_request_cases net SessionCon method path_ body
                (default ∅ (store w1 !! d)) w1)
      as [(descr & Hnet & Hr)|(Hnet & Hr)]; rewrite Hr in Hrun.
    + subst run. cbn [snd trace]. rewrite Htr, requests_app.
      unfold requests, sent_headers. simpl. lia.
    + unfold mbind at 1 in Hrun. rewrite doRequest_response_of in Hrun.
      match type of Hrun with
      | context [response_of ?x] =>
          destruct (response_of x) as [[[status reason] headers] data]
      end.
      subst run. cbn [snd fst mbind mret trace]. rewrite Htr, requests_app.
      unfold requests, sent_headers. simpl. lia.
  - cbv beta iota in Hrun. unfold mbind at 1 in Hrun.
    match type of Hrun with
    | context [doRequest_headers reqheaders None ctype accept ?w0] =>
        destruct (doRequest_headers_runs reqheaders None ctype accept w0)
          as (d & w1 & Hh & Htr & Hcn); rewrite Hh in Hrun
    end.
    unfold mbind at 1 in Hrun. unfold read_dict at 1 in Hrun.
    unfold mbind at 1 in Hrun.
    destruct (con_request_cases net (NewCon (conns w)) method path_ body
                (default ∅ (store w1 !! d)) w1)
      as [(descr & Hnet & Hr)|(Hnet & Hr)]; rewrite Hr in Hrun.
    + subst run. cbn [snd trace]. rewrite Htr. cbn [trace].
      rewrite !requests_app.
      unfold requests, sent_headers. simpl. lia.
    + unfold mbind at 1 in Hrun. rewrite doRequest_response_of in Hrun.
      match type of Hrun with
      | context [response_of ?x] =>
          destruct (response_of x) as [[[status reason] headers] data]
      end.
      subst run. cbn [snd fst mbind mret log trace]. rewrite Htr.
      cbn [trace]. rewrite !requests_app.
      unfold requests, sent_headers. simpl. lia.
Qed.

(** X15. Whatever the server answers, [doRequestFollowRedirect] sends at
    most three requests: the first one and two redirected ones. *)
Theorem doRequestFollowRedirect_three_requests (self : HTTP_Session)
    (uripath method : string) (body ctype accept : option string)
    (reqheaders : option nat) (exthost : bool) (w : world) :
  requests (trace (snd (doRequestFollowRedirect urljoin urlsplit
                          repr_headerlist net self uripath method body ctype
                          accept reqheaders exthost w)))
  <= requests (trace w) + 3.
Proof.
  revert w. change (adds_at_most 3
                      (doRequestFollowRedirect urljoin urlsplit
                         repr_headerlist net self uripath method body ctype
                         accept reqheaders exthost)).
  unfold doRequestFollowRedirect.
  apply (adds_mbind 1 2); [apply adds_doRequest|].
  intros [[[status reason] headers] data].
  apply (adds_mbind 1 1).
  - destruct (status_in status [302; 303; 307]%Z).
    + apply (adds_mbind 0 1); [apply adds_headers_get|]. intros location.
      apply (adds_mbind 1 0); [apply adds_doRequest|]. intros rsp.
      apply adds_mret.
    + apply (adds_weaken 0 1); [lia|apply adds_mret].
  - intros [[[[status1 reason1] headers1] data1] uripath1].
    apply (adds_mbind 1 0).
    + destruct (status_in status1 [302; 307]%Z).
      * apply (adds_mbind 0 1); [apply adds_headers_get|]. intros location.
        apply (adds_mbind 1 0); [apply adds_doRequest|]. intros rsp.
        apply adds_mret.
      * apply (adds_weaken 0 1); [lia|apply adds_mret].
    + intros [[[[status2 reason2] headers2] data2] uripath2].
      apply adds_mret.
Qed.

Lemma status_not_redirect (status : Z) :
  status_in status [302; 303; 307]%Z = false ->
  status_in status [302; 307]%Z = false.
Proof.
  unfold status_in. simpl. intros H.
  apply orb_false_iff in H as [H1 H]. apply orb_false_iff in H as [_ H].
  now rewrite H1, H.
Qed.

(** X16. When the first response is not a 302, 303 or 307,
    [doRequestFollowRedirect] returns it with the URI it was called with,
    and does nothing more. *)
Theorem doRequestFollowRedirect_no_redirect (self : HTTP_Session)
    (uripath method : string) (body ctype accept : option string)
    (reqheaders : option nat) (exthost : bool) (w w1 : world)
    (status : Z) (reason : string) (headers : gmap string hvalue)
    (data : option string) :
  doRequest urljoin urlsplit net self uripath method body ctype accept
    reqheaders exthost w
  = (Ret (status, reason, headers, data), w1) ->
  status_in status [302; 303; 307]%Z = false ->
  doRequestFollowRedirect urljoin urlsplit repr_headerlist net self uripath
    method body ctype accept reqheaders exthost w
  = (Ret (status, reason, headers, uripath, data), w1).
Proof.
  intros Hrun Hst. unfold doRequestFollowRedirect.
  unfold mbind at 1. rewrite Hrun. cbv beta iota. rewrite Hst.
  unfold mbind at 1. unfold mret at 1. cbv beta iota.
  rewrite (status_not_redirect _ Hst). reflexivity.
Qed.

(** X17. A redirect response without a location header makes
    [doRequestFollowRedirect] raise KeyError. *)
Theorem doRequestFollowRedirect_no_location (self : HTTP_Session)
    (uripath method : string) (body ctype accept : option string)
    (reqheaders : option nat) (exthost : bool) (w w1 : world)
    (status : Z) (reason : string) (headers : gmap string hvalue)
    (data : option string) :
  doRequest urljoin urlsplit net self uripath method body ctype accept
    reqheaders exthost w
  = (Ret (status, reason, headers, data), w1) ->
  status_in status [302; 303; 307]%Z = true ->
  headers !! "location" = None ->
  doRequestFollowRedirect urljoin urlsplit repr_headerlist net self uripath
    method body ctype accept reqheaders exthost w
  = (Raise (KeyError "location"), w1).
Proof.
  intros Hrun Hst Hloc. unfold doRequestFollowRedirect.
  unfold mbind at 1. rewrite Hrun. cbv beta iota. rewrite Hst.
  unfold mbind at 1. unfold mbind at 1. unfold headers_get. rewrite Hloc.
  reflexivity.
Qed.

(** X18. After two redirects the third response is returned as it is,
    with the second location as final URI, also when it is a redirect
    itself; the third request is made without the accept argument. *)
Theorem doRequestFollowRedirect_third_response (self : HTTP_Session)
    (uripath method : string) (body ctype accept : option string)
    (reqheaders : option nat) (exthost : bool) (w w1 w2 w3 : world)
    (status1 status2 status3 : Z) (reason1 reason2 reason3 : string)
    (headers1 headers2 headers3 : gmap string hvalue)
    (data1 data2 data3 : option string) (location1 location2 : string) :
  doRequest urljoin urlsplit net self uripath method body ctype accept
    reqheaders exthost w
  = (Ret (status1, reason1, headers1, data1), w1) ->
  status_in status1 [302; 303; 307]%Z = true ->
  headers1 !! "location" = Some (HStr location1) ->
  doRequest urljoin urlsplit net self location1 method body ctype accept
    reqheaders exthost w1
  = (Ret (status2, reason2, headers2, data2), w2) ->
  status_in status2 [302; 307]%Z = true ->
  headers2 !! "location" = Some (HStr location2) ->
  doRequest urljoin urlsplit net self location2 method body ctype None
    reqheaders exthost w2
  = (Ret (status3, reason3, headers3, data3), w3) ->
  doRequestFollowRedirect urljoin urlsplit repr_headerlist net self uripath
    method body ctype accept reqheaders exthost w
  = (Ret (status3, reason3, headers3, location2, data3), w3).
Proof.
  intros Hrun1 Hst1 Hloc1 Hrun2 Hst2 Hloc2 Hrun3.
  unfold doRequestFollowRedirect.
  unfold mbind at 1. rewrite Hrun1. cbv beta iota. rewrite Hst1.
  unfold mbind at 1. unfold mbind at 1. unfold headers_get at 1.
  rewrite Hloc1. unfold mret at 1. cbn [py_str].
  unfold mbind at 1. rewrite Hrun2. unfold mret at 1. cbv beta iota.
  rewrite Hst2.
  unfold mbind at 1. unfold mbind at 1. unfold headers_get at 1.
  rewrite Hloc2. unfold mret at 1. cbn [py_str].
  unfold mbind at 1. rewrite Hrun3. reflexivity.
Qed.

(** X19. A second response with status 303, or any status other than
    302 and 307, ends the chase: it is returned with the first location
    as final URI. *)
Theorem doRequestFollowRedirect_second_response (self : HTTP_Session)
    (uripath method : string) (body ctype accept : option string)
    (reqheaders : option nat) (exthost : bool) (w w1 w2 : world)
    (status1 status2 : Z) (reason1 reason2 : string)
    (headers1 headers2 : gmap string hvalue)
    (data1 data2 : option string) (location1 : string) :
  doRequest urljoin urlsplit net self uripath method body ctype accept
    reqheaders exthost w
  = (Ret (status1, reason1, headers1, data1), w1) ->
  status_in status1 [302; 303; 307]%Z = true ->
  headers1 !! "location" = Some (HStr location1) ->
  doRequest urljoin urlsplit net self location1 method body ctype accept
    reqheaders exthost w1
  = (Ret (status2, reason2, headers2, data2), w2) ->
  status_in status2 [302; 307]%Z = false ->
  doRequestFollowRedirect urljoin urlsplit repr_headerlist net self uripath
    method body ctype accept reqheaders exthost w
  = (Ret (status2, reason2, headers2, location1, data2), w2).
Proof.
  intros Hrun1 Hst1 Hloc1 Hrun2 Hst2.
  unfold doRequestFollowRedirect.
  unfold mbind at 1. rewrite Hrun1. cbv beta iota. rewrite Hst1.
  unfold mbind at 1. unfold mbind at 1. unfold headers_get at 1.
  rewrite Hloc1. unfold mret at 1. cbn [py_str].
  unfold mbind at 1. rewrite Hrun2. unfold mret at 1. cbv beta iota.
  rewrite Hst2. reflexivity.
Qed.

End FollowRedirect.

(** * Further properties of doRequestRDF *)

Lemma mbind_Ret_inv {A B : Type} (m : M A) (k : A -> M B) (w w' : world)
    (r : B) :
  mbind m k w = (Ret r, w') ->
  exists a w1, m w = (Ret a, w1) /\ k a w1 = (Ret r, w').
Proof.
  unfold mbind. destruct (m w) as [[a| |] w1]; [eauto|discriminate..].
Qed.

Definition is_2xx (status : Z) : bool :=
  (200 <=? status)%Z && (status <? 300)%Z.

Section DoRequestRDFMore.

Variable urljoin : string -> string -> string.
Variable urlsplit : string -> SplitResult.
Variable net : list event -> exchange.
Variable requests_get : list event -> string -> res requests_response.
Variable session_get : nat -> list event -> string -> res requests_response.
Variable json_loads : string -> res json.
Variable rdf_parse : Graph -> pydata -> string -> res Graph.

Lemma rdf_response_2xx_graph (uripath : string) (graph_ : option Graph)
    (status0 : Z) (reason0 : string) (headers0 : gmap string hvalue)
    (data0 : pydata) (w w' : world) (status : Z) (reason : string)
    (headers : gmap string hvalue) (data : pydata) :
  rdf_response rdf_parse uripath graph_ status0 reason0 headers0 data0 w
  = (Ret (status, reason, headers, data), w') ->
  is_2xx status = true ->
  exists g, data = DGraph g.
Proof.
  unfold rdf_response, is_2xx.
  destruct ((200 <=? status0)%Z && (status0 <? 300)%Z) eqn:H0.
  - intros Hrun H2.
    apply mbind_Ret_inv in Hrun as (ct & w1 & _ & Hrun).
    apply mbind_Ret_inv in Hrun as (ct' & w2 & _ & Hrun).
    destruct (RDF_CONTENT_TYPES !! lower (strip (split_head ";" ct')))
      as [format|].
    + apply mbind_Ret_inv in Hrun as ([] & w3 & _ & Hrun).
      destruct (rdf_parse _ _ _) as [g|e|].
      * injection Hrun as <- <- <- <- <-. eauto.
      * injection Hrun as <- _ _ _ _. discriminate H2.
      * discriminate Hrun.
    + injection Hrun as <- _ _ _ _. discriminate H2.
  - intros [= <- <- <- <- <-] H2. congruence.
Qed.

(** X20. Whenever [doRequestRDF] returns a status in 200..299, the data
    it returns are a parsed graph: on both of its paths a success that
    cannot be parsed comes back as 901 or 902. *)
Theorem doRequestRDF_2xx_graph (self : HTTP_Session)
    (uripath method : string) (body ctype : option string)
    (reqheaders : option nat) (exthost : bool) (graph_ : option Graph)
    (session : option nat) (w w' : world) (status : Z) (reason : string)
    (headers : gmap string hvalue) (data : pydata) :
  doRequestRDF urljoin urlsplit net requests_get session_get json_loads
    rdf_parse self uripath method body ctype reqheaders exthost graph_
    session w
  = (Ret (status, reason, headers, data), w') ->
  is_2xx status = true ->
  exists g, data = DGraph g.
Proof.
  unfold doRequestRDF. destruct (contains w3id_prefix uripath).
  - intros Hrun H2.
    apply mbind_Ret_inv in Hrun as (uri' & w1 & _ & Hrun).
    apply mbind_Ret_inv in Hrun as (rsp & w2 & _ & Hrun).
    apply mbind_Ret_inv in Hrun as (d & w3 & _ & Hrun).
    eapply rdf_response_2xx_graph; eauto.
  - intros Hrun H2.
    apply mbind_Ret_inv in Hrun as ([[[st rs] hd] d] & w1 & _ & Hrun).
    eapply rdf_response_2xx_graph; eauto.
Qed.

(** X21. On the [doRequest] path, a 2xx response without a content-type
    header makes [doRequestRDF] raise KeyError instead of returning a
    status. *)
Theorem doRequestRDF_no_content_type (self : HTTP_Session)
    (uripath method : string) (body ctype : option string)
    (reqheaders : option nat) (exthost : bool) (graph_ : option Graph)
    (session : option nat) (w w1 : world) (status : Z) (reason : string)
    (headers : gmap string hvalue) (data : option string) :
  contains w3id_prefix uripath = false ->
  doRequest urljoin urlsplit net self uripath method body ctype
    (Some ACCEPT_RDF_CONTENT_TYPES) reqheaders exthost w
  = (Ret (status, reason, headers, data), w1) ->
  is_2xx status = true ->
  headers !! "content-type" = None ->
  doRequestRDF urljoin urlsplit net requests_get session_get json_loads
    rdf_parse self uripath method body ctype reqheaders exthost graph_
    session w
  = (Raise (KeyError "content-type"), w1).
Proof.
  intros Hw3 Hrun H2 Hct. unfold doRequestRDF. rewrite Hw3.
  unfold mbind at 1. rewrite Hrun. cbv beta iota.
  unfold rdf_response. unfold is_2xx in H2. rewrite H2.
  unfold mbind at 1. unfold headers_get. now rewrite Hct.
Qed.

End DoRequestRDFMore.

(** * Further properties of ro_remote_metadata *)

Lemma prefix_append_false (a s : string) :
  s <> "" -> String.prefix (a +:+ s) a = false.
Proof.
  intros Hs. induction a as [|c a IH]; simpl.
  - destruct s; [congruence|reflexivity].
  - destruct (ascii_dec c c); [exact IH|congruence].
Qed.

Lemma prefix_refl (a : string) : String.prefix a a = true.
Proof.
  induction a as [|c a IH]; simpl; [reflexivity|].
  destruct (ascii_dec c c); [exact IH|congruence].
Qed.

(** X22. [isInternalResource] answers false for every resource whose URI
    is the RO URI followed by something, and true for the RO URI itself:
    no resource properly inside the RO is reported as internal. *)
Theorem isInternalResource_inside_false (rouri suffix : string) :
  suffix <> "" ->
  isInternalResource rouri (rouri +:+ suffix) = false
  /\ isInternalResource rouri rouri = true.
Proof.
  intros Hs. unfold isInternalResource, startswith.
  split; [now apply prefix_append_false|apply prefix_refl].
Qed.

Lemma isInternalResource_inside_false_witness :
  isInternalResource "http://example.org/ro/"
    ("http://example.org/ro/" +:+ "data/f.txt") = false
  /\ isInternalResource "http://example.org/ro/" "http://example.org/ro/"
     = true.
Proof.
  apply (isInternalResource_inside_false "http://example.org/ro/" "data/f.txt").
  discriminate.
Defined.

Section ManifestMore.

Variable graph_parse : list string -> string -> Graph * option exn.

(** X24. When the retrieval or the parse of the manifest raises,
    [_loadManifest] raises that exception to its caller, and the instance
    keeps the graph with the triples read before the failure. When this
    graph has at least one triple, the next call returns it without a
    fetch: the partial manifest is kept. When it has none, the next call
    fetches the manifest again. *)
Theorem _loadManifest_failure_kept (st : ro_state) (g : Graph) (e : exn) :
  truthy_graph (manifestgraph (self_ st)) = false ->
  dummyfortest (self_ st) = false ->
  graph_parse (fetched st) (manifesturi (self_ st)) = (g, Some e) ->
  let '(r1, st1) := _loadManifest graph_parse st in
  r1 = Raise e
  /\ manifestgraph (self_ st1) = Some g
  /\ fetched st1 = fetched st ++ [manifesturi (self_ st)]
  /\ (g <> [] -> _loadManifest graph_parse st1 = (Ret g, st1))
  /\ (g = [] ->
      fetched (snd (_loadManifest graph_parse st1))
      = fetched st1 ++ [manifesturi (self_ st)]).
Proof.
  intros Hfalse Hdummy Hparse.
  assert (_loadManifest graph_parse st
          = (Raise e,
             {| self_ := set_manifestgraph (self_ st) (Some g);
                fetched := fetched st ++ [manifesturi (self_ st)] |})) as ->.
  { unfold _loadManifest.
    assert (_loadManifest_fill graph_parse st
            = (Raise e,
               {| self_ := set_manifestgraph (self_ st) (Some g);
                  fetched := fetched st ++ [manifesturi (self_ st)] |}))
      as Hfill.
    { unfold _loadManifest_fill. simpl. now rewrite Hdummy, Hparse. }
    destruct (manifestgraph (self_ st)) as [g0|]; [|exact Hfill].
    now rewrite Hfalse. }
  split; [reflexivity|]. split; [reflexivity|]. split; [reflexivity|].
  split.
  - intros Hne. unfold _loadManifest. simpl.
    destruct g; [congruence|reflexivity].
  - intros ->. unfold _loadManifest, _loadManifest_fill. simpl.
    rewrite Hdummy.
    now destruct (graph_parse (fetched st ++ _) _) as [g1 [e1|]].
Qed.

(** X25. From an instance whose annotation graph is not yet there, or is
    empty, [_loadAnnotations] can only return a graph without triples,
    and only for a manifest without annotations: since the class has no
    method [_readAnnotationBody], no annotation body is ever merged. *)
Theorem _loadAnnotations_only_empty (st : ro_state) (g : Graph) :
  truthy_graph (roannotations (self_ st)) = false ->
  fst (_loadAnnotations graph_parse st) = Ret g ->
  g = []
  /\ exists m st1,
       _loadManifest graph_parse st = (Ret m, st1)
       /\ graph.subject_objects RO_annotatesAggregatedResource m = [].
Proof.
  intros Hfalse.
  assert (fst (_loadAnnotations_fill graph_parse st) = Ret g ->
          g = []
          /\ exists m st1,
               _loadManifest graph_parse st = (Ret m, st1)
               /\ graph.subject_objects RO_annotatesAggregatedResource m = [])
    as Hfill.
  { unfold _loadAnnotations_fill.
    destruct (_loadManifest graph_parse st) as [[m| |] st1];
      [|discriminate..].
    destruct (graph.subject_objects RO_annotatesAggregatedResource m)
      as [|[a s] l] eqn:Hso.
    - simpl. intros [= <-]. split; [reflexivity|]. eauto.
    - simpl. discriminate. }
  unfold _loadAnnotations.
  destruct (roannotations (self_ st)) as [a|]; [|exact Hfill].
  now rewrite Hfalse.
Qed.

End ManifestMore.

Section ComponentUriRel.

Variable urljoin : string -> string -> string.
Variable urlsplit : string -> SplitResult.
Variable urlunsplit : SplitResult -> string.

Lemma substring_all (s : string) :
  String.substring 0 (String.length s) s = s.
Proof. induction s as [|c s IH]; simpl; [reflexivity|now rewrite IH]. Qed.

Lemma prefix_substring (p s : string) :
  String.prefix p s = true ->
  p +:+ String.substring (String.length p)
          (String.length s - String.length p) s = s.
Proof.
  revert s. induction p as [|c p IH]; intros s Hp.
  - cbn [String.length append]. rewrite Nat.sub_0_r. apply substring_all.
  - destruct s as [|d s]; [discriminate Hp|]. simpl in Hp.
    destruct (ascii_dec c d) as [<-|]; [|discriminate Hp].
    cbn [String.length Nat.sub String.substring].
    change (String c p +:+ ?t) with (String c (p +:+ t)).
    f_equal. now apply IH.
Qed.

Lemma replace_first_hit (old new s : string) :
  String.prefix old s = true ->
  replace_first old new s
  = new +:+ String.substring (String.length old)
              (String.length s - String.length old) s.
Proof.
  intros H. destruct s as [|c s].
  - destruct old; [reflexivity|discriminate H].
  - cbn [replace_first]. now rewrite H.
Qed.

Lemma replace_first_prefix (p s : string) :
  String.prefix p s = true ->
  p +:+ replace_first p "" s = s.
Proof.
  intros Hp. rewrite (replace_first_hit _ _ _ Hp).
  cbn [append]. now apply prefix_substring.
Qed.

(** X26. When the component URI begins with the RO URI (both as the URL
    library writes them back), [getComponentUriRel] returns what follows
    the RO URI, so that the RO URI followed by the result is the component
    URI; otherwise it returns the path it was given. *)
Theorem getComponentUriRel_prefix (rouri path_ : string) :
  let file_uri := urlunsplit (urlsplit (urljoin rouri path_)) in
  let ro_uri := urlunsplit (urlsplit rouri) in
  (startswith file_uri ro_uri = true ->
   ro_uri +:+ getComponentUriRel urljoin urlsplit urlunsplit rouri path_
   = file_uri)
  /\ (startswith file_uri ro_uri = false ->
      getComponentUriRel urljoin urlsplit urlunsplit rouri path_ = path_).
Proof.
  cbv zeta. unfold getComponentUriRel, getComponentUri. split; intros H.
  - rewrite H. now apply replace_first_prefix.
  - now rewrite H.
Qed.

End ComponentUriRel.

(** * Instances of the further properties *)

Definition ex_get (net : list event -> exchange) (uripath : string)
    (accept : option string) (reqheaders : option nat) (exthost : bool)
    (w : world)
  : res (Z * string * gmap string hvalue * option string) * world :=
  doRequest ex_urljoin ex_urlsplit net ex_session uripath "GET" None None
    accept reqheaders exthost w.

Lemma doRequest_mismatch_refused_witness :
  exists msg value,
    (msg = "URI scheme mismatch" \/ msg = "URI host:port mismatch")
    /\ doRequest ex_urljoin ex_urlsplit net_turtle ex_session
         "http://other.example.net/y" "GET" None None None None false world0
       = (Raise (HTTP_Error msg value (_baseuri ex_session)), world0).
Proof.
  apply (doRequest_mismatch_refused ex_urljoin ex_urlsplit net_turtle
           ex_session "http://other.example.net/y" "GET" None None None None
           world0).
  vm_compute. reflexivity.
Defined.

Definition ex_foreign_run
  : res (Z * string * gmap string hvalue * option string) * world :=
  ex_get net_turtle "http://other.example.net/y" None None true world0.

Lemma doRequest_foreign_fresh_witness :
  exists path_ sent,
    trace (snd ex_foreign_run)
    = [EvNew 0 "other.example.net";
       EvRequest (NewCon 0) "GET" path_ None sent; EvClose (NewCon 0)]
    /\ sent !! "authorization" = None.
Proof.
  destruct (doRequest_foreign_fresh ex_urljoin ex_urlsplit net_turtle
              ex_session "http://other.example.net/y" "GET" None None None
              world0)
    as (path_ & sent & Htr & Hauth).
  - vm_compute. reflexivity.
  - exists (run_result ex_foreign_run None). vm_compute. reflexivity.
  - exists path_, sent. split; [exact Htr|exact Hauth].
Defined.

Lemma doRequest_data_only_2xx_witness :
  Some "<a> <b> <c> ." = None
  <-> (200 <? 200)%Z || (300 <=? 200)%Z = true.
Proof.
  apply (doRequest_data_only_2xx ex_urljoin ex_urlsplit net_turtle ex_session
           "http://example.org/ro/ann.ttl" "GET" None None None None false
           world0 (snd ex_turtle_run) 200%Z "OK" ex_turtle_headers
           (Some "<a> <b> <c> .")).
  vm_compute. reflexivity.
Defined.

Lemma doRequest_sends_key_witness :
  exists path_ sent,
    trace (snd (ex_get net_turtle "http://example.org/ro/ann.ttl" None None
                  false world0))
    = trace world0 ++ [EvRequest SessionCon "GET" path_ None sent]
    /\ sent !! "authorization" = Some ("Bearer " +:+ "KEY").
Proof.
  apply (doRequest_sends_key ex_urljoin ex_urlsplit net_turtle ex_session
           "http://example.org/ro/ann.ttl" "GET" None None None None false
           world0 "KEY").
  - vm_compute. reflexivity.
  - reflexivity.
  - reflexivity.
  - exact I.
Defined.

Lemma doRequest_writes_caller_dict_witness :
  exists m,
    store (snd (ex_get net_turtle "http://example.org/ro/ann.ttl" None
                  (Some 0) false world_slug)) !! 0
    = Some m
    /\ m !! "authorization" = Some ("Bearer " +:+ "KEY").
Proof.
  apply (doRequest_writes_caller_dict ex_urljoin ex_urlsplit net_turtle
           ex_session "http://example.org/ro/ann.ttl" "GET" None None None 0
           {["slug" := "f.txt"]} false world_slug "KEY").
  - vm_compute. reflexivity.
  - reflexivity.
  - reflexivity.
  - reflexivity.
  - apply map_non_empty_singleton.
Defined.

Lemma doRequest_keeps_dicts_witness :
  store world_slug
  `prefix_of` store (snd (ex_get net_turtle "http://example.org/ro/ann.ttl"
                            None None false world_slug)).
Proof.
  apply (doRequest_keeps_dicts ex_urljoin ex_urlsplit net_turtle ex_session
           "http://example.org/ro/ann.ttl" "GET" None None None None false
           world_slug).
  exact I.
Defined.

Lemma doRequestFollowRedirect_no_redirect_witness :
  doRequestFollowRedirect ex_urljoin ex_urlsplit ex_repr net_turtle
    ex_session "http://example.org/ro/ann.ttl" "GET" None None None None
    false world0
  = (Ret (200%Z, "OK", ex_turtle_headers, "http://example.org/ro/ann.ttl",
          Some "<a> <b> <c> ."), snd ex_turtle_run).
Proof.
  apply (doRequestFollowRedirect_no_redirect ex_urljoin ex_urlsplit ex_repr
           net_turtle ex_session "http://example.org/ro/ann.ttl" "GET" None
           None None None false world0 (snd ex_turtle_run) 200%Z "OK"
           ex_turtle_headers (Some "<a> <b> <c> .")).
  - vm_compute. reflexivity.
  - reflexivity.
Defined.

Definition ex_nowhere_run
  : res (Z * string * gmap string hvalue * option string) * world :=
  ex_get net_redirect_nowhere "http://example.org/ro/a" None None false world0.

Lemma doRequestFollowRedirect_no_location_witness :
  doRequestFollowRedirect ex_urljoin ex_urlsplit ex_repr net_redirect_nowhere
    ex_session "http://example.org/ro/a" "GET" None None None None false
    world0
  = (Raise (KeyError "location"), snd ex_nowhere_run).
Proof.
  apply (doRequestFollowRedirect_no_location ex_urljoin ex_urlsplit ex_repr
           net_redirect_nowhere ex_session "http://example.org/ro/a" "GET"
           None None None None false world0 (snd ex_nowhere_run) 302%Z
           "Found" (run_headers ex_nowhere_run) None).
  - vm_compute. reflexivity.
  - reflexivity.
  - vm_compute. reflexivity.
Defined.

Definition ex_hop1
  : res (Z * string * gmap string hvalue * option string) * world :=
  ex_get net_two_redirects "http://example.org/ro/a" (Some "text/turtle")
    None false world0.

Definition ex_hop2
  : res (Z * string * gmap string hvalue * option string) * world :=
  ex_get net_two_redirects "http://example.org/ro/b" (Some "text/turtle")
    None false (snd ex_hop1).

Definition ex_hop3
  : res (Z * string * gmap string hvalue * option string) * world :=
  ex_get net_two_redirects "http://example.org/ro/c" None None false
    (snd ex_hop2).

Lemma doRequestFollowRedirect_third_response_witness :
  doRequestFollowRedirect ex_urljoin ex_urlsplit ex_repr net_two_redirects
    ex_session "http://example.org/ro/a" "GET" None None (Some "text/turtle")
    None false world0
  = (Ret (200%Z, "OK", run_headers ex_hop3, "http://example.org/ro/c",
          Some "<a> <b> <c> ."), snd ex_hop3).
Proof.
  apply (doRequestFollowRedirect_third_response ex_urljoin ex_urlsplit
           ex_repr net_two_redirects ex_session "http://example.org/ro/a"
           "GET" None None (Some "text/turtle") None false world0
           (snd ex_hop1) (snd ex_hop2) (snd ex_hop3)
           302%Z 307%Z 200%Z "Found" "Temporary Redirect" "OK"
           (run_headers ex_hop1) (run_headers ex_hop2) (run_headers ex_hop3)
           None None (Some "<a> <b> <c> .")
           "http://example.org/ro/b" "http://example.org/ro/c");
    vm_compute; reflexivity.
Defined.

Definition ex_303_hop1
  : res (Z * string * gmap string hvalue * option string) * world :=
  ex_get net_two_303 "http://example.org/ro/a" None None false world0.

Definition ex_303_hop2
  : res (Z * string * gmap string hvalue * option string) * world :=
  ex_get net_two_303 "http://example.org/ro/b" None None false
    (snd ex_303_hop1).

Lemma doRequestFollowRedirect_second_response_witness :
  doRequestFollowRedirect ex_urljoin ex_urlsplit ex_repr net_two_303
    ex_session "http://example.org/ro/a" "GET" None None None None false
    world0
  = (Ret (303%Z, "See Other", run_headers ex_303_hop2,
          "http://example.org/ro/b", None), snd ex_303_hop2).
Proof.
  apply (doRequestFollowRedirect_second_response ex_urljoin ex_urlsplit
           ex_repr net_two_303 ex_session "http://example.org/ro/a" "GET"
           None None None None false world0 (snd ex_303_hop1)
           (snd ex_303_hop2) 303%Z 303%Z "See Other" "See Other"
           (run_headers ex_303_hop1) (run_headers ex_303_hop2) None None
           "http://example.org/ro/b");
    vm_compute; reflexivity.
Defined.

Lemma doRequestRDF_2xx_graph_witness :
  exists g, DGraph [(URIRef "a", URIRef "b", URIRef "c")] = DGraph g.
Proof.
  apply (doRequestRDF_2xx_graph ex_urljoin ex_urlsplit net_turtle
           ex_requests_get ex_session_get ex_json_loads ex_rdf_parse
           ex_session "http://example.org/ro/ann.ttl" "GET" None None None
           false None None world0 (snd ex_rdf_run) 200%Z "OK"
           ex_turtle_headers (DGraph [(URIRef "a", URIRef "b", URIRef "c")])).
  - vm_compute. reflexivity.
  - reflexivity.
Defined.

Definition ex_no_ctype_run
  : res (Z * string * gmap string hvalue * option string) * world :=
  ex_get net_no_content_type "http://example.org/ro/ann.ttl"
    (Some ACCEPT_RDF_CONTENT_TYPES) None false world0.

Lemma doRequestRDF_no_content_type_witness :
  doRequestRDF ex_urljoin ex_urlsplit net_no_content_type ex_requests_get
    ex_session_get ex_json_loads ex_rdf_parse ex_session
    "http://example.org/ro/ann.ttl" "GET" None None None false None None
    world0
  = (Raise (KeyError "content-type"), snd ex_no_ctype_run).
Proof.
  apply (doRequestRDF_no_content_type ex_urljoin ex_urlsplit
           net_no_content_type ex_requests_get ex_session_get ex_json_loads
           ex_rdf_parse ex_session "http://example.org/ro/ann.ttl" "GET" None
           None None false None None world0 (snd ex_no_ctype_run) 200%Z "OK"
           (run_headers ex_no_ctype_run) (Some "hello"));
    vm_compute; reflexivity.
Defined.

Lemma _loadManifest_cached_witness :
  _loadManifest typed_manifest_parse
    (snd (_loadManifest typed_manifest_parse empty_manifest_ro))
  = (Ret [(URIRef "http://example.org/ro/", RDF_type, RO_ResearchObject)],
     snd (_loadManifest typed_manifest_parse empty_manifest_ro)).
Proof.
  apply (_loadManifest_cached typed_manifest_parse empty_manifest_ro).
  - reflexivity.
  - discriminate.
Defined.

Lemma _loadManifest_failure_kept_witness :
  let '(r1, st1) := _loadManifest failing_parse empty_manifest_ro in
  r1 = Raise (TransportError "HTTP Error 404: Not Found")
  /\ manifestgraph (self_ st1) = Some []
  /\ fetched st1 = fetched empty_manifest_ro
                   ++ [manifesturi (self_ empty_manifest_ro)]
  /\ (@nil triple <> [] -> _loadManifest failing_parse st1 = (Ret [], st1))
  /\ (@nil triple = [] ->
      fetched (snd (_loadManifest failing_parse st1))
      = fetched st1 ++ [manifesturi (self_ empty_manifest_ro)]).
Proof.
  apply (_loadManifest_failure_kept failing_parse empty_manifest_ro []
           (TransportError "HTTP Error 404: Not Found")); reflexivity.
Defined.

Lemma _loadAnnotations_only_empty_witness :
  @nil triple = []
  /\ exists m st1,
       _loadManifest typed_manifest_parse empty_manifest_ro = (Ret m, st1)
       /\ graph.subject_objects RO_annotatesAggregatedResource m = [].
Proof.
  apply (_loadAnnotations_only_empty typed_manifest_parse empty_manifest_ro []);
    reflexivity.
Defined.

Lemma getComponentUriRel_prefix_witness :
  "http://example.org/ro/"
  +:+ getComponentUriRel ex_urljoin ex_urlsplit ex_urlunsplit
        "http://example.org/ro/" "http://example.org/ro/data/f.txt"
  = "http://example.org/ro/data/f.txt".
Proof.
  apply (proj1 (getComponentUriRel_prefix ex_urljoin ex_urlsplit
                  ex_urlunsplit "http://example.org/ro/"
                  "http://example.org/ro/data/f.txt")).
  vm_compute. reflexivity.
Defined.
